(** * SharePoint skill: the command-line pipelines and their observable behaviour

    A shallow embedding of the scripts of the repository that make up the
    pipelines ([sharepoint-auth.js], [get-tenant.js], [sharepoint-download.js],
    [sharepoint-list-files.js], [sharepoint-upload.js]), and of the parts of
    [setup.js] that read and write the credential file and test the
    credentials.

    Modelling conventions.
    - A JS string is the byte string of its UTF-8 encoding ([string]); a
      Buffer, a file content and an HTTP body are [list Byte.byte].
    - A script is a tree of interactions ([prog]): synchronous effects carry
      the rest of the synchronous code, an HTTPS request carries its response
      and error callbacks, exactly as the source passes them.  A [try]/[catch]
      ([try_catch]) covers the synchronous code of its block only, never the
      callbacks that the block registers.
    - [run] executes a tree against a server (a function of the earlier
      exchanges and the request) and a file system, and yields the final
      state (files, exchanges, standard output, standard error) and the exit
      code.
    - The builtins of the JavaScript runtime that the scripts call
      ([JSON.parse], [JSON.stringify], [new URL(..).href], [path.join], ...)
      are the fields of [NodeRuntime]; every theorem holds for every
      runtime.  A small runtime ([basic_runtime]) is given to execute the
      scripts on concrete inputs.
    - [https.request] and [https.get] check their options before anything is
      sent and throw on a request path, a header value or a protocol they
      refuse ([valid_request]); [run] and [try_catch] treat such a request as
      the exception it is.
    - Not modelled: stream errors in the middle of a body, failures of
      [fs.createWriteStream] (its file is taken to exist, empty, as soon as
      the stream is made), and the identity of files under different path
      texts in [files] (theorems that need it say so). *)

From Stdlib Require Import ZArith String Ascii List Lia.
From stdpp Require Import base gmap strings list pretty.

Set Warnings "-register-all".
Open Scope string_scope.

(** ** Strings *)

Definition bytes := list Byte.byte.

(** [buf.toString('utf8')] and [Buffer.from(s)] under the UTF-8 convention. *)
Definition utf8_decode (b : bytes) : string := string_of_list_byte b.
Definition utf8_encode (s : string) : bytes := list_byte_of_string s.

Definition str_of_codes (l : list N) : string :=
  string_of_list_ascii (map ascii_of_N l).

Fixpoint string_drop (n : nat) (s : string) : string :=
  match n, s with
  | O, _ => s
  | S n', String _ r => string_drop n' r
  | S _, EmptyString => EmptyString
  end.

(** The WhiteSpace and LineTerminator code points of ECMAScript, as UTF-8. *)
Definition js_whitespace : list string :=
  map str_of_codes
    [ [9]; [10]; [11]; [12]; [13]; [32]; [194; 160]; [225; 154; 128];
      [226; 128; 128]; [226; 128; 129]; [226; 128; 130]; [226; 128; 131];
      [226; 128; 132]; [226; 128; 133]; [226; 128; 134]; [226; 128; 135];
      [226; 128; 136]; [226; 128; 137]; [226; 128; 138]; [226; 128; 168];
      [226; 128; 169]; [226; 128; 175]; [226; 129; 159]; [227; 128; 128];
      [239; 187; 191] ]%N.

Fixpoint strip_prefixes (pats : list string) (fuel : nat) (s : string) : string :=
  match fuel with
  | O => s
  | S fuel' =>
      match List.find (fun w => String.prefix w s) pats with
      | Some w => strip_prefixes pats fuel' (string_drop (String.length w) s)
      | None => s
      end
  end.

(** [String.prototype.trim]. *)
Definition trim (s : string) : string :=
  let s1 := strip_prefixes js_whitespace (String.length s) s in
  String.rev
    (strip_prefixes (map String.rev js_whitespace) (String.length s1)
       (String.rev s1)).

(** [s.split] on the newline character. *)
Fixpoint split_newline (s : string) : list string :=
  match s with
  | EmptyString => [EmptyString]
  | String c r =>
      if Ascii.eqb c "010"%char then EmptyString :: split_newline r
      else match split_newline r with
           | h :: t => String c h :: t
           | [] => [String c EmptyString]
           end
  end.

(** The first ['='] of a line: the text before it and the text after it. *)
Fixpoint break_equals (s : string) : option (string * string) :=
  match s with
  | EmptyString => None
  | String c r =>
      if Ascii.eqb c "="%char then Some (EmptyString, r)
      else match break_equals r with
           | Some (k, v) => Some (String c k, v)
           | None => None
           end
  end.

(** A regular expression's [.] matches no line terminator
    (LF, CR, U+2028, U+2029). *)
Fixpoint has_line_terminator (s : string) : bool :=
  match s with
  | EmptyString => false
  | String c r =>
      Ascii.eqb c "010"%char || Ascii.eqb c "013"%char
      || String.prefix (str_of_codes [226; 128; 168]%N) s
      || String.prefix (str_of_codes [226; 128; 169]%N) s
      || has_line_terminator r
  end.

(** [line.match] of the credential parser: a non-empty key without an equals
    sign, the equals sign, and a rest without line terminator up to the end
    of the line.  The two groups, when the line matches. *)
Definition match_assignment (line : string) : option (string * string) :=
  match break_equals line with
  | Some (k, v) =>
      if bool_decide (k = EmptyString) || has_line_terminator v then None
      else Some (k, v)
  | None => None
  end.

Definition is_quote (c : ascii) : bool :=
  Ascii.eqb c "'"%char || Ascii.eqb c "034"%char.

Definition strip_leading_quote (s : string) : string :=
  match s with
  | String c r => if is_quote c then r else s
  | EmptyString => s
  end.

(** The [replace] of the credential parser: one leading and one trailing
    quote character (single or double) are removed. *)
Definition strip_quotes (s : string) : string :=
  String.rev (strip_leading_quote (String.rev (strip_leading_quote s))).

(** [s.replace(pat, empty)] for a string pattern: the first occurrence goes. *)
Fixpoint remove_first (pat s : string) : string :=
  if String.prefix pat s then string_drop (String.length pat) s
  else match s with
       | EmptyString => EmptyString
       | String c r => String c (remove_first pat r)
       end.

Definition hex_digit (n : N) : ascii :=
  if (n <? 10)%N then ascii_of_N (48 + n) else ascii_of_N (55 + n).

Definition percent_byte (c : ascii) : string :=
  let n := N_of_ascii c in
  String "%"%char (String (hex_digit (n / 16)) (String (hex_digit (n mod 16)) EmptyString)).

Definition is_alnum (c : ascii) : bool :=
  let n := N_of_ascii c in
  ((48 <=? n) && (n <=? 57) || (65 <=? n) && (n <=? 90) || (97 <=? n) && (n <=? 122))%N.

Definition in_chars (set : string) (c : ascii) : bool :=
  existsb (Ascii.eqb c) (list_ascii_of_string set).

(** [encodeURIComponent]: every byte but letters, digits and the marks
    - _ . ! ~ * ( ) and the apostrophe is escaped. *)
Fixpoint encodeURIComponent (s : string) : string :=
  match s with
  | EmptyString => EmptyString
  | String c r =>
      (if is_alnum c || in_chars "-_.!~*'()" c then String c EmptyString
       else percent_byte c) +:+ encodeURIComponent r
  end.

(** The application/x-www-form-urlencoded byte serializer. *)
Fixpoint form_urlencode (s : string) : string :=
  match s with
  | EmptyString => EmptyString
  | String c r =>
      (if is_alnum c || in_chars "*-._" c then String c EmptyString
       else if Ascii.eqb c " "%char then "+"
       else percent_byte c) +:+ form_urlencode r
  end.

(** [new URLSearchParams({..}).toString()]. *)
Definition URLSearchParams_toString (params : list (string * string)) : string :=
  String.concat "&"
    (map (fun kv => form_urlencode kv.1 +:+ "=" +:+ form_urlencode kv.2) params).

Definition newline : string := String "010"%char EmptyString.

(** The double quote character, as a string. *)
Definition dquote : string := String "034"%char EmptyString.

Definition quoted (s : string) : string := dquote +:+ s +:+ dquote.

(** ** JavaScript values and the runtime *)

(** JSON numbers are IEEE doubles; the scripts only test them for truthiness
    and convert them to text, so both operations are taken from the runtime. *)
Class NumberModel := {
  number : Type;
  Number_truthy : number -> bool;
  Number_toString : number -> string
}.

Inductive value `{NumberModel} : Type :=
| VUndefined
| VNull
| VBool (b : bool)
| VNum (n : number)
| VStr (s : string)
| VArr (items : list value)
| VObj (fields : list (string * value)).

(** The list result of the List operation, one JS object per remote item. *)
Module FileEntry.
Record t `{NumberModel} := {
  name : value;
  size : value;
  webUrl : value;
  downloadUrl : value;
  lastModified : value;
  isFolder : bool;
  type : value
}.
End FileEntry.

(** The builtins the scripts call.  [None] stands for a thrown exception. *)
Class NodeRuntime `{NumberModel} := {
  (** [JSON.parse(text)]; [None] is a SyntaxError. *)
  JSON_parse : string -> option value;
  (** [JSON.stringify(v, null, 2)]. *)
  JSON_stringify : value -> string;
  (** String conversion of an array or an object in a template literal;
      [None] is a TypeError. *)
  Object_toString : value -> option string;
  (** What [console.log] prints for a number, an array or an object. *)
  util_inspect : value -> string;
  (** [new URL(text).href]; [None] is a TypeError (invalid URL). *)
  URL_href : string -> option string;
  path_join : string -> string -> string;
  path_basename : string -> string
}.

Record process_env := { HOME : string; script_dir : string }.

(** ** HTTP *)

Inductive Target :=
| HostPath (hostname : string) (port : Z) (path : string)
| Url (href : string).

Record Request := {
  method : string;
  target : Target;
  req_headers : list (string * string);
  req_body : bytes
}.

(** [res.headers] has lower-case names, as Node presents them. *)
Record Response := {
  statusCode : Z;
  res_headers : list (string * string);
  res_body : bytes
}.

Inductive Reply :=
| Responded (res : Response)
| TransportError (message : string).

Definition exchange : Type := Request * Reply.

(** The remote side: what it answers to a request after the earlier exchanges. *)
Definition server : Type := list exchange -> Request -> Reply.

(** The entry of a key in an association list (properties, headers). *)
Definition assoc {A} (k : string) (l : list (string * A)) : option A :=
  snd <$> List.find (fun kv => bool_decide (kv.1 = k)) l.

(** *** What [https.request] refuses

    Node checks the options of a request before it sends anything, and
    throws a TypeError: a request path may hold no character outside
    U+0021..U+00FF (ERR_UNESCAPED_CHARACTERS), a header value only the tab
    and the characters U+0020..U+007E and U+0080..U+00FF (ERR_INVALID_CHAR),
    and [https.get] takes a URL of the https protocol only
    (ERR_INVALID_PROTOCOL).  In UTF-8 a character of U+0080..U+00FF is the
    byte 194 or 195 followed by one continuation byte; every other byte
    above 127 belongs to a character above U+00FF, or to none. *)
Fixpoint latin1 (ascii_ok : N -> bool) (s : string) : bool :=
  match s with
  | EmptyString => true
  | String c r =>
      let n := N_of_ascii c in
      if (n <? 128)%N then ascii_ok n && latin1 ascii_ok r
      else if (n =? 194)%N || (n =? 195)%N then
        match r with
        | String d r' =>
            (128 <=? N_of_ascii d)%N && (N_of_ascii d <=? 191)%N
            && latin1 ascii_ok r'
        | EmptyString => false
        end
      else false
  end.

Definition valid_path (path : string) : bool :=
  latin1 (fun n => (33 <=? n)%N) path.

Definition valid_header_value (v : string) : bool :=
  latin1 (fun n => (n =? 9)%N || (32 <=? n)%N && (n <=? 126)%N) v.

(** The requests that [https.request] and [https.get] accept.  The path of
    a URL is escaped by the URL parser, so only its protocol can be refused
    (the [href] of a URL has its protocol in lower case). *)
Definition valid_request (req : Request) : bool :=
  forallb (fun kv : string * string => valid_header_value kv.2) (req_headers req)
  && match target req with
     | HostPath _ _ path => valid_path path
     | Url href => String.prefix "https:" href
     end.

(** ** Scripts as interaction trees *)

Inductive prog : Type :=
| Return
| Throw (e : string)
| Exit (code : Z)
| ConsoleLog (line : string) (k : prog)
| ConsoleError (line : string) (k : prog)
| ExistsSync (path : string) (k : bool -> prog)
| StatSync (path : string) (k : option Z -> prog)
| ReadFileSync (path : string) (k : option bytes -> prog)
| CreateWriteStream (path : string) (k : prog)
| Unlink (path : string) (k : prog)
| ExecSync (command : string) (child : prog) (k : string + string -> prog)
| Pipe (body : bytes) (path : string) (on_finish : prog)
| HttpsRequest (req : Request) (on_response : Response -> prog)
    (on_error : string -> prog).

(** [try { body } catch (err) { handler }]: the requests and the stream that
    [body] starts keep their own callbacks, which run after the block; a
    request that [https.request] refuses is an exception of the block. *)
Fixpoint try_catch (body : prog) (handler : string -> prog) : prog :=
  match body with
  | Return => Return
  | Throw e => handler e
  | Exit c => Exit c
  | ConsoleLog l k => ConsoleLog l (try_catch k handler)
  | ConsoleError l k => ConsoleError l (try_catch k handler)
  | ExistsSync p k => ExistsSync p (fun b => try_catch (k b) handler)
  | StatSync p k => StatSync p (fun r => try_catch (k r) handler)
  | ReadFileSync p k => ReadFileSync p (fun r => try_catch (k r) handler)
  | CreateWriteStream p k => CreateWriteStream p (try_catch k handler)
  | Unlink p k => Unlink p (try_catch k handler)
  | ExecSync c child k => ExecSync c child (fun r => try_catch (k r) handler)
  | Pipe b p k => Pipe b p k
  | HttpsRequest r h he =>
      if valid_request r then HttpsRequest r h he else handler "TypeError"
  end.

Record state := {
  files : gmap string bytes;
  exchanges : list exchange;
  stdout : list string;
  stderr : list string
}.

Definition log_out (l : string) (s : state) : state :=
  {| files := files s; exchanges := exchanges s;
     stdout := stdout s ++ [l]; stderr := stderr s |}.

Definition log_err (l : string) (s : state) : state :=
  {| files := files s; exchanges := exchanges s;
     stdout := stdout s; stderr := stderr s ++ [l] |}.

Definition set_files (f : gmap string bytes) (s : state) : state :=
  {| files := f; exchanges := exchanges s;
     stdout := stdout s; stderr := stderr s |}.

Definition add_exchange (e : exchange) (s : state) : state :=
  {| files := files s; exchanges := exchanges s ++ [e];
     stdout := stdout s; stderr := stderr s |}.

(** The text a stream holds after one [console.log] per line. *)
Definition stream_text (lines : list string) : string :=
  String.concat EmptyString (map (fun l => l +:+ newline) lines).

(** A child process starts with the files and the network of its parent and
    with empty output streams. *)
Definition child_state (s : state) : state :=
  {| files := files s; exchanges := exchanges s; stdout := []; stderr := [] |}.

(** After [execSync] the parent keeps its standard output; the standard error
    of the child went to the parent's. *)
Definition after_child (s c : state) : state :=
  {| files := files c; exchanges := exchanges c;
     stdout := stdout s; stderr := stderr s ++ stderr c |}.

(** The message of the error [execSync] throws on a non-zero exit status. *)
Definition exec_error_message (command : string) (child_stderr : list string) : string :=
  "Command failed: " +:+ command +:+
  match child_stderr with
  | [] => EmptyString
  | _ => newline +:+ stream_text child_stderr
  end.

(** Execution.  An exception that reaches the event loop ends the process with
    exit code 1 after a report on standard error (abbreviated to one line);
    a process with nothing left to do ends with exit code 0.  [fs.unlink] is
    taken to complete.  A request that [https.request] refuses is such an
    exception, and nothing is sent. *)
Fixpoint run (p : prog) (srv : server) (s : state) : state * Z :=
  match p with
  | Return => (s, 0%Z)
  | Throw e => (log_err ("Uncaught " +:+ e) s, 1%Z)
  | Exit c => (s, c)
  | ConsoleLog l k => run k srv (log_out l s)
  | ConsoleError l k => run k srv (log_err l s)
  | ExistsSync p k => run (k (bool_decide (is_Some (files s !! p)))) srv s
  | StatSync p k =>
      run (k ((fun c : bytes => Z.of_nat (length c)) <$> files s !! p)) srv s
  | ReadFileSync p k => run (k (files s !! p)) srv s
  | CreateWriteStream p k => run k srv (set_files (<[p := []]> (files s)) s)
  | Unlink p k => run k srv (set_files (delete p (files s)) s)
  | ExecSync c child k =>
      let '(cs, code) := run child srv (child_state s) in
      if (code =? 0)%Z
      then run (k (inl (stream_text (stdout cs)))) srv (after_child s cs)
      else run (k (inr (exec_error_message c (stderr cs)))) srv (after_child s cs)
  | Pipe b p k => run k srv (set_files (<[p := b]> (files s)) s)
  | HttpsRequest r h he =>
      if valid_request r then
        let reply := srv (exchanges s) r in
        let s' := add_exchange (r, reply) s in
        match reply with
        | Responded res => run (h res) srv s'
        | TransportError m => run (he m) srv s'
        end
      else (log_err "Uncaught TypeError" s, 1%Z)
  end.

Section Scripts.
Context `{NodeRuntime}.

(** *** Value operations *)

Definition truthy (v : value) : bool :=
  match v with
  | VUndefined | VNull => false
  | VBool b => b
  | VNum n => Number_truthy n
  | VStr s => negb (bool_decide (s = EmptyString))
  | VArr _ | VObj _ => true
  end.

(** [v.k] for the property names the scripts read (none of them is defined on
    a builtin prototype): reading from [null] or [undefined] throws. *)
Definition get_prop (v : value) (k : string) : option value :=
  match v with
  | VUndefined | VNull => None
  | VObj fields => Some (default VUndefined (assoc k fields))
  | _ => Some VUndefined
  end.

(** [v?.k]. *)
Definition get_prop_opt (v : value) (k : string) : value :=
  default VUndefined (get_prop v k).

(** The string conversion of a template literal. *)
Definition ToString (v : value) : option string :=
  match v with
  | VUndefined => Some "undefined"
  | VNull => Some "null"
  | VBool true => Some "true"
  | VBool false => Some "false"
  | VNum n => Some (Number_toString n)
  | VStr s => Some s
  | VArr _ | VObj _ => Object_toString v
  end.

(** What [console.log(v)] and [console.error(v)] print. *)
Definition console_format (v : value) : string :=
  match v with
  | VUndefined => "undefined"
  | VNull => "null"
  | VBool true => "true"
  | VBool false => "false"
  | VStr s => s
  | _ => util_inspect v
  end.

(** *** The credential file (sharepoint-auth.js 18-51, get-tenant.js 12-34) *)

Definition envPath (env : process_env) : string :=
  path_join (HOME env) ".config/bobby/sharepoint.env".

(** The [forEach] over the lines: later assignments of a key win. *)
Definition parse_env (envContent : string) : gmap string string :=
  fold_left
    (fun credentials line =>
       match match_assignment line with
       | Some (k, v) => <[trim k := strip_quotes (trim v)]> credentials
       | None => credentials
       end)
    (split_newline envContent) ∅.

(** A property of [credentials] is a string or [undefined]. *)
Definition falsy (o : option string) : bool :=
  match o with
  | Some s => bool_decide (s = EmptyString)
  | None => true
  end.

(** [a || b]. *)
Definition or_else (a b : option string) : option string :=
  if falsy a then b else a.

Definition text (o : option string) : string := default "undefined" o.

Definition TENANT_of (credentials : gmap string string) : option string :=
  or_else (credentials !! "TEAMS_TENANT_ID") (credentials !! "TENANT").

Definition CLIENT_ID_of (credentials : gmap string string) : option string :=
  or_else (credentials !! "TEAMS_CLIENT_ID") (credentials !! "CLIENT_ID").

Definition CLIENT_SECRET_of (credentials : gmap string string) : option string :=
  or_else (credentials !! "TEAMS_CLIENT_SECRET") (credentials !! "CLIENT_SECRET").

(** *** sharepoint-auth.js *)

Definition token_request (TENANT CLIENT_ID CLIENT_SECRET : string) : Request :=
  let postData :=
    URLSearchParams_toString
      [ ("grant_type", "client_credentials");
        ("client_id", CLIENT_ID);
        ("client_secret", CLIENT_SECRET);
        ("scope", "https://graph.microsoft.com/.default") ] in
  {| method := "POST";
     target := HostPath "login.microsoftonline.com" 443
                 ("/" +:+ TENANT +:+ "/oauth2/v2.0/token");
     req_headers :=
       [ ("Content-Type", "application/x-www-form-urlencoded");
         ("Content-Length", pretty (String.length postData)) ];
     req_body := utf8_encode postData |}.

(** The response handler of the token request (lines 75-93). *)
Definition on_token_response (res : Response) : prog :=
  let data := utf8_decode (res_body res) in
  if (statusCode res =? 200)%Z then
    match JSON_parse data with
    | None => Throw "SyntaxError"
    | Some token =>
        match get_prop token "access_token" with
        | None => Throw "TypeError"
        | Some access_token => ConsoleLog (console_format access_token) Return
        end
    end
  else
    ConsoleError "ERROR: Token request failed"
      (ConsoleError ("Status: " +:+ pretty (statusCode res))
         (ConsoleError data (Exit 1))).

Definition on_request_error (e : string) : prog :=
  ConsoleError ("ERROR: " +:+ e) (Exit 1).

Definition sharepoint_auth (env : process_env) : prog :=
  ExistsSync (envPath env) (fun found =>
    if negb found then
      ConsoleError "ERROR: SharePoint credentials not found"
        (ConsoleError ("Expected: " +:+ envPath env) (Exit 1))
    else
      ReadFileSync (envPath env) (fun r =>
        match r with
        | None => Throw "ENOENT"
        | Some content =>
            let credentials := parse_env (utf8_decode content) in
            let TENANT := TENANT_of credentials in
            let CLIENT_ID := CLIENT_ID_of credentials in
            let CLIENT_SECRET := CLIENT_SECRET_of credentials in
            if falsy TENANT then
              ConsoleError "ERROR: Missing TEAMS_TENANT_ID or TENANT in sharepoint.env"
                (ConsoleError "Run setup.js to configure credentials" (Exit 1))
            else if falsy CLIENT_ID || falsy CLIENT_SECRET then
              ConsoleError
                "ERROR: Missing TEAMS_CLIENT_ID/CLIENT_ID or TEAMS_CLIENT_SECRET/CLIENT_SECRET in sharepoint.env"
                (ConsoleError "Run setup.js to configure credentials" (Exit 1))
            else
              HttpsRequest
                (token_request (text TENANT) (text CLIENT_ID) (text CLIENT_SECRET))
                on_token_response on_request_error
        end)).

(** *** get-tenant.js *)

Definition get_tenant (env : process_env) : prog :=
  ExistsSync (envPath env) (fun found =>
    if negb found then
      ConsoleError "ERROR: SharePoint credentials not found. Run setup.js first."
        (Exit 1)
    else
      ReadFileSync (envPath env) (fun r =>
        match r with
        | None => Throw "ENOENT"
        | Some content =>
            let credentials := parse_env (utf8_decode content) in
            let tenantId :=
              or_else (or_else (credentials !! "TEAMS_TENANT_ID")
                               (credentials !! "TENANT"))
                      (credentials !! "SHAREPOINT_TENANT") in
            if falsy tenantId then
              ConsoleError "ERROR: No tenant configured. Run setup.js first." (Exit 1)
            else
              ConsoleLog (remove_first ".onmicrosoft.com" (text tenantId)) Return
        end)).

(** *** The resolver chain, the same text in the three pipeline scripts *)

Definition hostname : string := "graph.microsoft.com".

Definition api_request (verb path token : string) (extra : list (string * string))
    (body : bytes) : Request :=
  {| method := verb;
     target := HostPath hostname 443 path;
     req_headers := ("Authorization", "Bearer " +:+ token) :: extra;
     req_body := body |}.

Definition makeRequest (path token : string) (callback : value -> prog) : prog :=
  HttpsRequest
    (api_request "GET" path token [("Accept", "application/json")] [])
    (fun res =>
       let data := utf8_decode (res_body res) in
       try_catch
         match JSON_parse data with
         | None => Throw "SyntaxError"
         | Some parsed => callback parsed
         end
         (fun _ =>
            ConsoleError "ERROR: Invalid JSON response"
              (ConsoleError data (Exit 1))))
    on_request_error.

(** [if (data.id) callback(data.id) else ...], shared by the two resolvers. *)
Definition with_id (what : string) (callback : value -> prog) (data : value) : prog :=
  match get_prop data "id" with
  | None => Throw "TypeError"
  | Some id =>
      if truthy id then callback id
      else ConsoleError ("ERROR: " +:+ what +:+ " not found")
             (ConsoleError (JSON_stringify data) (Exit 1))
  end.

Definition getSiteId (site token : string) (callback : value -> prog) : prog :=
  makeRequest ("/v1.0/sites/" +:+ site) token (with_id "Site" callback).

Definition getDriveId (siteId : value) (token : string) (callback : value -> prog) : prog :=
  match ToString siteId with
  | None => Throw "TypeError"
  | Some id =>
      makeRequest ("/v1.0/sites/" +:+ id +:+ "/drive") token (with_id "Drive" callback)
  end.

(** The two [execSync] calls and the nested resolver callbacks that open
    every pipeline script; [operation] is the body of the innermost callback. *)
Definition pipeline (env : process_env) (siteName : string)
    (operation : value -> string -> prog) : prog :=
  let authScript := path_join (script_dir env) "sharepoint-auth.js" in
  ExecSync ("node " +:+ authScript) (sharepoint_auth env) (fun r =>
    match r with
    | inr message =>
        ConsoleError "ERROR: Failed to get access token"
          (ConsoleError message (Exit 1))
    | inl out =>
        let token := trim out in
        let getTenantScript := path_join (script_dir env) "get-tenant.js" in
        ExecSync ("node " +:+ getTenantScript) (get_tenant env) (fun r =>
          match r with
          | inr message =>
              ConsoleError "ERROR: Failed to get tenant"
                (ConsoleError message (Exit 1))
          | inl out =>
              let tenant := trim out in
              let siteId := tenant +:+ ".sharepoint.com:/sites/" +:+ siteName in
              getSiteId siteId token (fun actualSiteId =>
                getDriveId actualSiteId token (fun driveId =>
                  operation driveId token))
          end)
    end).

(** *** sharepoint-download.js *)

(** The [finish] handler of the write stream. *)
Definition on_finish (outputPath : string) : prog :=
  ConsoleLog ("✓ Downloaded: " +:+ outputPath)
    (StatSync outputPath (fun r =>
       match r with
       | None => Throw "ENOENT"
       | Some size => ConsoleLog ("  Size: " +:+ pretty size +:+ " bytes") Return
       end)).

Definition downloadFromUrl (url outputPath : string) : prog :=
  CreateWriteStream outputPath
    (HttpsRequest
       {| method := "GET"; target := Url url; req_headers := []; req_body := [] |}
       (fun res => Pipe (res_body res) outputPath (on_finish outputPath))
       (fun e =>
          Unlink outputPath (ConsoleError ("ERROR: " +:+ e) (Exit 1)))).

Definition downloadFile (driveId : value) (filePath token outputPath : string) : prog :=
  let encodedPath := encodeURIComponent filePath in
  match ToString driveId with
  | None => Throw "TypeError"
  | Some id =>
      let apiPath := "/v1.0/drives/" +:+ id +:+ "/root:/" +:+ encodedPath +:+ ":/content" in
      CreateWriteStream outputPath
        (HttpsRequest (api_request "GET" apiPath token [] [])
           (fun res =>
              if (statusCode res =? 200)%Z then
                Pipe (res_body res) outputPath (on_finish outputPath)
              else if (statusCode res =? 302)%Z || (statusCode res =? 301)%Z then
                match assoc "location" (res_headers res) with
                | None => Throw "TypeError"
                | Some location =>
                    match URL_href location with
                    | None => Throw "TypeError"
                    | Some href => downloadFromUrl href outputPath
                    end
                end
              else
                let data := utf8_decode (res_body res) in
                ConsoleError "ERROR: Download failed"
                  (ConsoleError ("Status: " +:+ pretty (statusCode res))
                     (ConsoleError data (Exit 1))))
           on_request_error)
  end.

(** The output path: the third argument, or the base name of the remote
    path in the current directory when it is missing or empty. *)
Definition outputPath_of (filePath : string) (rest : list string) : string :=
  match rest with
  | o :: _ => if bool_decide (o = EmptyString)
              then "./" +:+ path_basename filePath else o
  | [] => "./" +:+ path_basename filePath
  end.

Definition sharepoint_download (env : process_env) (args : list string) : prog :=
  match args with
  | siteName :: filePath :: rest =>
      let outputPath := outputPath_of filePath rest in
      pipeline env siteName (fun driveId token =>
        downloadFile driveId filePath token outputPath)
  | _ =>
      ConsoleError "Usage: node sharepoint-download.js <site-name> <file-path> [output-path]"
        (ConsoleError EmptyString
           (ConsoleError "Examples:"
              (ConsoleError ("  node sharepoint-download.js TeamSite " +:+ quoted "document.docx")
                 (ConsoleError
                    ("  node sharepoint-download.js TeamSite "
                     +:+ quoted "General/document.docx" +:+ " ./downloads/report.docx")
                    (Exit 1)))))
  end.

(** *** sharepoint-list-files.js *)

(** [a || b] on values. *)
Definition or_value (a b : value) : value := if truthy a then a else b.

(** The arrow function of [data.value.map]; [None] is the TypeError of a
    property read on [null]. *)
Definition toFileEntry (item : value) : option FileEntry.t :=
  name ← get_prop item "name";
  size ← get_prop item "size";
  webUrl ← get_prop item "webUrl";
  downloadUrl ← get_prop item "@microsoft.graph.downloadUrl";
  lastModified ← get_prop item "lastModifiedDateTime";
  folder ← get_prop item "folder";
  file ← get_prop item "file";
  Some {| FileEntry.name := name;
          FileEntry.size := size;
          FileEntry.webUrl := webUrl;
          FileEntry.downloadUrl := downloadUrl;
          FileEntry.lastModified := lastModified;
          FileEntry.isFolder := truthy folder;
          FileEntry.type :=
            if truthy folder then VStr "folder"
            else or_value (get_prop_opt file "mimeType") (VStr "file") |}.

(** [array.map(f)], stopping at the first exception. *)
Fixpoint map_items (items : list value) : option (list FileEntry.t) :=
  match items with
  | [] => Some []
  | item :: rest =>
      e ← toFileEntry item;
      es ← map_items rest;
      Some (e :: es)
  end.

(** The object literal, in the order of its properties. *)
Definition entry_value (e : FileEntry.t) : value :=
  VObj [ ("name", FileEntry.name e);
         ("size", FileEntry.size e);
         ("webUrl", FileEntry.webUrl e);
         ("downloadUrl", FileEntry.downloadUrl e);
         ("lastModified", FileEntry.lastModified e);
         ("isFolder", VBool (FileEntry.isFolder e));
         ("type", FileEntry.type e) ].

(** The callback of [listFiles]: only an array has a [map] method. *)
Definition on_listing (data : value) : prog :=
  match get_prop data "value" with
  | None => Throw "TypeError"
  | Some v =>
      if truthy v then
        match v with
        | VArr items =>
            match map_items items with
            | None => Throw "TypeError"
            | Some files =>
                ConsoleLog (JSON_stringify (VArr (map entry_value files))) Return
            end
        | _ => Throw "TypeError"
        end
      else
        ConsoleError "ERROR: Unexpected response"
          (ConsoleError (JSON_stringify data) (Exit 1))
  end.

Definition listFiles (driveId : value) (folderPath token : string) : prog :=
  match ToString driveId with
  | None => Throw "TypeError"
  | Some id =>
      let apiPath :=
        if negb (bool_decide (folderPath = EmptyString)) then
          let encodedPath := encodeURIComponent folderPath in
          "/v1.0/drives/" +:+ id +:+ "/root:/" +:+ encodedPath +:+ ":/children"
        else
          "/v1.0/drives/" +:+ id +:+ "/root/children" in
      makeRequest apiPath token on_listing
  end.

(** The folder path: the second argument, or the empty string. *)
Definition folderPath_of (rest : list string) : string :=
  match rest with f :: _ => f | [] => EmptyString end.

Definition sharepoint_list_files (env : process_env) (args : list string) : prog :=
  match args with
  | siteName :: rest =>
      let folderPath := folderPath_of rest in
      pipeline env siteName (fun driveId token =>
        listFiles driveId folderPath token)
  | [] =>
      ConsoleError "Usage: node sharepoint-list-files.js <site-name> [folder-path]"
        (ConsoleError EmptyString
           (ConsoleError "Examples:"
              (ConsoleError "  node sharepoint-list-files.js TeamSite"
                 (ConsoleError
                    ("  node sharepoint-list-files.js TeamSite "
                     +:+ quoted "Shared Documents/General")
                    (Exit 1)))))
  end.

(** *** sharepoint-upload.js *)

(** [console.log] of a template with one property of the response. *)
Definition log_property (before : string) (result : value) (k after : string)
    (rest : prog) : prog :=
  match get_prop result k ≫= ToString with
  | None => Throw "TypeError"
  | Some s => ConsoleLog (before +:+ s +:+ after) rest
  end.

Definition on_upload_response (res : Response) : prog :=
  let data := utf8_decode (res_body res) in
  if (statusCode res =? 200)%Z || (statusCode res =? 201)%Z then
    try_catch
      match JSON_parse data with
      | None => Throw "SyntaxError"
      | Some result =>
          log_property "✓ Uploaded: " result "name" EmptyString
            (log_property "  URL: " result "webUrl" EmptyString
               (log_property "  Size: " result "size" " bytes" Return))
      end
      (fun _ => ConsoleLog "✓ Upload successful" Return)
  else
    ConsoleError "ERROR: Upload failed"
      (ConsoleError ("Status: " +:+ pretty (statusCode res))
         (ConsoleError data (Exit 1))).

Definition uploadSmallFile (driveId : value) (remotePath localFile token : string) : prog :=
  let encodedPath := encodeURIComponent remotePath in
  match ToString driveId with
  | None => Throw "TypeError"
  | Some id =>
      let apiPath := "/v1.0/drives/" +:+ id +:+ "/root:/" +:+ encodedPath +:+ ":/content" in
      ReadFileSync localFile (fun r =>
        match r with
        | None => Throw "ENOENT"
        | Some fileContent =>
            HttpsRequest
              (api_request "PUT" apiPath token
                 [ ("Content-Type", "application/octet-stream");
                   ("Content-Length", pretty (length fileContent)) ]
                 fileContent)
              on_upload_response on_request_error
        end)
  end.

Definition uploadLargeFile (driveId : value) (remotePath localFile token : string) : prog :=
  ConsoleError "Large file upload (>4MB) not yet implemented"
    (ConsoleError
       "Use simple upload by splitting file or implement resumable upload session"
       (Exit 1)).

Definition sharepoint_upload (env : process_env) (args : list string) : prog :=
  match args with
  | siteName :: localFile :: remotePath :: _ =>
      ExistsSync localFile (fun found =>
        if negb found then
          ConsoleError ("ERROR: Local file not found: " +:+ localFile) (Exit 1)
        else
          StatSync localFile (fun r =>
            match r with
            | None => Throw "ENOENT"
            | Some fileSize =>
                ConsoleError ("Uploading: " +:+ localFile +:+ " → " +:+ remotePath)
                  (ConsoleError ("Size: " +:+ pretty fileSize +:+ " bytes")
                     (pipeline env siteName (fun driveId token =>
                        if (fileSize <? 4 * 1024 * 1024)%Z then
                          uploadSmallFile driveId remotePath localFile token
                        else
                          uploadLargeFile driveId remotePath localFile token)))
            end))
  | _ =>
      ConsoleError "Usage: node sharepoint-upload.js <site-name> <local-file> <remote-path>"
        (ConsoleError EmptyString
           (ConsoleError "Examples:"
              (ConsoleError
                 ("  node sharepoint-upload.js TeamSite ./document.pdf "
                  +:+ quoted "document.pdf")
                 (ConsoleError
                    ("  node sharepoint-upload.js TeamSite ./file.txt "
                     +:+ quoted "General/file.txt")
                    (Exit 1)))))
  end.

End Scripts.

(** ** A runtime to execute the scripts

    Numbers are integers; JSON texts hold no escape sequence and no
    fraction; URLs and paths are not normalised.  The theorems below do not
    depend on it: it only runs the scripts on the concrete inputs of the
    examples. *)

Module Basic.

#[export] Instance numbers : NumberModel :=
  {| number := Z;
     Number_truthy := fun n => negb (n =? 0)%Z;
     Number_toString := fun n => pretty n |}.

Fixpoint skip_ws (s : string) : string :=
  match s with
  | String c r => if in_chars (str_of_codes [32; 9; 10; 13]%N) c then skip_ws r else s
  | EmptyString => s
  end.

(** The characters of a string literal after its opening quote. *)
Fixpoint scan_string (s : string) : option (string * string) :=
  match s with
  | EmptyString => None
  | String c r =>
      if Ascii.eqb c "034"%char then Some (EmptyString, r)
      else if Ascii.eqb c "\"%char then None
      else '(t, rest) ← scan_string r; Some (String c t, rest)
  end.

Definition is_digit (c : ascii) : bool :=
  let n := N_of_ascii c in ((48 <=? n) && (n <=? 57))%N.

Fixpoint scan_digits (acc : Z) (s : string) : Z * string :=
  match s with
  | String c r =>
      if is_digit c
      then scan_digits (10 * acc + Z.of_N (N_of_ascii c - 48)) r
      else (acc, s)
  | EmptyString => (acc, s)
  end.

Definition scan_number (s : string) : option (Z * string) :=
  match s with
  | String "-" (String c _ as r) =>
      if is_digit c then let '(n, rest) := scan_digits 0 r in Some ((- n)%Z, rest)
      else None
  | String c _ =>
      if is_digit c then Some (scan_digits 0 s) else None
  | EmptyString => None
  end.

Fixpoint parse_value (fuel : nat) (s : string) : option (value * string) :=
  match fuel with
  | O => None
  | S fuel' =>
      match skip_ws s with
      | String "{" r =>
          match skip_ws r with
          | String "}" rest => Some (VObj [], rest)
          | r' => parse_members fuel' r' []
          end
      | String "[" r =>
          match skip_ws r with
          | String "]" rest => Some (VArr [], rest)
          | r' => parse_elements fuel' r' []
          end
      | String "034" r => '(t, rest) ← scan_string r; Some (VStr t, rest)
      | s' =>
          if String.prefix "true" s' then Some (VBool true, string_drop 4 s')
          else if String.prefix "false" s' then Some (VBool false, string_drop 5 s')
          else if String.prefix "null" s' then Some (VNull, string_drop 4 s')
          else '(n, rest) ← scan_number s'; Some (VNum n, rest)
      end
  end
with parse_elements (fuel : nat) (s : string) (acc : list value)
    : option (value * string) :=
  match fuel with
  | O => None
  | S fuel' =>
      '(v, rest) ← parse_value fuel' s;
      match skip_ws rest with
      | String "," rest' => parse_elements fuel' rest' (acc ++ [v])%list
      | String "]" rest' => Some (VArr (acc ++ [v])%list, rest')
      | _ => None
      end
  end
with parse_members (fuel : nat) (s : string) (acc : list (string * value))
    : option (value * string) :=
  match fuel with
  | O => None
  | S fuel' =>
      match skip_ws s with
      | String "034" r =>
          '(k, rest) ← scan_string r;
          match skip_ws rest with
          | String ":" rest' =>
              '(v, rest'') ← parse_value fuel' rest';
              let acc' := (filter (fun kv : string * value => kv.1 ≠ k) acc ++ [(k, v)])%list in
              match skip_ws rest'' with
              | String "," rest3 => parse_members fuel' rest3 acc'
              | String "}" rest3 => Some (VObj acc', rest3)
              | _ => None
              end
          | _ => None
          end
      | _ => None
      end
  end.

Definition parse (s : string) : option value :=
  '(v, rest) ← parse_value (S (String.length s)) s;
  match skip_ws rest with
  | EmptyString => Some v
  | _ => None
  end.

Definition join (sep : string) (l : list string) : string := String.concat sep l.

(** Compact JSON text; properties holding [undefined] are left out. *)
Fixpoint stringify (v : value) : string :=
  match v with
  | VUndefined | VNull => "null"
  | VBool true => "true"
  | VBool false => "false"
  | VNum n => pretty n
  | VStr s => quoted s
  | VArr items => "[" +:+ join "," (map stringify items) +:+ "]"
  | VObj fields =>
      "{" +:+
      join ","
        ((fix members (l : list (string * value)) : list string :=
            match l with
            | [] => []
            | (_, VUndefined) :: r => members r
            | (k, x) :: r => (quoted k +:+ ":" +:+ stringify x) :: members r
            end) fields)
      +:+ "}"
  end.

Fixpoint to_string (v : value) : option string :=
  match v with
  | VUndefined => Some "undefined"
  | VNull => Some "null"
  | VBool true => Some "true"
  | VBool false => Some "false"
  | VNum n => Some (pretty n)
  | VStr s => Some s
  | VArr items =>
      join "," <$>
        (fix elements (l : list value) : option (list string) :=
           match l with
           | [] => Some []
           | (VUndefined | VNull) :: r => cons EmptyString <$> elements r
           | x :: r => t ← to_string x; ts ← elements r; Some (t :: ts)
           end) items
  | VObj fields =>
      match assoc "toString" fields with
      | Some _ => None
      | None => Some "[object Object]"
      end
  end.

Definition href (s : string) : option string :=
  if String.prefix "https://" s || String.prefix "http://" s then Some s else None.

Fixpoint basename (s : string) : string :=
  match s with
  | EmptyString => EmptyString
  | String c r =>
      if existsb (Ascii.eqb "/"%char) (list_ascii_of_string r) then basename r
      else if Ascii.eqb c "/"%char then r else s
  end.

#[export] Instance runtime : NodeRuntime :=
  {| JSON_parse := parse;
     JSON_stringify := stringify;
     Object_toString := to_string;
     util_inspect := stringify;
     URL_href := href;
     path_join := fun a b => a +:+ "/" +:+ b;
     path_basename := basename |}.

End Basic.

(** ** Observations on a run *)

Section Observations.
Context `{NodeRuntime}.

(** The exchanges a run added to those of its initial state. *)
Definition issued (s final : state) : list exchange :=
  drop (length (exchanges s)) (exchanges final).

Definition puts (tr : list exchange) : list exchange :=
  filter (fun e : exchange => method e.1 = "PUT") tr.

(** The requests of the two resolvers. *)
Definition site_request (tenant siteName token : string) : Request :=
  api_request "GET"
    ("/v1.0/sites/" +:+ (tenant +:+ ".sharepoint.com:/sites/" +:+ siteName))
    token [("Accept", "application/json")] [].

Definition drive_request (siteId token : string) : Request :=
  api_request "GET" ("/v1.0/sites/" +:+ siteId +:+ "/drive") token
    [("Accept", "application/json")] [].

(** A reply that a resolver accepts: JSON with a truthy [id]. *)
Definition id_of_reply (reply : Reply) : option value :=
  match reply with
  | Responded res =>
      data ← JSON_parse (utf8_decode (res_body res));
      id ← get_prop data "id";
      if truthy id then Some id else None
  | TransportError _ => None
  end.

(** The token a pipeline script reads from a successful run of
    sharepoint-auth.js: the trimmed standard output of the child. *)
Definition acquired (env : process_env) (srv : server) (s : state)
    (token : string) (s1 : state) : Prop :=
  exists c, run (sharepoint_auth env) srv (child_state s) = (c, 0%Z)
            /\ token = trim (stream_text (stdout c))
            /\ s1 = after_child s c.

Definition tenant_read (env : process_env) (srv : server) (s : state)
    (tenant : string) (s1 : state) : Prop :=
  exists c, run (get_tenant env) srv (child_state s) = (c, 0%Z)
            /\ tenant = trim (stream_text (stdout c))
            /\ s1 = after_child s c.

(** The pipeline reached its operation: token, tenant, site and drive were
    obtained in this order, the two resolver requests being requests that
    [https.request] accepts, and [s'] is the state at that point. *)
Definition resolved (env : process_env) (siteName : string) (srv : server)
    (s : state) (token : string) (driveId : value) (s' : state) : Prop :=
  exists s1 tenant s2 siteId sid,
    acquired env srv s token s1
    /\ tenant_read env srv s1 tenant s2
    /\ valid_request (site_request tenant siteName token) = true
    /\ id_of_reply (srv (exchanges s2) (site_request tenant siteName token)) = Some siteId
    /\ ToString siteId = Some sid
    /\ valid_request (drive_request sid token) = true
    /\ let s3 := add_exchange (site_request tenant siteName token,
                               srv (exchanges s2) (site_request tenant siteName token)) s2 in
       id_of_reply (srv (exchanges s3) (drive_request sid token)) = Some driveId
       /\ s' = add_exchange (drive_request sid token,
                             srv (exchanges s3) (drive_request sid token)) s3.

(** The credential record that sharepoint-auth.js loads from the file. *)
Definition loaded (env : process_env) (s : state)
    (TENANT CLIENT_ID CLIENT_SECRET : string) : Prop :=
  exists content,
    files s !! envPath env = Some content
    /\ let credentials := parse_env (utf8_decode content) in
       TENANT_of credentials = Some TENANT
       /\ CLIENT_ID_of credentials = Some CLIENT_ID
       /\ CLIENT_SECRET_of credentials = Some CLIENT_SECRET
       /\ TENANT <> EmptyString /\ CLIENT_ID <> EmptyString
       /\ CLIENT_SECRET <> EmptyString.




(** The requests of the three operations. *)
Definition content_path (id filePath : string) : string :=
  "/v1.0/drives/" +:+ id +:+ "/root:/" +:+ encodeURIComponent filePath +:+ ":/content".

Definition download_request (id filePath token : string) : Request :=
  api_request "GET" (content_path id filePath) token [] [].

Definition follow_request (href : string) : Request :=
  {| method := "GET"; target := Url href; req_headers := []; req_body := [] |}.

Definition upload_request (id remotePath token : string) (content : bytes) : Request :=
  api_request "PUT" (content_path id remotePath) token
    [ ("Content-Type", "application/octet-stream");
      ("Content-Length", pretty (length content)) ]
    content.

Definition children_path (id folderPath : string) : string :=
  if negb (bool_decide (folderPath = EmptyString)) then
    "/v1.0/drives/" +:+ id +:+ "/root:/" +:+ encodeURIComponent folderPath +:+ ":/children"
  else "/v1.0/drives/" +:+ id +:+ "/root/children".

Definition list_request (id folderPath token : string) : Request :=
  api_request "GET" (children_path id folderPath) token
    [("Accept", "application/json")] [].

(** The [catch] of [makeRequest]. *)
Definition invalid_json (data : string) : string -> prog :=
  fun _ => ConsoleError "ERROR: Invalid JSON response" (ConsoleError data (Exit 1)).

(** *** How the scripts report the failures of the specification *)

Definition ConfigMissing (env : process_env) (s : state) (out : state * Z) : Prop :=
  out = (log_err ("Expected: " +:+ envPath env)
           (log_err "ERROR: SharePoint credentials not found" s), 1%Z).

Definition ConfigIncomplete (s : state) (out : state * Z) : Prop :=
  exists message,
    out = (log_err "Run setup.js to configure credentials" (log_err message s), 1%Z)
    /\ String.prefix "ERROR: Missing " message = true.

Definition AuthRejected (status : Z) (body : bytes) (s : state) (out : state * Z) : Prop :=
  out = (log_err (utf8_decode body)
           (log_err ("Status: " +:+ pretty status)
              (log_err "ERROR: Token request failed" s)), 1%Z).


(** sharepoint-auth.js returns the token text [X]: it prints [X] on its
    standard output and exits with code 0. *)
Definition returns_token (X : string) (s : state) (out : state * Z) : Prop :=
  out.2 = 0%Z /\ stdout out.1 = (stdout s ++ [X])%list.

(** A status 200 response with a JSON body whose [access_token] is [X]. *)
Definition token_response (X : string) (reply : Reply) : Prop :=
  exists res fields,
    reply = Responded res
    /\ statusCode res = 200%Z
    /\ JSON_parse (utf8_decode (res_body res)) = Some (VObj fields)
    /\ assoc "access_token" fields = Some (VStr X).

(** *** The order of resolution as an automaton over the exchanges *)

Inductive stage : Type :=
| Unauthenticated
| Authenticated (token : string)
| SiteResolved (token : string) (siteId : value)
| DriveResolved (token : string) (driveId : value).

Definition is_token_request (req : Request) : bool :=
  bool_decide (method req = "POST")
  && match target req with
     | HostPath h _ _ => bool_decide (h = "login.microsoftonline.com")
     | Url _ => false
     end.

(** A request to the resource API with the bearer token [token]. *)
Definition carries_token (token : string) (req : Request) : bool :=
  bool_decide (assoc "Authorization" (req_headers req) = Some ("Bearer " +:+ token))
  && match target req with
     | HostPath h _ _ => bool_decide (h = hostname)
     | Url _ => false
     end.

Definition path_of (req : Request) : string :=
  match target req with
  | HostPath _ _ p => p
  | Url u => u
  end.

(** The requests a stage admits. *)
Definition admits (st : stage) (req : Request) : bool :=
  match st with
  | Unauthenticated => is_token_request req
  | Authenticated token =>
      carries_token token req && String.prefix "/v1.0/sites/" (path_of req)
  | SiteResolved token siteId =>
      match ToString siteId with
      | Some sid =>
          carries_token token req
          && bool_decide (path_of req = "/v1.0/sites/" +:+ sid +:+ "/drive")
      | None => false
      end
  | DriveResolved token driveId =>
      match target req with
      | Url _ => bool_decide (req_headers req = [])
      | HostPath _ _ p =>
          match ToString driveId with
          | Some id =>
              carries_token token req
              && String.prefix ("/v1.0/drives/" +:+ id +:+ "/root") p
          | None => false
          end
      end
  end.

(** The token text of a status 200 token reply, as the pipeline reads it
    from the standard output of sharepoint-auth.js: what [console.log]
    prints for the [access_token] property, trimmed.  It is the text
    undefined when the reply has no such property. *)
Definition token_of_reply (reply : Reply) : option string :=
  match reply with
  | Responded res =>
      if (statusCode res =? 200)%Z then
        data ← JSON_parse (utf8_decode (res_body res));
        access_token ← get_prop data "access_token";
        Some (trim (stream_text [console_format access_token]))
      else None
  | TransportError _ => None
  end.

(** The stage after an exchange; [None] when the reply ends the pipeline. *)
Definition next_stage (st : stage) (e : exchange) : option stage :=
  match st with
  | Unauthenticated => Authenticated <$> token_of_reply e.2
  | Authenticated token => SiteResolved token <$> id_of_reply e.2
  | SiteResolved token _ => DriveResolved token <$> id_of_reply e.2
  | DriveResolved token driveId => Some st
  end.

(** Every exchange is admitted by the stage the earlier ones led to, and
    only the last one may fail to lead on. *)
Fixpoint conforms (st : stage) (tr : list exchange) : bool :=
  match tr with
  | [] => true
  | e :: rest =>
      admits st e.1
      && match rest with
         | [] => true
         | _ => match next_stage st e with
                | Some st' => conforms st' rest
                | None => false
                end
         end
  end.

(** The trace of an operation: what a run adds to the exchanges conforms to
    the stage in which the drive is resolved. *)
Definition operation_conforms (token : string) (driveId : value)
    (srv : server) (s1 : state) (p : prog) : Prop :=
  exists tr,
    exchanges (run p srv s1).1 = (exchanges s1 ++ tr)%list
    /\ conforms (DriveResolved token driveId) tr = true.

End Observations.

(** ** Concrete inputs *)

Module Example.
Import Basic.

Definition env : process_env :=
  {| HOME := "/home/bobby"; script_dir := "/opt/sharepoint/scripts" |}.

Definition credentials_file : string :=
  "# SharePoint Skill Configuration" +:+ newline
  +:+ "TEAMS_CLIENT_ID=app-1" +:+ newline
  +:+ "TEAMS_CLIENT_SECRET='s3cret'" +:+ newline
  +:+ "TEAMS_TENANT_ID=contoso.onmicrosoft.com" +:+ newline.

(** A credential file without client secret. *)
Definition incomplete_file : string :=
  "TEAMS_CLIENT_ID=app-1" +:+ newline
  +:+ "TEAMS_TENANT_ID=contoso.onmicrosoft.com" +:+ newline.

(** A machine with the credential file and the given other files. *)
Definition machine (others : gmap string bytes) : state :=
  {| files := <[envPath env := utf8_encode credentials_file]> others;
     exchanges := []; stdout := []; stderr := [] |}.

Definition bare (fs : gmap string bytes) : state :=
  {| files := fs; exchanges := []; stdout := []; stderr := [] |}.

Definition json_reply (status : Z) (body : string) : Reply :=
  Responded {| statusCode := status; res_headers := []; res_body := utf8_encode body |}.

Definition object1 (k v : string) : string :=
  "{" +:+ quoted k +:+ ":" +:+ quoted v +:+ "}".

(** A server that grants the token [X], resolves the site TeamSite of the
    tenant contoso to site-1 and its drive to drive-1, and leaves the other
    requests to [operation]. *)
Definition service (token_reply : Reply) (operation : Request -> Reply) : server :=
  fun _ req =>
    match target req with
    | HostPath h _ p =>
        if bool_decide (h = "login.microsoftonline.com") then token_reply
        else if bool_decide (p = "/v1.0/sites/contoso.sharepoint.com:/sites/TeamSite")
        then json_reply 200 (object1 "id" "site-1")
        else if bool_decide (p = "/v1.0/sites/site-1/drive")
        then json_reply 200 (object1 "id" "drive-1")
        else operation req
    | Url _ => operation req
    end.

Definition grant : Reply := json_reply 200 (object1 "access_token" "X").

Definition not_found : Request -> Reply :=
  fun _ => json_reply 404 (object1 "error" "itemNotFound").

(** The content resource answers with three bytes. *)
Definition three_bytes : bytes := [Byte.x01; Byte.x02; Byte.x03].

Definition content_server : server :=
  service grant (fun _ =>
    Responded {| statusCode := 200; res_headers := []; res_body := three_bytes |}).


(** The content resource is unreachable. *)
Definition unreachable_server : server :=
  service grant (fun _ => TransportError "connect ECONNREFUSED").

(** A children listing with one file and one folder, in this order. *)
Definition listing : string :=
  "{" +:+ quoted "value" +:+ ":["
  +:+ "{" +:+ quoted "name" +:+ ":" +:+ quoted "report.docx" +:+ ","
  +:+ quoted "size" +:+ ":120,"
  +:+ quoted "file" +:+ ":" +:+ object1 "mimeType" "application/msword" +:+ "},"
  +:+ "{" +:+ quoted "name" +:+ ":" +:+ quoted "General" +:+ ","
  +:+ quoted "folder" +:+ ":{" +:+ quoted "childCount" +:+ ":2}}"
  +:+ "]}".


Definition uploaded : string :=
  "{" +:+ quoted "name" +:+ ":" +:+ quoted "notes.txt" +:+ ","
  +:+ quoted "webUrl" +:+ ":" +:+ quoted "https://contoso.sharepoint.com/notes.txt" +:+ ","
  +:+ quoted "size" +:+ ":10}".

Definition upload_server : server :=
  service grant (fun _ => json_reply 201 uploaded).

Definition ten_bytes : bytes :=
  [Byte.x68; Byte.x65; Byte.x6c; Byte.x6c; Byte.x6f; Byte.x20; Byte.x74;
   Byte.x65; Byte.x78; Byte.x74].


(** The parsed items of [listing]. *)
Definition listing_items : list value :=
  [ VObj [ ("name", VStr "report.docx"); ("size", VNum 120%Z);
           ("file", VObj [("mimeType", VStr "application/msword")]) ];
    VObj [ ("name", VStr "General");
           ("folder", VObj [("childCount", VNum 2%Z)]) ] ].

(** The entries that the List operation makes of [listing_items]. *)
Definition listing_entries : list FileEntry.t :=
  [ {| FileEntry.name := VStr "report.docx";
       FileEntry.size := VNum 120%Z;
       FileEntry.webUrl := VUndefined;
       FileEntry.downloadUrl := VUndefined;
       FileEntry.lastModified := VUndefined;
       FileEntry.isFolder := false;
       FileEntry.type := VStr "application/msword" |};
    {| FileEntry.name := VStr "General";
       FileEntry.size := VUndefined;
       FileEntry.webUrl := VUndefined;
       FileEntry.downloadUrl := VUndefined;
       FileEntry.lastModified := VUndefined;
       FileEntry.isFolder := true;
       FileEntry.type := VStr "folder" |} ].


Definition token_exchange : exchange :=
  (token_request "contoso.onmicrosoft.com" "app-1" "s3cret", grant).

(** The state in which a pipeline that started in [s] reaches its operation
    against [service]: the two children ran and the two resolvers got their
    replies. *)
Definition resolved_state (s : state) : state :=
  let c1 := log_out "X" (add_exchange token_exchange (child_state s)) in
  let c2 := log_out "contoso" (child_state (after_child s c1)) in
  let s2 := after_child (after_child s c1) c2 in
  let s3 := add_exchange (site_request "contoso" "TeamSite" "X",
                          json_reply 200 (object1 "id" "site-1")) s2 in
  add_exchange (drive_request "site-1" "X",
                json_reply 200 (object1 "id" "drive-1")) s3.

End Example.

(** ** setup.js: the credential file it writes and reads back *)

(** The text that [saveConfiguration] writes to the credential file (the
    template of lines 433-443); [now] is the ISO timestamp of the moment. *)
Definition envContent (now clientId clientSecret tenantId : string) : string :=
  "# SharePoint Skill Configuration" +:+ newline
  +:+ "# Generated by setup.js on " +:+ now +:+ newline
  +:+ newline
  +:+ "TEAMS_CLIENT_ID=" +:+ clientId +:+ newline
  +:+ "TEAMS_CLIENT_SECRET=" +:+ clientSecret +:+ newline
  +:+ "TEAMS_TENANT_ID=" +:+ tenantId +:+ newline
  +:+ newline
  +:+ "# Legacy compatibility" +:+ newline
  +:+ "SHAREPOINT_TENANT=" +:+ remove_first ".onmicrosoft.com" tenantId +:+ newline
  +:+ "SHAREPOINT_BASE_URL=https://" +:+ remove_first ".onmicrosoft.com" tenantId
  +:+ ".sharepoint.com" +:+ newline.

(** [config.k = v], where [v] is a string or [undefined]. *)
Definition set_property (k : string) (v : option string)
    (config : gmap string string) : gmap string string :=
  match v with
  | Some x => <[k := x]> config
  | None => delete k config
  end.

(** [loadCredentials] (lines 202-218) on the text of the credential file:
    the parsed assignments and the three standard names, set one after the
    other.  The [config] object is empty when the function is called. *)
Definition loadCredentials (content : string) : gmap string string :=
  let config := parse_env content in
  let config :=
    set_property "clientId"
      (or_else (config !! "TEAMS_CLIENT_ID") (config !! "CLIENT_ID")) config in
  let config :=
    set_property "clientSecret"
      (or_else (config !! "TEAMS_CLIENT_SECRET") (config !! "CLIENT_SECRET")) config in
  set_property "tenantId"
    (or_else (or_else (config !! "TEAMS_TENANT_ID") (config !! "TENANT"))
             (config !! "SHAREPOINT_TENANT")) config.

(** A value that the parser reads back unchanged: not empty, no white space
    or quote character at either end, no line terminator. *)
Definition plain (v : string) : Prop :=
  v <> EmptyString /\ trim v = v /\ strip_quotes v = v
  /\ has_line_terminator v = false.

Section Setup.
Context `{NodeRuntime}.

(** [testAuthentication] (lines 252-302): the promise is resolved with the
    access token of a status 200 reply and with [null] otherwise; [resolve]
    is the code that awaits the promise, and an exception in the executor
    (a request that [https.request] refuses) rejects the promise, which is
    [reject].  A property of [config] that is not set reads as
    [undefined]. *)
Definition testAuthentication (config : gmap string string)
    (resolve : value -> prog) (reject : string -> prog) : prog :=
  try_catch
  (HttpsRequest
    (token_request (text (config !! "tenantId")) (text (config !! "clientId"))
       (text (config !! "clientSecret")))
    (fun res =>
       let data := utf8_decode (res_body res) in
       if (statusCode res =? 200)%Z then
         match JSON_parse data with
         | None => Throw "SyntaxError"
         | Some token =>
             match get_prop token "access_token" with
             | None => Throw "TypeError"
             | Some access_token => resolve access_token
             end
         end
       else
         ConsoleError ("  Authentication failed: " +:+ pretty (statusCode res))
           (ConsoleError ("  " +:+ data) (resolve VNull)))
    (fun e => ConsoleError ("  Error: " +:+ e) (resolve VNull)))
  reject.

(** The object that [testSiteAccess] resolves with for a status other than
    200: the [message] of the [error] property of a JSON body, the text
    Unknown error when it has none, and the raw body when the body is no
    JSON or the property read throws. *)
Definition site_access_error (data : string) : value :=
  let message :=
    match JSON_parse data with
    | None => VStr data
    | Some error =>
        match get_prop error "error" with
        | None => VStr data
        | Some inner =>
            or_value
              match inner with
              | VNull | VUndefined => VUndefined
              | _ => get_prop_opt inner "message"
              end
              (VStr "Unknown error")
        end
    end in
  VObj [("success", VBool false); ("error", message)].

(** [testSiteAccess] (lines 376-424).  [resolve] is the code that awaits the
    promise; an exception in the executor rejects the promise, which is
    [reject]. *)
Definition testSiteAccess (config : gmap string string) (token : value)
    (siteName : string) (resolve : value -> prog) (reject : string -> prog) : prog :=
  try_catch
    match config !! "tenantId" with
    | None => Throw "TypeError"
    | Some tenantId =>
        let tenant := remove_first ".onmicrosoft.com" tenantId in
        let siteId := tenant +:+ ".sharepoint.com:/sites/" +:+ siteName in
        match ToString token with
        | None => Throw "TypeError"
        | Some bearer =>
            HttpsRequest
              (api_request "GET" ("/v1.0/sites/" +:+ siteId) bearer
                 [("Accept", "application/json")] [])
              (fun res =>
                 let data := utf8_decode (res_body res) in
                 if (statusCode res =? 200)%Z then
                   match JSON_parse data with
                   | None => Throw "SyntaxError"
                   | Some site =>
                       resolve (VObj [("success", VBool true); ("site", site)])
                   end
                 else resolve (site_access_error data))
              (fun e => resolve (VObj [("success", VBool false); ("error", VStr e)]))
        end
    end
    reject.

End Setup.

(** ** Paths that name the same file

    [files] is keyed by the text of a path.  Two texts name the same file
    when they lead to the same place from the working directory: the
    segments of the working directory (for a relative path) and then those
    of the path, where an empty segment and a dot change nothing and two
    dots step back.  Links are not considered. *)
Fixpoint split_slash (s : string) : list string :=
  match s with
  | EmptyString => [EmptyString]
  | String c r =>
      if Ascii.eqb c "/"%char then EmptyString :: split_slash r
      else match split_slash r with
           | h :: t => String c h :: t
           | [] => [String c EmptyString]
           end
  end.

(** The place after one more segment; the innermost directory comes first. *)
Definition walk (place : list string) (segment : string) : list string :=
  if bool_decide (segment = EmptyString) || bool_decide (segment = ".") then place
  else if bool_decide (segment = "..") then tail place
  else segment :: place.

Definition place_of (cwd path : string) : list string :=
  fold_left walk (split_slash path)
    (if String.prefix "/" path then [] else fold_left walk (split_slash cwd) []).

(** ** What a script may touch *)

(** Every request of the script is in [R] and every path it creates, writes
    or removes is in [W], whatever the file system and the server answer. *)
Inductive within (R : Request -> Prop) (W : string -> Prop) : prog -> Prop :=
| within_Return : within R W Return
| within_Throw e : within R W (Throw e)
| within_Exit code : within R W (Exit code)
| within_ConsoleLog line k : within R W k -> within R W (ConsoleLog line k)
| within_ConsoleError line k : within R W k -> within R W (ConsoleError line k)
| within_ExistsSync path k :
    (forall found, within R W (k found)) -> within R W (ExistsSync path k)
| within_StatSync path k :
    (forall r, within R W (k r)) -> within R W (StatSync path k)
| within_ReadFileSync path k :
    (forall r, within R W (k r)) -> within R W (ReadFileSync path k)
| within_CreateWriteStream path k :
    W path -> within R W k -> within R W (CreateWriteStream path k)
| within_Unlink path k :
    W path -> within R W k -> within R W (Unlink path k)
| within_ExecSync command child k :
    within R W child -> (forall r, within R W (k r)) ->
    within R W (ExecSync command child k)
| within_Pipe body path k :
    W path -> within R W k -> within R W (Pipe body path k)
| within_HttpsRequest req h he :
    R req -> (forall res, within R W (h res)) -> (forall m, within R W (he m)) ->
    within R W (HttpsRequest req h he).

(** The script sends at most [n] requests, its child processes included. *)
Inductive at_most : nat -> prog -> Prop :=
| at_most_Return n : at_most n Return
| at_most_Throw n e : at_most n (Throw e)
| at_most_Exit n code : at_most n (Exit code)
| at_most_ConsoleLog n line k : at_most n k -> at_most n (ConsoleLog line k)
| at_most_ConsoleError n line k : at_most n k -> at_most n (ConsoleError line k)
| at_most_ExistsSync n path k :
    (forall found, at_most n (k found)) -> at_most n (ExistsSync path k)
| at_most_StatSync n path k :
    (forall r, at_most n (k r)) -> at_most n (StatSync path k)
| at_most_ReadFileSync n path k :
    (forall r, at_most n (k r)) -> at_most n (ReadFileSync path k)
| at_most_CreateWriteStream n path k :
    at_most n k -> at_most n (CreateWriteStream path k)
| at_most_Unlink n path k : at_most n k -> at_most n (Unlink path k)
| at_most_ExecSync a b command child k :
    at_most a child -> (forall r, at_most b (k r)) ->
    at_most (a + b) (ExecSync command child k)
| at_most_Pipe n body path k : at_most n k -> at_most n (Pipe body path k)
| at_most_HttpsRequest n req h he :
    (forall res, at_most n (h res)) -> (forall m, at_most n (he m)) ->
    at_most (S n) (HttpsRequest req h he).

(** The three kinds of request of the scripts: the credentials go to the
    identity endpoint without a bearer token, a call of the resource API
    carries a bearer token to its host, and a redirect is followed without
    any header. *)
Definition credential_request (req : Request) : Prop :=
  method req = "POST"
  /\ (exists path, target req = HostPath "login.microsoftonline.com" 443 path)
  /\ assoc "Authorization" (req_headers req) = None.

Definition api_call (verb : string) (req : Request) : Prop :=
  method req = verb
  /\ (exists path, target req = HostPath hostname 443 path)
  /\ exists token, assoc "Authorization" (req_headers req) = Some ("Bearer " +:+ token).

Definition anonymous_get (req : Request) : Prop :=
  method req = "GET"
  /\ (exists href, target req = Url href)
  /\ req_headers req = [] /\ req_body req = [].

(** The characters that [encodeURIComponent] produces: the unreserved ones
    and the percent sign of an escape. *)
Definition url_safe (s : string) : bool :=
  forallb (fun c => is_alnum c || in_chars "-_.!~*'()%" c) (list_ascii_of_string s).

(** The characters that the form serializer produces. *)
Definition form_safe (s : string) : bool :=
  forallb (fun c => is_alnum c || in_chars "*-._+%" c) (list_ascii_of_string s).

(** Printable ASCII without the space: the characters of a bearer token. *)
Definition printable (s : string) : bool :=
  forallb (fun c => (33 <=? N_of_ascii c)%N && (N_of_ascii c <=? 126)%N)
    (list_ascii_of_string s).

(** A text file with CRLF line ends. *)
Definition carriage_return : string := String "013"%char EmptyString.

Definition crlf_text (lines : list string) : string :=
  fold_right (fun l rest => l +:+ carriage_return +:+ newline +:+ rest)
    EmptyString lines.

(** ** The report of a call with too few arguments *)

(** The usage line and the lines of examples after it on standard error,
    exit code 1, and nothing else: no request, no change of a file, no
    output. *)
Definition UsageShown (usage : string) (s : state) (out : state * Z) : Prop :=
  out.2 = 1%Z
  /\ exchanges out.1 = exchanges s /\ files out.1 = files s
  /\ stdout out.1 = stdout s
  /\ exists examples, stderr out.1 = (stderr s ++ usage :: examples)%list.

(** ** The failure reports of a resolver *)

Section Reports.
Context `{NodeRuntime}.

(** What a resolver ([what] is Site or Drive) leaves behind when its request
    [req] does not yield an identifier: the message of a transport error;
    for a body that is no JSON, or JSON without properties ([null]), the
    invalid-JSON report with the body; for JSON without a truthy [id] the
    not-found report with the parsed reply.  The exit code is 1. *)
Definition resolver_failure_report (what : string) (req : Request) (srv : server)
    (s : state) (out : state * Z) : Prop :=
  let s1 := add_exchange (req, srv (exchanges s) req) s in
  (forall m, srv (exchanges s) req = TransportError m ->
     out = (log_err ("ERROR: " +:+ m) s1, 1%Z))
  /\ (forall res,
        srv (exchanges s) req = Responded res ->
        let data := utf8_decode (res_body res) in
        (JSON_parse data = None
         \/ (exists parsed, JSON_parse data = Some parsed
                            /\ get_prop parsed "id" = None) ->
         out = (log_err data (log_err "ERROR: Invalid JSON response" s1), 1%Z))
        /\ (forall parsed id,
              JSON_parse data = Some parsed ->
              get_prop parsed "id" = Some id -> truthy id = false ->
              out = (log_err (JSON_stringify parsed)
                       (log_err ("ERROR: " +:+ what +:+ " not found") s1), 1%Z))).

End Reports.

(** ** More concrete inputs *)

Module Scenario.
Import Basic.

(** A machine whose only file is the credential file, with this text. *)
Definition holding (content : string) : state :=
  Example.bare {[ envPath Example.env := utf8_encode content ]}.

(** What setup.js saves for a secret that was typed between quotes. *)
Definition saved_file : string :=
  envContent "2026-01-01T00:00:00.000Z" "app-1" "'s3cret'" "contoso.onmicrosoft.com".

Definition plain_file : string :=
  envContent "2026-01-01T00:00:00.000Z" "app-1" "s3cret" "contoso.onmicrosoft.com".

(** The [config] object of setup.js after its prompts. *)
Definition config : gmap string string :=
  {[ "clientId" := "app-1"; "clientSecret" := "s3cret";
     "tenantId" := "contoso.onmicrosoft.com" ]}.

(** The lines of a credential file that was edited with CRLF line ends. *)
Definition crlf_lines : list string :=
  [ "TEAMS_TENANT_ID=contoso.onmicrosoft.com"; "TEAMS_CLIENT_ID=app-1";
    "TEAMS_CLIENT_SECRET=s3cret" ].





(** The state after the token step of a pipeline that started in [s]. *)
Definition token_state (s : state) : state :=
  after_child s (log_out "X" (add_exchange Example.token_exchange (child_state s))).

(** What setup.js saves for a tenant that was typed with a space. *)
Definition spaced_file : string :=
  envContent "2026-01-01T00:00:00.000Z" "app-1" "s3cret" "contoso corp".



End Scenario.

(** * Properties *)

Section Properties.
Context `{NodeRuntime}.

(** ** Running sharepoint-auth.js *)

Lemma falsy_some (v : string) : v <> EmptyString -> falsy (Some v) = false.
Proof.
  intros Hv. unfold falsy. apply bool_decide_eq_false. exact Hv.
Qed.

(** With a complete credential record the script comes to its token
    request. *)
Lemma run_auth_request env srv s t i k :
  loaded env s t i k ->
  run (sharepoint_auth env) srv s =
    run (HttpsRequest (token_request t i k) on_token_response on_request_error)
      srv s.
Proof.
  intros (content & Hfile & Ht & Hi & Hk & Hnt & Hni & Hnk).
  unfold sharepoint_auth. cbn [run]. rewrite Hfile.
  rewrite bool_decide_eq_true_2 by (eexists; reflexivity).
  cbn [negb run]. rewrite Hfile.
  rewrite Ht, Hi, Hk, !falsy_some by assumption.
  reflexivity.
Qed.

(** A request that [https.request] accepts is sent, and the handler that
    matches the reply runs. *)
Lemma run_request req h he srv s :
  valid_request req = true ->
  run (HttpsRequest req h he) srv s =
    match srv (exchanges s) req with
    | Responded res => run (h res) srv (add_exchange (req, Responded res) s)
    | TransportError m => run (he m) srv (add_exchange (req, TransportError m) s)
    end.
Proof.
  intros Hv. cbn [run]. rewrite Hv. destruct (srv (exchanges s) req); reflexivity.
Qed.

(** A request that [https.request] refuses is an exception. *)
Lemma run_request_refused req h he srv s :
  valid_request req = false ->
  run (HttpsRequest req h he) srv s = (log_err "Uncaught TypeError" s, 1%Z).
Proof. intros Hv. cbn [run]. rewrite Hv. reflexivity. Qed.

Lemma try_catch_request req h he handler :
  valid_request req = true ->
  try_catch (HttpsRequest req h he) handler = HttpsRequest req h he.
Proof. intros Hv. cbn [try_catch]. rewrite Hv. reflexivity. Qed.

Lemma try_catch_request_refused req h he handler :
  valid_request req = false ->
  try_catch (HttpsRequest req h he) handler = handler "TypeError".
Proof. intros Hv. cbn [try_catch]. rewrite Hv. reflexivity. Qed.

(** With a complete credential record and a tenant that makes a request
    path, the script sends the token request and continues with the handler
    that matches the reply. *)
Lemma run_auth_loaded env srv s t i k :
  loaded env s t i k ->
  valid_request (token_request t i k) = true ->
  run (sharepoint_auth env) srv s =
    let req := token_request t i k in
    match srv (exchanges s) req with
    | Responded res =>
        run (on_token_response res) srv (add_exchange (req, Responded res) s)
    | TransportError m =>
        run (on_request_error m) srv (add_exchange (req, TransportError m) s)
    end.
Proof.
  intros Hl Hv. rewrite (run_auth_request _ srv _ _ _ _ Hl).
  apply run_request. exact Hv.
Qed.

(** With a tenant that makes no request path the script ends with the
    exception of [https.request], before any exchange. *)
Lemma run_auth_refused env srv s t i k :
  loaded env s t i k ->
  valid_request (token_request t i k) = false ->
  run (sharepoint_auth env) srv s = (log_err "Uncaught TypeError" s, 1%Z).
Proof.
  intros Hl Hv. rewrite (run_auth_request _ srv _ _ _ _ Hl).
  apply run_request_refused. exact Hv.
Qed.

(** Without the credential file the script stops at once. *)
Lemma run_auth_missing env srv s :
  files s !! envPath env = None ->
  run (sharepoint_auth env) srv s =
    (log_err ("Expected: " +:+ envPath env)
       (log_err "ERROR: SharePoint credentials not found" s), 1%Z).
Proof.
  intros Hfile. unfold sharepoint_auth. cbn [run]. rewrite Hfile.
  rewrite bool_decide_eq_false_2 by (intros [? ?]; discriminate).
  reflexivity.
Qed.

(** On a status other than 200 the request is rejected and nothing is
    printed on the standard output. *)
Lemma run_token_rejected srv s res :
  statusCode res <> 200%Z ->
  run (on_token_response res) srv s =
    (log_err (utf8_decode (res_body res))
       (log_err ("Status: " +:+ pretty (statusCode res))
          (log_err "ERROR: Token request failed" s)), 1%Z).
Proof.
  intros Hst. unfold on_token_response.
  apply Z.eqb_neq in Hst. rewrite Hst. reflexivity.
Qed.

(** On status 200 the handler prints the [access_token] property of the
    parsed body, whatever it holds. *)
Lemma run_token_granted srv s res token v :
  statusCode res = 200%Z ->
  JSON_parse (utf8_decode (res_body res)) = Some token ->
  get_prop token "access_token" = Some v ->
  run (on_token_response res) srv s = (log_out (console_format v) s, 0%Z).
Proof.
  intros Hst Hparse Hget. unfold on_token_response.
  rewrite Hst, Z.eqb_refl, Hparse, Hget. reflexivity.
Qed.

(** The handler ends with exit code 0 only on a status 200 response whose
    body parses, and then it has printed the [access_token] property. *)
Lemma token_response_success srv s res s' :
  run (on_token_response res) srv s = (s', 0%Z) ->
  exists token v,
    statusCode res = 200%Z
    /\ JSON_parse (utf8_decode (res_body res)) = Some token
    /\ get_prop token "access_token" = Some v
    /\ s' = log_out (console_format v) s.
Proof.
  unfold on_token_response. intros Hrun.
  destruct (statusCode res =? 200)%Z eqn:Hst; [|discriminate Hrun].
  apply Z.eqb_eq in Hst.
  destruct (JSON_parse (utf8_decode (res_body res))) as [token|]; [|discriminate Hrun].
  destruct (get_prop token "access_token") as [v|] eqn:Hget; [|discriminate Hrun].
  exists token, v. cbn [run] in Hrun. inversion Hrun. auto.
Qed.

(** ** The pipeline up to its operation *)

(** When sharepoint-auth.js fails, the pipeline script reports it and stops:
    it adds no exchange of its own. *)
Lemma run_pipeline_auth_failed env siteName operation srv s c code :
  run (sharepoint_auth env) srv (child_state s) = (c, code) ->
  code <> 0%Z ->
  run (pipeline env siteName operation) srv s =
    (log_err (exec_error_message
                ("node " +:+ path_join (script_dir env) "sharepoint-auth.js") (stderr c))
       (log_err "ERROR: Failed to get access token" (after_child s c)), 1%Z).
Proof.
  intros Hrun Hcode. unfold pipeline. cbn [run]. rewrite Hrun.
  apply Z.eqb_neq in Hcode. rewrite Hcode. reflexivity.
Qed.

Lemma run_pipeline_missing env siteName operation srv s :
  files s !! envPath env = None ->
  exchanges (run (pipeline env siteName operation) srv s).1 = exchanges s
  /\ (run (pipeline env siteName operation) srv s).2 = 1%Z.
Proof.
  intros Hfile.
  erewrite run_pipeline_auth_failed;
    [| apply run_auth_missing; exact Hfile | discriminate].
  split; reflexivity.
Qed.

(** sharepoint-auth.js either has a complete credential record or stops
    with exit code 1 before any exchange. *)
Lemma auth_loaded_or_stopped env srv s :
  (exists t i k, loaded env s t i k)
  \/ (exists s', run (sharepoint_auth env) srv s = (s', 1%Z)
                 /\ exchanges s' = exchanges s /\ files s' = files s).
Proof.
  destruct (files s !! envPath env) as [content|] eqn:Hfile.
  2:{ right. rewrite run_auth_missing by exact Hfile. eexists. repeat split. }
  set (credentials := parse_env (utf8_decode content)).
  destruct (falsy (TENANT_of credentials)) eqn:Ht;
    [| destruct (falsy (CLIENT_ID_of credentials)) eqn:Hi;
       [| destruct (falsy (CLIENT_SECRET_of credentials)) eqn:Hk]].
  4:{ left.
      destruct (TENANT_of credentials) as [t|] eqn:Et; [|discriminate Ht].
      destruct (CLIENT_ID_of credentials) as [i|] eqn:Ei; [|discriminate Hi].
      destruct (CLIENT_SECRET_of credentials) as [k|] eqn:Ek; [|discriminate Hk].
      exists t, i, k, content. split; [exact Hfile|]. cbn zeta. fold credentials.
      apply bool_decide_eq_false in Ht, Hi, Hk. auto 10. }
  all: right; unfold sharepoint_auth; cbn [run]; rewrite Hfile;
    rewrite bool_decide_eq_true_2 by (eexists; reflexivity);
    cbn [negb run]; rewrite Hfile; fold credentials; rewrite Ht;
    try rewrite Hi; try rewrite Hk; cbn [orb];
    eexists; repeat split.
Qed.

(** A run of sharepoint-auth.js that ends with exit code 0 made exactly one
    exchange, the token request, got status 200 and a parseable body, and
    printed its [access_token] property. *)
Lemma auth_success env srv s c :
  run (sharepoint_auth env) srv s = (c, 0%Z) ->
  exists t i k res token v,
    loaded env s t i k
    /\ srv (exchanges s) (token_request t i k) = Responded res
    /\ statusCode res = 200%Z
    /\ JSON_parse (utf8_decode (res_body res)) = Some token
    /\ get_prop token "access_token" = Some v
    /\ c = log_out (console_format v)
             (add_exchange (token_request t i k, Responded res) s).
Proof.
  intros Hrun.
  destruct (auth_loaded_or_stopped env srv s) as [(t & i & k & Hload)|(s' & Hstop & _)].
  2:{ rewrite Hstop in Hrun. discriminate Hrun. }
  destruct (valid_request (token_request t i k)) eqn:Hv.
  2:{ rewrite (run_auth_refused _ _ _ _ _ _ Hload Hv) in Hrun. discriminate Hrun. }
  rewrite (run_auth_loaded _ _ _ _ _ _ Hload Hv) in Hrun. cbn zeta in Hrun.
  destruct (srv (exchanges s) (token_request t i k)) as [res|m] eqn:Hreply;
    [|discriminate Hrun].
  apply token_response_success in Hrun as (token & v & Hst & Hparse & Hget & ->).
  exists t, i, k, res, token, v. auto 10.
Qed.

(** Such a run sent a token request that [https.request] accepts. *)
Lemma auth_success_valid env srv s c t i k :
  run (sharepoint_auth env) srv s = (c, 0%Z) ->
  loaded env s t i k ->
  valid_request (token_request t i k) = true.
Proof.
  intros Hrun Hload.
  destruct (valid_request (token_request t i k)) eqn:Hv; [reflexivity|].
  rewrite (run_auth_refused _ _ _ _ _ _ Hload Hv) in Hrun. discriminate Hrun.
Qed.

(** Whatever happens, sharepoint-auth.js leaves the files alone and makes at
    most one exchange, the token request. *)
Lemma auth_trace env srv s :
  let out := run (sharepoint_auth env) srv s in
  files out.1 = files s
  /\ (exchanges out.1 = exchanges s /\ out.2 = 1%Z
      \/ exists t i k,
           exchanges out.1 =
             (exchanges s ++ [(token_request t i k,
                               srv (exchanges s) (token_request t i k))])%list).
Proof.
  cbn zeta.
  destruct (auth_loaded_or_stopped env srv s) as [(t & i & k & Hload)|(s' & Hstop & He & Hf)].
  2:{ rewrite Hstop. cbn [fst snd]. auto. }
  destruct (valid_request (token_request t i k)) eqn:Hv.
  2:{ rewrite (run_auth_refused _ _ _ _ _ _ Hload Hv). cbn [fst snd]. auto. }
  rewrite (run_auth_loaded _ _ _ _ _ _ Hload Hv). cbn zeta.
  assert (Hhandler : forall res s0,
             files (run (on_token_response res) srv s0).1 = files s0
             /\ exchanges (run (on_token_response res) srv s0).1 = exchanges s0).
  { intros res s0. unfold on_token_response.
    repeat case_match; split; reflexivity. }
  destruct (srv (exchanges s) (token_request t i k)) as [res|m] eqn:Hreply.
  - destruct (Hhandler res (add_exchange (token_request t i k, Responded res) s))
      as [Hf He].
    split; [exact Hf|]. right. exists t, i, k. rewrite Hreply. exact He.
  - split; [reflexivity|]. right. exists t, i, k. rewrite Hreply. reflexivity.
Qed.

(** get-tenant.js makes no exchange and changes no file; when it ends with
    exit code 0 it wrote nothing on its standard error. *)
Lemma tenant_trace env srv s :
  let out := run (get_tenant env) srv s in
  files out.1 = files s /\ exchanges out.1 = exchanges s
  /\ (out.2 = 0%Z -> stderr out.1 = stderr s).
Proof.
  cbn zeta. unfold get_tenant. cbn [run].
  destruct (bool_decide (is_Some (files s !! envPath env))).
  2:{ cbn. repeat split. discriminate. }
  cbn [negb run].
  destruct (files s !! envPath env) as [content|].
  2:{ cbn. repeat split. discriminate. }
  case_match; cbn; repeat split; discriminate.
Qed.

(** get-tenant.js with a configured tenant prints it without its
    onmicrosoft.com suffix. *)
Lemma run_tenant_loaded env srv s (content : bytes) tenantId :
  files s !! envPath env = Some content ->
  (let credentials := parse_env (utf8_decode content) in
   or_else (or_else (credentials !! "TEAMS_TENANT_ID") (credentials !! "TENANT"))
           (credentials !! "SHAREPOINT_TENANT") = Some tenantId) ->
  tenantId <> EmptyString ->
  run (get_tenant env) srv s =
    (log_out (remove_first ".onmicrosoft.com" tenantId) s, 0%Z).
Proof.
  intros Hfile Hid Hne. unfold get_tenant. cbn [run]. rewrite Hfile.
  rewrite bool_decide_eq_true_2 by (eexists; reflexivity).
  cbn [negb run]. rewrite Hfile. cbn zeta in Hid. rewrite Hid.
  rewrite falsy_some by exact Hne. reflexivity.
Qed.

Lemma id_of_reply_inv reply id :
  id_of_reply reply = Some id ->
  exists res data,
    reply = Responded res
    /\ JSON_parse (utf8_decode (res_body res)) = Some data
    /\ get_prop data "id" = Some id
    /\ truthy id = true.
Proof.
  destruct reply as [res|m]; [|discriminate]. cbn [id_of_reply].
  destruct (JSON_parse (utf8_decode (res_body res))) as [data|] eqn:Hparse;
    [|discriminate].
  cbn. destruct (get_prop data "id") as [v|] eqn:Hget; [|discriminate].
  cbn. destruct (truthy v) eqn:Hv; [|discriminate].
  intros [= <-]. exists res, data. repeat split; assumption.
Qed.

(** One resolver request: either its reply holds a truthy [id] and the
    callback runs on it, inside the [try] of [makeRequest], or the script
    stops with exit code 1 after this exchange. *)
Lemma run_resolver what path token callback srv s :
  let req := api_request "GET" path token [("Accept", "application/json")] [] in
  let s1 := add_exchange (req, srv (exchanges s) req) s in
  valid_request req = true ->
  match id_of_reply (srv (exchanges s) req) with
  | Some id =>
      exists data,
        run (makeRequest path token (with_id what callback)) srv s =
          run (try_catch (callback id) (invalid_json data)) srv s1
  | None =>
      exists final,
        run (makeRequest path token (with_id what callback)) srv s = (final, 1%Z)
        /\ exchanges final = exchanges s1 /\ files final = files s1
  end.
Proof.
  cbn zeta. intros Hvalid. unfold makeRequest. rewrite (run_request _ _ _ _ _ Hvalid).
  set (req := api_request "GET" path token [("Accept", "application/json")] []).
  destruct (srv (exchanges s) req) as [res|m] eqn:Hreply; cbn [id_of_reply].
  2:{ eexists. repeat split. }
  destruct (JSON_parse (utf8_decode (res_body res))) as [data|] eqn:Hparse; cbn.
  2:{ eexists. repeat split. }
  unfold with_id.
  destruct (get_prop data "id") as [v|] eqn:Hget; cbn.
  2:{ eexists. repeat split. }
  destruct (truthy v) eqn:Hv.
  - exists (utf8_decode (res_body res)). reflexivity.
  - cbn. eexists. repeat split.
Qed.

Lemma try_catch_makeRequest path token callback handler :
  valid_request (api_request "GET" path token [("Accept", "application/json")] [])
    = true ->
  try_catch (makeRequest path token callback) handler
  = makeRequest path token callback.
Proof. intros Hv. unfold makeRequest. by apply try_catch_request. Qed.

Lemma try_catch_makeRequest_refused path token callback handler :
  valid_request (api_request "GET" path token [("Accept", "application/json")] [])
    = false ->
  try_catch (makeRequest path token callback) handler = handler "TypeError".
Proof. intros Hv. unfold makeRequest. by apply try_catch_request_refused. Qed.

(** When the resolution succeeds, the pipeline runs its operation on the
    resolved drive, inside the [try] of the last [makeRequest]. *)
Lemma run_pipeline_resolved env siteName operation srv s token driveId s' :
  resolved env siteName srv s token driveId s' ->
  exists data,
    run (pipeline env siteName operation) srv s =
      run (try_catch (operation driveId token) (invalid_json data)) srv s'.
Proof.
  intros (s1 & tenant & s2 & siteId & sid & (c1 & Hauth & -> & ->)
          & (c2 & Htenant & -> & ->) & Hvsite & Hsite & Hsid & Hvdrive & Hdrive & ->).
  unfold pipeline. cbn [run]. rewrite Hauth. cbn [Z.eqb run]. rewrite Htenant.
  cbn [Z.eqb]. unfold getSiteId.
  match goal with
  | |- context [makeRequest ?p ?t (with_id ?w ?cb)] =>
      pose proof (run_resolver w p t cb srv (after_child (after_child s c1) c2)
                    Hvsite) as Hr
  end.
  unfold site_request in Hsite. rewrite Hsite in Hr.
  destruct Hr as [data1 ->].
  unfold getDriveId. rewrite Hsid.
  rewrite (try_catch_makeRequest _ _ _ _ Hvdrive).
  match goal with
  | |- context [makeRequest ?p ?t (with_id ?w ?cb)] =>
      match goal with
      | |- context [run _ srv ?s3] =>
          pose proof (run_resolver w p t cb srv s3 Hvdrive) as Hr
      end
  end.
  unfold drive_request, site_request in Hdrive.
  rewrite Hdrive in Hr. destruct Hr as [data2 Hr].
  exists data2. exact Hr.
Qed.


(** ** Credentials (C8) *)

(** C8. Loading the credentials fails with ConfigMissing when the credential
    file does not exist, and then no exchange with the network takes place,
    neither in sharepoint-auth.js nor in any of the three pipeline scripts;
    it fails with ConfigIncomplete when, after parsing, the tenant, the client
    id or the client secret is absent (or empty), again without any
    exchange. *)
Theorem credential_store_load env srv s :
  (files s !! envPath env = None ->
     ConfigMissing env s (run (sharepoint_auth env) srv s)
     /\ exchanges (run (sharepoint_auth env) srv s).1 = exchanges s
     /\ forall args,
          let d := run (sharepoint_download env args) srv s in
          let l := run (sharepoint_list_files env args) srv s in
          let u := run (sharepoint_upload env args) srv s in
          exchanges d.1 = exchanges s /\ d.2 = 1%Z
          /\ exchanges l.1 = exchanges s /\ l.2 = 1%Z
          /\ exchanges u.1 = exchanges s /\ u.2 = 1%Z)
  /\ (forall content,
        files s !! envPath env = Some content ->
        let credentials := parse_env (utf8_decode content) in
        falsy (TENANT_of credentials) = true
        \/ falsy (CLIENT_ID_of credentials) = true
        \/ falsy (CLIENT_SECRET_of credentials) = true ->
        ConfigIncomplete s (run (sharepoint_auth env) srv s)
        /\ exchanges (run (sharepoint_auth env) srv s).1 = exchanges s).
Proof.
  split.
  - intros Hfile. rewrite run_auth_missing by exact Hfile.
    split; [reflexivity|]. split; [reflexivity|].
    intros args d l u. subst d l u.
    repeat split.
    + unfold sharepoint_download.
      destruct args as [|siteName [|filePath rest]]; try reflexivity.
      apply run_pipeline_missing, Hfile.
    + unfold sharepoint_download.
      destruct args as [|siteName [|filePath rest]]; try reflexivity.
      apply run_pipeline_missing, Hfile.
    + unfold sharepoint_list_files.
      destruct args as [|siteName rest]; try reflexivity.
      apply run_pipeline_missing, Hfile.
    + unfold sharepoint_list_files.
      destruct args as [|siteName rest]; try reflexivity.
      apply run_pipeline_missing, Hfile.
    + unfold sharepoint_upload.
      destruct args as [|siteName [|localFile [|remotePath rest]]]; try reflexivity.
      cbn [run]. destruct (bool_decide (is_Some (files s !! localFile))); [|reflexivity].
      cbn [negb run]. destruct (files s !! localFile); [|reflexivity].
      cbn [fmap option_fmap option_map run].
      match goal with
      | |- context [run (pipeline _ _ ?op) _ ?s1] =>
          apply (run_pipeline_missing env siteName op srv s1 Hfile)
      end.
    + unfold sharepoint_upload.
      destruct args as [|siteName [|localFile [|remotePath rest]]]; try reflexivity.
      cbn [run]. destruct (bool_decide (is_Some (files s !! localFile))); [|reflexivity].
      cbn [negb run]. destruct (files s !! localFile); [|reflexivity].
      cbn [fmap option_fmap option_map run].
      match goal with
      | |- context [run (pipeline _ _ ?op) _ ?s1] =>
          apply (run_pipeline_missing env siteName op srv s1 Hfile)
      end.
  - intros content Hfile credentials Hmiss.
    unfold sharepoint_auth. cbn [run]. rewrite Hfile.
    rewrite bool_decide_eq_true_2 by (eexists; reflexivity).
    cbn [negb run]. rewrite Hfile. fold credentials.
    destruct (falsy (TENANT_of credentials)) eqn:Ht.
    + split; [|reflexivity]. eexists. split; reflexivity.
    + destruct Hmiss as [Hm|Hm]; [discriminate Hm|].
      replace (falsy (CLIENT_ID_of credentials) || falsy (CLIENT_SECRET_of credentials))
        with true
        by (destruct Hm as [Hm|Hm]; rewrite Hm;
            [reflexivity | apply eq_sym, orb_true_r]).
      split; [|reflexivity]. eexists. split; reflexivity.
Qed.

(** ** Token acquisition (C3, C10) *)

(** C10, as the code has it. On a status 200 reply whose body is JSON
    without an [access_token] property (an object without it, an array, a
    string, a number or a boolean), sharepoint-auth.js prints the text
    undefined on its standard output and ends with exit code 0, and nothing
    goes to its standard error; on the JSON body [null] the property read
    throws, and the script ends with exit code 1 and nothing on its standard
    output.  The token request is one that [https.request] accepts. *)
Theorem acquire_without_access_token env srv s t i k res token :
  loaded env s t i k ->
  valid_request (token_request t i k) = true ->
  srv (exchanges s) (token_request t i k) = Responded res ->
  statusCode res = 200%Z ->
  JSON_parse (utf8_decode (res_body res)) = Some token ->
  (forall fields, token = VObj fields -> assoc "access_token" fields = None) ->
  let s1 := add_exchange (token_request t i k, Responded res) s in
  (token <> VNull -> token <> VUndefined ->
   run (sharepoint_auth env) srv s = (log_out "undefined" s1, 0%Z))
  /\ (token = VNull \/ token = VUndefined ->
      let out := run (sharepoint_auth env) srv s in
      out.2 = 1%Z /\ stdout out.1 = stdout s /\ exchanges out.1 = exchanges s1).
Proof.
  intros Hload Hvalid Hreply Hst Hparse Hfield s1. subst s1.
  rewrite (run_auth_loaded _ _ _ _ _ _ Hload Hvalid). cbn zeta. rewrite Hreply.
  split.
  - intros Hnull Hundef.
    rewrite (run_token_granted srv _ res token VUndefined);
      [reflexivity | exact Hst | exact Hparse |].
    destruct token as [| |b|n|str|items|fields]; try done.
    cbn [get_prop]. by rewrite (Hfield fields eq_refl).
  - intros Hnull. unfold on_token_response.
    rewrite Hst, Z.eqb_refl, Hparse. by destruct Hnull as [-> | ->].
Qed.

(** C3, as the code has it. With a complete credential record,
    sharepoint-auth.js returns the token text X whenever the reply has status
    200 and a JSON body whose [access_token] is the string X; for every other
    status it fails with AuthRejected, carrying the status and the raw body,
    and returns no token.  Conversely a returned token text always comes from
    a status 200 reply with a parseable body, and is what [console.log]
    prints for its [access_token] property: the text undefined when the
    property is missing.  The tenant is one that makes a request path:
    [https.request] accepts the token request. *)
Theorem acquire_token env srv s t i k :
  loaded env s t i k ->
  valid_request (token_request t i k) = true ->
  let req := token_request t i k in
  let reply := srv (exchanges s) req in
  let out := run (sharepoint_auth env) srv s in
  (forall X, token_response X reply -> returns_token X s out)
  /\ (forall res, reply = Responded res -> statusCode res <> 200%Z ->
        AuthRejected (statusCode res) (res_body res) (add_exchange (req, reply) s) out
        /\ forall X, ~ returns_token X s out)
  /\ (forall X, returns_token X s out ->
        exists res token v,
          reply = Responded res /\ statusCode res = 200%Z
          /\ JSON_parse (utf8_decode (res_body res)) = Some token
          /\ get_prop token "access_token" = Some v
          /\ console_format v = X).
Proof.
  intros Hload Hvalid req reply out. subst out.
  rewrite (run_auth_loaded _ _ _ _ _ _ Hload Hvalid). cbn zeta. fold req. fold reply.
  split; [|split].
  - intros X (res & fields & Hreply & Hst & Hparse & Hfield). rewrite Hreply.
    rewrite (run_token_granted srv _ res (VObj fields) (VStr X));
      [split; reflexivity | exact Hst | exact Hparse |].
    cbn [get_prop]. rewrite Hfield. reflexivity.
  - intros res Hreply Hst. rewrite Hreply.
    rewrite run_token_rejected by assumption.
    split; [reflexivity|]. intros X [Hcode _]. discriminate Hcode.
  - intros X [Hcode Hout].
    destruct reply as [res|m] eqn:Hreply; [|discriminate Hcode].
    destruct (run (on_token_response res) srv (add_exchange (req, Responded res) s))
      as [s' code] eqn:Hrun.
    cbn in Hcode. subst code.
    apply token_response_success in Hrun as (token & v & Hst & Hparse & Hget & ->).
    exists res, token, v. repeat split; try assumption.
    cbn in Hout. apply app_inv_head in Hout. congruence.
Qed.

(** ** Download (C4, C9) *)

Ltac run_step :=
  cbn [run set_files add_exchange log_out log_err exchanges files stdout stderr
       fst snd negb orb andb].

Lemma valid_follow_request href :
  valid_request (follow_request href) = String.prefix "https:" href.
Proof. reflexivity. Qed.

Lemma try_catch_downloadFile driveId id filePath token outputPath handler :
  ToString driveId = Some id ->
  valid_request (download_request id filePath token) = true ->
  try_catch (downloadFile driveId filePath token outputPath) handler =
    downloadFile driveId filePath token outputPath.
Proof.
  intros Hid Hv. unfold downloadFile. rewrite Hid. cbn [try_catch].
  unfold download_request, content_path in Hv. rewrite Hv. reflexivity.
Qed.

(** The script-level view of the Download operation after a successful
    resolution. *)
Lemma run_download_resolved env srv s siteName filePath rest token driveId id s1 :
  resolved env siteName srv s token driveId s1 ->
  ToString driveId = Some id ->
  valid_request (download_request id filePath token) = true ->
  run (sharepoint_download env (siteName :: filePath :: rest)) srv s =
    run (downloadFile driveId filePath token (outputPath_of filePath rest)) srv s1.
Proof.
  intros Hres Hid Hv. unfold sharepoint_download. cbn zeta.
  destruct (run_pipeline_resolved env siteName
              (fun driveId token =>
                 downloadFile driveId filePath token (outputPath_of filePath rest))
              srv s token driveId s1 Hres) as [data ->].
  rewrite (try_catch_downloadFile _ id) by assumption. reflexivity.
Qed.




(** A refused or unreachable content request: the script reports the
    failure and exits with code 1, and the file that the write stream made
    stays at the output path, empty. *)
Lemma run_download_failed srv s1 driveId id filePath token outputPath :
  ToString driveId = Some id ->
  valid_request (download_request id filePath token) = true ->
  match srv (exchanges s1) (download_request id filePath token) with
  | Responded res =>
      statusCode res <> 200%Z /\ statusCode res <> 301%Z /\ statusCode res <> 302%Z
  | TransportError _ => True
  end ->
  let out := run (downloadFile driveId filePath token outputPath) srv s1 in
  out.2 = 1%Z /\ files out.1 !! outputPath = Some [].
Proof.
  intros Hid Hv Hreply. cbv zeta. unfold downloadFile. rewrite Hid. run_step.
  unfold download_request, content_path in Hreply, Hv. rewrite Hv.
  destruct (srv (exchanges s1) _) as [res|m]; run_step.
  - destruct Hreply as (H200 & H301 & H302).
    apply Z.eqb_neq in H200, H301, H302. rewrite H200, H301, H302. run_step.
    split; [reflexivity | apply lookup_insert_eq].
  - split; [reflexivity | apply lookup_insert_eq].
Qed.



(** ** Upload (C1, C5) *)





(** The response handlers of the PUT make no further exchange. *)
Lemma upload_handlers_exchanges srv s reply :
  exchanges
    (run match reply with
         | Responded res => on_upload_response res
         | TransportError m => on_request_error m
         end srv s).1 = exchanges s.
Proof.
  destruct reply as [res|m]; [|reflexivity].
  unfold on_upload_response, log_property.
  repeat case_match; reflexivity.
Qed.

Lemma append_empty_r (a : string) : a +:+ EmptyString = a.
Proof.
  induction a as [|c a IH]; [reflexivity|].
  change (String c (a +:+ EmptyString) = String c a). rewrite IH. reflexivity.
Qed.

Lemma issued_app s final tr :
  exchanges final = (exchanges s ++ tr)%list -> issued s final = tr.
Proof. intros Hx. unfold issued. rewrite Hx. apply drop_app_length. Qed.


(** ** List (C6) *)









(** ** The order of resolution (C7) *)

Lemma conforms_single st req reply :
  admits st req = true -> conforms st [(req, reply)] = true.
Proof. intros Ha. cbn [conforms fst]. rewrite Ha. reflexivity. Qed.

Lemma conforms_advance st req reply st' tr :
  admits st req = true -> next_stage st (req, reply) = Some st' ->
  conforms st' tr = true -> conforms st ((req, reply) :: tr) = true.
Proof.
  intros Ha Hn Hc. cbn [conforms fst]. rewrite Ha, Hn.
  destruct tr; [reflexivity | exact Hc].
Qed.

Lemma prefix_append a b : String.prefix a (a +:+ b) = true.
Proof.
  induction a as [|c a IH]; [destruct b; reflexivity|].
  change (String.prefix (String c a) (String c (a +:+ b)) = true).
  cbn [String.prefix]. destruct (ascii_dec c c); [exact IH | congruence].
Qed.

Lemma append_assoc (a b c : string) : (a +:+ b) +:+ c = a +:+ (b +:+ c).
Proof.
  induction a as [|x a IH]; [reflexivity|].
  change (String x ((a +:+ b) +:+ c) = String x (a +:+ (b +:+ c))).
  rewrite IH. reflexivity.
Qed.

Lemma carries_token_api verb path token extra body :
  carries_token token (api_request verb path token extra body) = true.
Proof.
  unfold carries_token, api_request. cbn [req_headers target].
  rewrite bool_decide_eq_true_2 by reflexivity.
  rewrite bool_decide_eq_true_2 by reflexivity. reflexivity.
Qed.

Lemma admits_token_request t i k :
  admits Unauthenticated (token_request t i k) = true.
Proof. reflexivity. Qed.

Lemma admits_site_request token tenant siteName :
  admits (Authenticated token) (site_request tenant siteName token) = true.
Proof.
  unfold admits, site_request. rewrite carries_token_api.
  cbn [andb path_of api_request target]. apply prefix_append.
Qed.

Lemma admits_drive_request token siteId sid :
  ToString siteId = Some sid ->
  admits (SiteResolved token siteId) (drive_request sid token) = true.
Proof.
  intros Hsid. unfold admits, drive_request. rewrite Hsid, carries_token_api.
  cbn [andb path_of api_request target]. apply bool_decide_eq_true_2. reflexivity.
Qed.

(** A request of an operation: bearer token, and a path under the root of
    the resolved drive. *)
Lemma admits_operation token driveId id verb tail extra body :
  ToString driveId = Some id ->
  admits (DriveResolved token driveId)
    (api_request verb ("/v1.0/drives/" +:+ id +:+ "/root" +:+ tail) token extra body)
  = true.
Proof.
  intros Hid. unfold admits. cbn [target api_request]. rewrite Hid.
  rewrite carries_token_api. cbn [andb].
  rewrite <- (append_assoc "/v1.0/drives/" id "/root").
  rewrite <- !append_assoc. apply prefix_append.
Qed.

(** A request whose callbacks make no exchange adds exactly one. *)
Lemma request_exchanges req h he srv s :
  valid_request req = true ->
  (forall res s', exchanges (run (h res) srv s').1 = exchanges s') ->
  (forall m s', exchanges (run (he m) srv s').1 = exchanges s') ->
  exchanges (run (HttpsRequest req h he) srv s).1
  = (exchanges s ++ [(req, srv (exchanges s) req)])%list.
Proof.
  intros Hv Hh Hhe. rewrite (run_request _ _ _ _ _ Hv).
  destruct (srv (exchanges s) req) as [res|m]; [rewrite Hh | rewrite Hhe]; reflexivity.
Qed.

Lemma on_finish_exchanges outputPath srv s :
  exchanges (run (on_finish outputPath) srv s).1 = exchanges s.
Proof. unfold on_finish. run_step. case_match; reflexivity. Qed.

Lemma operation_silent token driveId srv s1 p :
  exchanges (run p srv s1).1 = exchanges s1 ->
  operation_conforms token driveId srv s1 p.
Proof. intros He. exists []. rewrite He, app_nil_r. split; reflexivity. Qed.

Lemma operation_one token driveId srv s1 p req reply :
  exchanges (run p srv s1).1 = (exchanges s1 ++ [(req, reply)])%list ->
  admits (DriveResolved token driveId) req = true ->
  operation_conforms token driveId srv s1 p.
Proof.
  intros He Ha. exists [(req, reply)]. split; [exact He | apply conforms_single, Ha].
Qed.

Lemma operation_two token driveId srv s1 p req1 reply1 req2 reply2 :
  exchanges (run p srv s1).1
  = ((exchanges s1 ++ [(req1, reply1)]) ++ [(req2, reply2)])%list ->
  admits (DriveResolved token driveId) req1 = true ->
  admits (DriveResolved token driveId) req2 = true ->
  operation_conforms token driveId srv s1 p.
Proof.
  intros He Ha1 Ha2. exists [(req1, reply1); (req2, reply2)]. split.
  - rewrite He, <- app_assoc. reflexivity.
  - apply (conforms_advance _ _ _ (DriveResolved token driveId));
      [exact Ha1 | reflexivity | apply conforms_single, Ha2].
Qed.

Lemma downloadFromUrl_exchanges url outputPath srv s :
  String.prefix "https:" url = true ->
  exchanges (run (downloadFromUrl url outputPath) srv s).1
  = (exchanges s ++ [(follow_request url, srv (exchanges s) (follow_request url))])%list.
Proof.
  intros Hhttps. unfold downloadFromUrl. run_step. fold (follow_request url).
  rewrite valid_follow_request, Hhttps.
  destruct (srv (exchanges s) (follow_request url)); run_step;
    [rewrite on_finish_exchanges|]; reflexivity.
Qed.

Lemma downloadFromUrl_refused url outputPath srv s :
  String.prefix "https:" url = false ->
  exchanges (run (downloadFromUrl url outputPath) srv s).1 = exchanges s.
Proof.
  intros Hhttps. unfold downloadFromUrl. run_step. fold (follow_request url).
  rewrite valid_follow_request, Hhttps. reflexivity.
Qed.

Lemma download_conforms driveId filePath token outputPath data srv s1 :
  operation_conforms token driveId srv s1
    (try_catch (downloadFile driveId filePath token outputPath) (invalid_json data)).
Proof.
  unfold downloadFile. destruct (ToString driveId) as [id|] eqn:Hid.
  2:{ apply operation_silent. reflexivity. }
  cbn [try_catch].
  pose proof (admits_operation token driveId id "GET"
                (":/" +:+ encodeURIComponent filePath +:+ ":/content") [] [] Hid)
    as Hfirst.
  set (req := api_request "GET"
                ("/v1.0/drives/" +:+ id +:+ "/root:/"
                 +:+ encodeURIComponent filePath +:+ ":/content") token [] []) in *.
  destruct (valid_request req) eqn:Hv.
  2:{ apply operation_silent. reflexivity. }
  destruct (srv (exchanges s1) req) as [res|m] eqn:Hreply.
  2:{ eapply operation_one; [| exact Hfirst]. run_step. rewrite Hv, Hreply.
      reflexivity. }
  destruct (statusCode res =? 200)%Z eqn:H200.
  { eapply operation_one; [| exact Hfirst]. run_step. rewrite Hv, Hreply, H200.
    run_step. rewrite on_finish_exchanges. reflexivity. }
  destruct ((statusCode res =? 302)%Z || (statusCode res =? 301)%Z) eqn:H30x.
  2:{ eapply operation_one; [| exact Hfirst]. run_step.
      rewrite Hv, Hreply, H200, H30x. reflexivity. }
  destruct (assoc "location" (res_headers res)) as [location|] eqn:Hloc.
  2:{ eapply operation_one; [| exact Hfirst]. run_step.
      rewrite Hv, Hreply, H200, H30x, Hloc. reflexivity. }
  destruct (URL_href location) as [href|] eqn:Href.
  2:{ eapply operation_one; [| exact Hfirst]. run_step.
      rewrite Hv, Hreply, H200, H30x, Hloc, Href. reflexivity. }
  destruct (String.prefix "https:" href) eqn:Hhttps.
  2:{ eapply operation_one; [| exact Hfirst]. run_step.
      rewrite Hv, Hreply, H200, H30x, Hloc, Href.
      rewrite downloadFromUrl_refused by exact Hhttps. reflexivity. }
  eapply operation_two;
    [ run_step; rewrite Hv, Hreply, H200, H30x, Hloc, Href;
      rewrite downloadFromUrl_exchanges by exact Hhttps; reflexivity
    | exact Hfirst
    | reflexivity ].
Qed.

Lemma on_listing_exchanges data handler_data srv s :
  exchanges (run (try_catch (on_listing data) (invalid_json handler_data)) srv s).1
  = exchanges s.
Proof.
  unfold on_listing. repeat case_match; reflexivity.
Qed.

Lemma list_conforms driveId folderPath token data srv s1 :
  operation_conforms token driveId srv s1
    (try_catch (listFiles driveId folderPath token) (invalid_json data)).
Proof.
  unfold listFiles. destruct (ToString driveId) as [id|] eqn:Hid.
  2:{ apply operation_silent. reflexivity. }
  cbn zeta. unfold makeRequest. cbn [try_catch].
  assert (Hfirst : forall extra body,
             admits (DriveResolved token driveId)
               (api_request "GET"
                  (if negb (bool_decide (folderPath = EmptyString))
                   then "/v1.0/drives/" +:+ id +:+ "/root:/"
                        +:+ encodeURIComponent folderPath +:+ ":/children"
                   else "/v1.0/drives/" +:+ id +:+ "/root/children")
                  token extra body) = true).
  { intros extra body. destruct (negb (bool_decide (folderPath = EmptyString))).
    - apply (admits_operation token driveId id "GET"
               (":/" +:+ encodeURIComponent folderPath +:+ ":/children") _ _ Hid).
    - apply (admits_operation token driveId id "GET" "/children" _ _ Hid). }
  destruct (valid_request _) eqn:Hv.
  2:{ apply operation_silent. reflexivity. }
  eapply operation_one; [| apply Hfirst].
  apply request_exchanges; [exact Hv | |reflexivity].
  intros res s'.
  destruct (JSON_parse (utf8_decode (res_body res))) as [parsed|]; [|reflexivity].
  apply on_listing_exchanges.
Qed.

Lemma upload_conforms driveId remotePath localFile token fileSize data srv s1 :
  operation_conforms token driveId srv s1
    (try_catch
       (if (fileSize <? 4 * 1024 * 1024)%Z
        then uploadSmallFile driveId remotePath localFile token
        else uploadLargeFile driveId remotePath localFile token)
       (invalid_json data)).
Proof.
  destruct (fileSize <? 4 * 1024 * 1024)%Z.
  2:{ apply operation_silent. reflexivity. }
  unfold uploadSmallFile. destruct (ToString driveId) as [id|] eqn:Hid.
  2:{ apply operation_silent. reflexivity. }
  cbn [try_catch]. run_step.
  destruct (files s1 !! localFile) as [content|] eqn:Hfile.
  2:{ apply operation_silent. run_step. rewrite Hfile. reflexivity. }
  destruct (valid_request
              (api_request "PUT"
                 ("/v1.0/drives/" +:+ id +:+ "/root:/"
                  +:+ encodeURIComponent remotePath +:+ ":/content") token
                 [ ("Content-Type", "application/octet-stream");
                   ("Content-Length", pretty (length content)) ] content)) eqn:Hv.
  2:{ apply operation_silent. run_step. rewrite Hfile. cbn [try_catch].
      rewrite Hv. reflexivity. }
  eapply operation_one;
    [ run_step; rewrite Hfile; cbn [try_catch]; rewrite Hv;
      apply request_exchanges; [exact Hv | |reflexivity];
      intros res s'; apply (upload_handlers_exchanges srv s' (Responded res))
    | apply (admits_operation token driveId id "PUT"
               (":/" +:+ encodeURIComponent remotePath +:+ ":/content") _ _ Hid) ].
Qed.

Lemma puts_nil_of_methods (tr : list exchange) :
  Forall (fun e : exchange => method e.1 <> "PUT") tr -> puts tr = [].
Proof.
  induction 1 as [|e tr He _ IH]; [reflexivity|].
  unfold puts in *. rewrite filter_cons_False by exact He. exact IH.
Qed.

Lemma token_request_not_put t i k : method (token_request t i k) <> "PUT".
Proof. discriminate. Qed.

Lemma get_request_not_put path token extra body :
  method (api_request "GET" path token extra body) <> "PUT".
Proof. discriminate. Qed.

(** The token exchange of a successful sharepoint-auth.js leads the
    automaton to the stage that holds the token the pipeline reads. *)
Lemma token_exchange_advances t i k res tok v :
  statusCode res = 200%Z ->
  JSON_parse (utf8_decode (res_body res)) = Some tok ->
  get_prop tok "access_token" = Some v ->
  next_stage Unauthenticated (token_request t i k, Responded res)
  = Some (Authenticated (trim (stream_text [console_format v]))).
Proof.
  intros Hst Hparse Hget. cbn [next_stage token_of_reply snd].
  rewrite Hst, Z.eqb_refl, Hparse. cbn. rewrite Hget. reflexivity.
Qed.

(** Every run of a pipeline either stops during the resolution, after a
    conforming prefix of exchanges, or reaches its operation with the drive
    resolved, after the three exchanges of the resolution. No PUT is sent
    before the operation. *)
Lemma pipeline_trace env siteName operation srv s :
  exists pre,
    puts pre = []
    /\ ((exchanges (run (pipeline env siteName operation) srv s).1
          = (exchanges s ++ pre)%list
          /\ conforms Unauthenticated pre = true)
        \/ exists token driveId s1 data,
             resolved env siteName srv s token driveId s1
             /\ exchanges s1 = (exchanges s ++ pre)%list
             /\ run (pipeline env siteName operation) srv s
                = run (try_catch (operation driveId token) (invalid_json data)) srv s1
             /\ forall tr,
                  conforms (DriveResolved token driveId) tr = true ->
                  conforms Unauthenticated (pre ++ tr) = true).
Proof.
  destruct (run (sharepoint_auth env) srv (child_state s)) as [c1 code1] eqn:Hauth.
  destruct (Z.eq_dec code1 0%Z) as [-> | Hcode].
  2:{ rewrite (run_pipeline_auth_failed _ _ _ _ _ _ _ Hauth Hcode).
      cbn [fst exchanges log_err after_child].
      pose proof (auth_trace env srv (child_state s)) as [_ Htr].
      cbn zeta in Htr. rewrite Hauth in Htr.
      cbn [fst snd child_state exchanges] in Htr.
      destruct Htr as [[He _] | (t & i & k & He)].
      - exists []. split; [reflexivity|]. left.
        rewrite He, app_nil_r. split; reflexivity.
      - eexists. split; [|left; split; [exact He|]].
        + apply puts_nil_of_methods. repeat constructor. apply token_request_not_put.
        + apply conforms_single, admits_token_request. }
  pose proof (auth_success _ _ _ _ Hauth)
    as (t & i & k & res & tok & v & _ & Hreply & Hst & Hparse & Hget & Hc1).
  cbn [child_state exchanges] in Hreply.
  set (tokEx := (token_request t i k, Responded res)).
  assert (Hex1 : exchanges c1 = (exchanges s ++ [tokEx])%list)
    by (rewrite Hc1; reflexivity).
  assert (Htoken : trim (stream_text (stdout c1))
                   = trim (stream_text [console_format v]))
    by (rewrite Hc1; reflexivity).
  pose proof (token_exchange_advances t i k res tok v Hst Hparse Hget) as Hadv1.
  fold tokEx in Hadv1. rewrite <- Htoken in Hadv1.
  set (token := trim (stream_text (stdout c1))) in *.
  destruct (run (get_tenant env) srv (child_state (after_child s c1)))
    as [c2 code2] eqn:Htenant.
  pose proof (tenant_trace env srv (child_state (after_child s c1))) as (_ & Hex2 & _).
  cbn zeta in Hex2. rewrite Htenant in Hex2.
  cbn [fst child_state after_child exchanges] in Hex2.
  destruct (Z.eq_dec code2 0%Z) as [-> | Hcode2].
  2:{ exists [tokEx]. split.
      { apply puts_nil_of_methods. repeat constructor. apply token_request_not_put. }
      left. split; [|apply conforms_single, admits_token_request].
      unfold pipeline. cbn [run]. rewrite Hauth. cbn [Z.eqb run]. rewrite Htenant.
      apply Z.eqb_neq in Hcode2. rewrite Hcode2.
      cbn [run fst exchanges log_err after_child]. rewrite Hex2, Hex1. reflexivity. }
  set (tenant := trim (stream_text (stdout c2))).
  set (s2 := after_child (after_child s c1) c2).
  assert (Hs2 : exchanges s2 = (exchanges s ++ [tokEx])%list)
    by (unfold s2; cbn [after_child exchanges]; rewrite Hex2, Hex1; reflexivity).
  assert (Hstart :
            run (pipeline env siteName operation) srv s =
              run (getSiteId (tenant +:+ ".sharepoint.com:/sites/" +:+ siteName) token
                     (fun actualSiteId =>
                        getDriveId actualSiteId token
                          (fun driveId => operation driveId token))) srv s2).
  { unfold pipeline. cbn [run]. rewrite Hauth. cbn [Z.eqb run]. rewrite Htenant.
    reflexivity. }
  rewrite Hstart. unfold getSiteId.
  set (siteReq := site_request tenant siteName token).
  set (siteEx := (siteReq, srv (exchanges s2) siteReq)).
  destruct (valid_request siteReq) eqn:Hvsite.
  2:{ exists [tokEx]. split.
      { apply puts_nil_of_methods. repeat constructor. apply token_request_not_put. }
      left. split; [|apply conforms_single, admits_token_request].
      unfold makeRequest. rewrite (run_request_refused _ _ _ _ _ Hvsite).
      exact Hs2. }
  match goal with
  | |- context [makeRequest ?p ?t (with_id ?w ?cb)] =>
      pose proof (run_resolver w p t cb srv s2 Hvsite) as Hsite
  end.
  change (api_request _ _ _ _ _) with siteReq in Hsite. fold siteEx in Hsite.
  assert (Hputs2 : puts [tokEx; siteEx] = []).
  { apply puts_nil_of_methods. repeat constructor;
      [apply token_request_not_put | apply get_request_not_put]. }
  assert (Hconf2 : conforms Unauthenticated [tokEx; siteEx] = true).
  { apply (conforms_advance _ _ _ _ _ (admits_token_request t i k) Hadv1).
    apply conforms_single, admits_site_request. }
  destruct (id_of_reply (srv (exchanges s2) siteReq)) as [siteId|] eqn:Hsid.
  2:{ destruct Hsite as (final & -> & He & _).
      exists [tokEx; siteEx]. split; [exact Hputs2|]. left. split; [|exact Hconf2].
      cbn [fst]. rewrite He. cbn [add_exchange exchanges].
      rewrite Hs2, <- app_assoc. reflexivity. }
  destruct Hsite as [data1 ->].
  assert (Hadv2 : next_stage (Authenticated token) siteEx
                  = Some (SiteResolved token siteId))
    by (cbn [next_stage siteEx snd]; rewrite Hsid; reflexivity).
  set (s3 := add_exchange siteEx s2).
  assert (Hs3 : exchanges s3 = (exchanges s ++ [tokEx; siteEx])%list)
    by (unfold s3; cbn [add_exchange exchanges]; rewrite Hs2, <- app_assoc; reflexivity).
  unfold getDriveId.
  destruct (ToString siteId) as [sid|] eqn:Htext.
  2:{ exists [tokEx; siteEx]. split; [exact Hputs2|]. left. split; [|exact Hconf2].
      cbn [try_catch invalid_json run fst exchanges log_err]. exact Hs3. }
  set (driveReq := drive_request sid token).
  set (driveEx := (driveReq, srv (exchanges s3) driveReq)).
  destruct (valid_request driveReq) eqn:Hvdrive.
  2:{ exists [tokEx; siteEx]. split; [exact Hputs2|]. left. split; [|exact Hconf2].
      rewrite (try_catch_makeRequest_refused _ _ _ _ Hvdrive).
      cbn [invalid_json run fst exchanges log_err]. exact Hs3. }
  match goal with
  | |- context [makeRequest ?p ?t (with_id ?w ?cb)] =>
      pose proof (run_resolver w p t cb srv s3 Hvdrive) as Hdrive
  end.
  change (api_request _ _ _ _ _) with driveReq in Hdrive. fold driveEx in Hdrive.
  rewrite (try_catch_makeRequest _ _ _ _ Hvdrive).
  assert (Hputs3 : puts [tokEx; siteEx; driveEx] = []).
  { apply puts_nil_of_methods. repeat constructor;
      [apply token_request_not_put | apply get_request_not_put
       | apply get_request_not_put]. }
  assert (Hadm3 : admits (SiteResolved token siteId) driveReq = true)
    by (apply admits_drive_request, Htext).
  destruct (id_of_reply (srv (exchanges s3) driveReq)) as [driveId|] eqn:Hdid.
  2:{ destruct Hdrive as (final & Hrun & He & _).
      exists [tokEx; siteEx; driveEx]. split; [exact Hputs3|]. left. split.
      - rewrite Hrun. cbn [fst]. rewrite He.
        cbn [add_exchange exchanges]. rewrite Hs3, <- app_assoc. reflexivity.
      - apply (conforms_advance _ _ _ _ _ (admits_token_request t i k) Hadv1).
        apply (conforms_advance _ _ _ _ _ (admits_site_request _ _ _) Hadv2).
        apply conforms_single, Hadm3. }
  destruct Hdrive as [data2 Hrun].
  exists [tokEx; siteEx; driveEx]. split; [exact Hputs3|]. right.
  exists token, driveId, (add_exchange driveEx s3), data2.
  split; [|split; [|split]].
  - exists (after_child s c1), tenant, s2, siteId, sid.
    split; [exists c1; auto|]. split; [exists c2; auto|].
    split; [exact Hvsite|]. split; [exact Hsid|]. split; [exact Htext|].
    split; [exact Hvdrive|]. cbn zeta.
    split; [exact Hdid | reflexivity].
  - cbn [add_exchange exchanges]. rewrite Hs3, <- app_assoc. reflexivity.
  - exact Hrun.
  - intros tr Htr.
    apply (conforms_advance _ _ _ _ _ (admits_token_request t i k) Hadv1).
    apply (conforms_advance _ _ _ _ _ (admits_site_request _ _ _) Hadv2).
    apply (conforms_advance _ _ _ (DriveResolved token driveId) _ Hadm3); [|exact Htr].
    cbn [next_stage driveEx snd]. rewrite Hdid. reflexivity.
Qed.

Lemma issued_same s final : exchanges final = exchanges s -> issued s final = [].
Proof. intros He. apply issued_app. rewrite He, app_nil_r. reflexivity. Qed.

(** A pipeline whose operation conforms to the resolved stage conforms as a
    whole; [s0] is the state in which the script started, with the same
    exchanges as [s]. *)
Lemma pipeline_conforms env siteName operation srv s s0 :
  exchanges s = exchanges s0 ->
  (forall token driveId s1 data,
      operation_conforms token driveId srv s1
        (try_catch (operation driveId token) (invalid_json data))) ->
  conforms Unauthenticated
    (issued s0 (run (pipeline env siteName operation) srv s).1) = true.
Proof.
  intros Hs Hop.
  destruct (pipeline_trace env siteName operation srv s)
    as (pre & _ & [[He Hc] | (token & driveId & s1 & data & _ & Hs1 & Hrun & Hext)]).
  - rewrite (issued_app s0 _ pre) by (rewrite He, Hs; reflexivity). exact Hc.
  - rewrite Hrun. destruct (Hop token driveId s1 data) as (tr & He & Hc).
    rewrite (issued_app s0 _ (pre ++ tr)%list)
      by (rewrite He, Hs1, Hs, <- app_assoc; reflexivity).
    apply Hext, Hc.
Qed.

(** C7, as the code has it. In every run of the three pipeline scripts,
    whatever the server answers, the exchanges follow the order of
    resolution: the first one is the token request; a request for the site
    comes only after a status 200 token reply with a JSON body and carries
    in its Authorization header the text that sharepoint-auth.js printed
    for the [access_token] of that reply; the request for the drive comes
    only after a resolved site, names the site identifier of the previous
    reply and carries the same text; and the requests of the operation come
    only after a resolved drive, under its identifier.  The text is the
    granted token when the reply holds one, and the text undefined when the
    reply has no [access_token]: the scripts do not check that a token was
    granted. *)
Theorem resolution_is_ordered env srv s args :
  conforms Unauthenticated
    (issued s (run (sharepoint_download env args) srv s).1) = true
  /\ conforms Unauthenticated
       (issued s (run (sharepoint_list_files env args) srv s).1) = true
  /\ conforms Unauthenticated
       (issued s (run (sharepoint_upload env args) srv s).1) = true.
Proof.
  split; [|split].
  - unfold sharepoint_download.
    destruct args as [|siteName [|filePath rest]];
      try (rewrite issued_same by reflexivity; reflexivity).
    cbn zeta. apply pipeline_conforms; [reflexivity|].
    intros token driveId s1 data. apply download_conforms.
  - unfold sharepoint_list_files.
    destruct args as [|siteName rest];
      try (rewrite issued_same by reflexivity; reflexivity).
    cbn zeta. apply pipeline_conforms; [reflexivity|].
    intros token driveId s1 data. apply list_conforms.
  - unfold sharepoint_upload.
    destruct args as [|siteName [|localFile [|remotePath rest]]];
      try (rewrite issued_same by reflexivity; reflexivity).
    run_step.
    destruct (bool_decide (is_Some (files s !! localFile)));
      [|rewrite issued_same by reflexivity; reflexivity].
    run_step.
    destruct (files s !! localFile) as [content|];
      [|rewrite issued_same by reflexivity; reflexivity].
    cbn [fmap option_fmap option_map]. run_step.
    apply pipeline_conforms; [reflexivity|].
    intros token driveId s1 data. apply upload_conforms.
Qed.



End Properties.

(** * Further properties: footprints, configuration, failures *)

Section Further.
Context `{NodeRuntime}.

(** ** Footprints *)

Lemma within_run R W p :
  within R W p ->
  forall srv s,
    (exists tr, exchanges (run p srv s).1 = (exchanges s ++ tr)%list
                /\ Forall (fun e : exchange => R e.1) tr)
    /\ (forall q, ~ W q -> files (run p srv s).1 !! q = files s !! q).
Proof.
  induction 1 as [ | e | code | line k _ IH | line k _ IH | path k _ IH
                 | path k _ IH | path k _ IH | path k Hw _ IH | path k Hw _ IH
                 | command child k _ IHc _ IHk | body path k Hw _ IH
                 | req h he Hr _ IHh _ IHe ];
    intros srv s; cbn [run].
  - split; [exists []; cbn; by rewrite app_nil_r | done].
  - split; [exists []; cbn; by rewrite app_nil_r | done].
  - split; [exists []; cbn; by rewrite app_nil_r | done].
  - apply (IH srv (log_out line s)).
  - apply (IH srv (log_err line s)).
  - apply IH.
  - apply IH.
  - apply IH.
  - destruct (IH srv (set_files (<[path:=[]]> (files s)) s)) as [Hx Hf].
    split; [exact Hx|].
    intros q Hq. rewrite (Hf q Hq). cbn.
    apply lookup_insert_ne. intros ->. by apply Hq.
  - destruct (IH srv (set_files (delete path (files s)) s)) as [Hx Hf].
    split; [exact Hx|].
    intros q Hq. rewrite (Hf q Hq). cbn.
    apply lookup_delete_ne. intros ->. by apply Hq.
  - destruct (IHc srv (child_state s)) as [(tr1 & Hx1 & Hr1) Hf1].
    destruct (run child srv (child_state s)) as [cs code]. cbn in Hx1, Hf1.
    assert (Hk : forall r,
      (exists tr, exchanges (run (k r) srv (after_child s cs)).1
                  = (exchanges s ++ tr)%list
                  /\ Forall (fun e : exchange => R e.1) tr)
      /\ (forall q, ~ W q ->
            files (run (k r) srv (after_child s cs)).1 !! q = files s !! q)).
    { intros r. destruct (IHk r srv (after_child s cs)) as [(tr2 & Hx2 & Hr2) Hf2].
      split.
      - exists (tr1 ++ tr2)%list. rewrite Hx2. cbn. rewrite Hx1, app_assoc.
        split; [done | by apply Forall_app].
      - intros q Hq. rewrite (Hf2 q Hq). cbn. by apply Hf1. }
    destruct (code =? 0)%Z; apply Hk.
  - destruct (IH srv (set_files (<[path:=body]> (files s)) s)) as [Hx Hf].
    split; [exact Hx|].
    intros q Hq. rewrite (Hf q Hq). cbn.
    apply lookup_insert_ne. intros ->. by apply Hq.
  - assert (Hk : forall p reply,
      (forall srv s,
         (exists tr, exchanges (run p srv s).1 = (exchanges s ++ tr)%list
                     /\ Forall (fun e : exchange => R e.1) tr)
         /\ (forall q, ~ W q -> files (run p srv s).1 !! q = files s !! q)) ->
      (exists tr, exchanges (run p srv (add_exchange (req, reply) s)).1
                  = (exchanges s ++ tr)%list
                  /\ Forall (fun e : exchange => R e.1) tr)
      /\ (forall q, ~ W q ->
            files (run p srv (add_exchange (req, reply) s)).1 !! q = files s !! q)).
    { intros p reply IH.
      destruct (IH srv (add_exchange (req, reply) s)) as [(tr & Hx & Hr') Hf].
      split; [|exact Hf].
      exists ((req, reply) :: tr). rewrite Hx. cbn. rewrite <- app_assoc.
      split; [done | by constructor]. }
    destruct (valid_request req).
    + destruct (srv (exchanges s) req) as [res|m]; apply Hk; [apply IHh | apply IHe].
    + split; [exists []; cbn; by rewrite app_nil_r | done].
Qed.

Lemma at_most_run n p :
  at_most n p ->
  forall srv s,
    exists tr, exchanges (run p srv s).1 = (exchanges s ++ tr)%list
               /\ length tr <= n.
Proof.
  induction 1 as [ n | n e | n code | n line k _ IH | n line k _ IH | n path k _ IH
                 | n path k _ IH | n path k _ IH | n path k _ IH | n path k _ IH
                 | a b command child k _ IHc _ IHk | n body path k _ IH
                 | n req h he _ IHh _ IHe ];
    intros srv s; cbn [run].
  - exists []. cbn. rewrite app_nil_r. split; [done | lia].
  - exists []. cbn. rewrite app_nil_r. split; [done | lia].
  - exists []. cbn. rewrite app_nil_r. split; [done | lia].
  - apply (IH srv (log_out line s)).
  - apply (IH srv (log_err line s)).
  - apply IH.
  - apply IH.
  - apply IH.
  - apply (IH srv (set_files (<[path:=[]]> (files s)) s)).
  - apply (IH srv (set_files (delete path (files s)) s)).
  - destruct (IHc srv (child_state s)) as (tr1 & Hx1 & Hl1).
    destruct (run child srv (child_state s)) as [cs code]. cbn in Hx1.
    assert (Hk : forall r,
      exists tr, exchanges (run (k r) srv (after_child s cs)).1
                 = (exchanges s ++ tr)%list /\ length tr <= a + b).
    { intros r. destruct (IHk r srv (after_child s cs)) as (tr2 & Hx2 & Hl2).
      exists (tr1 ++ tr2)%list. rewrite Hx2. cbn. rewrite Hx1, app_assoc.
      split; [done | rewrite length_app; lia]. }
    destruct (code =? 0)%Z; apply Hk.
  - apply (IH srv (set_files (<[path:=body]> (files s)) s)).
  - assert (Hk : forall p reply,
      (forall srv s, exists tr, exchanges (run p srv s).1 = (exchanges s ++ tr)%list
                                /\ length tr <= n) ->
      exists tr, exchanges (run p srv (add_exchange (req, reply) s)).1
                 = (exchanges s ++ tr)%list /\ length tr <= S n).
    { intros p reply IH.
      destruct (IH srv (add_exchange (req, reply) s)) as (tr & Hx & Hl).
      exists ((req, reply) :: tr). rewrite Hx. cbn. rewrite <- app_assoc.
      split; [done | cbn; lia]. }
    destruct (valid_request req).
    + destruct (srv (exchanges s) req) as [res|m]; apply Hk; [apply IHh | apply IHe].
    + exists []. cbn. rewrite app_nil_r. split; [done | lia].
Qed.

Lemma within_try_catch R W p handler :
  within R W p -> (forall e, within R W (handler e)) ->
  within R W (try_catch p handler).
Proof.
  intros Hp Hh. induction Hp; cbn [try_catch]; try (constructor; auto; fail).
  - apply Hh.
  - destruct (valid_request req); [constructor; auto | apply Hh].
Qed.

Lemma within_weaken (R R' : Request -> Prop) (W W' : string -> Prop) p :
  (forall req, R req -> R' req) -> (forall q, W q -> W' q) ->
  within R W p -> within R' W' p.
Proof.
  intros HR HW. induction 1; constructor; auto.
Qed.

Lemma at_most_try_catch n p handler :
  at_most n p -> (forall m e, at_most m (handler e)) ->
  at_most n (try_catch p handler).
Proof.
  intros Hp Hh. induction Hp; cbn [try_catch]; try (constructor; auto; fail).
  - apply Hh.
  - destruct (valid_request req); [constructor; auto | apply Hh].
Qed.

Lemma at_most_weaken n m p : at_most n p -> n <= m -> at_most m p.
Proof.
  intros Hp. revert m.
  induction Hp as [ n | n e | n code | n line k _ IH | n line k _ IH | n path k _ IH
                  | n path k _ IH | n path k _ IH | n path k _ IH | n path k _ IH
                  | a b command child k Hc _ _ IHk | n body path k _ IH
                  | n req h he _ IHh _ IHe ];
    intros m Hm; try (constructor; auto; fail).
  - replace m with (a + (m - a)) by lia. constructor; [exact Hc|].
    intros r. apply IHk. lia.
  - destruct m as [|m]; [lia|]. constructor; intros; [apply IHh | apply IHe]; lia.
Qed.

Ltac footprint :=
  repeat first
    [ progress intros
    | apply within_Return | apply within_Throw | apply within_Exit
    | apply within_ConsoleLog | apply within_ConsoleError
    | apply within_ExistsSync | apply within_StatSync | apply within_ReadFileSync
    | apply within_try_catch
    | match goal with
      | |- within _ _ (match ?x with _ => _ end) => destruct x
      end ].

Lemma within_sharepoint_auth R W env :
  (forall t i k, R (token_request t i k)) -> within R W (sharepoint_auth env).
Proof.
  intros HR. unfold sharepoint_auth. footprint.
  apply within_HttpsRequest; [apply HR | |]; intros;
    unfold on_token_response, on_request_error; footprint.
Qed.

Lemma within_get_tenant R W env : within R W (get_tenant env).
Proof. unfold get_tenant. footprint. Qed.

Lemma within_makeRequest R W path token callback :
  (forall p t extra body, R (api_request "GET" p t extra body)) ->
  (forall v, within R W (callback v)) ->
  within R W (makeRequest path token callback).
Proof.
  intros HR Hc. unfold makeRequest.
  apply within_HttpsRequest; [apply HR | |]; intros; unfold on_request_error;
    footprint; apply Hc.
Qed.

Lemma within_with_id R W what callback data :
  (forall v, within R W (callback v)) -> within R W (with_id what callback data).
Proof. intros Hc. unfold with_id. footprint. apply Hc. Qed.

Lemma within_pipeline R W env siteName operation :
  (forall t i k, R (token_request t i k)) ->
  (forall p t extra body, R (api_request "GET" p t extra body)) ->
  (forall driveId token, within R W (operation driveId token)) ->
  within R W (pipeline env siteName operation).
Proof.
  intros Ht Hg Ho. unfold pipeline.
  apply within_ExecSync; [by apply within_sharepoint_auth|].
  intros [out|message]; [|footprint].
  apply within_ExecSync; [apply within_get_tenant|].
  intros [out'|message]; [|footprint].
  unfold getSiteId. apply within_makeRequest; [exact Hg|].
  intros data. apply within_with_id. intros siteId.
  unfold getDriveId. destruct (ToString siteId); [|footprint].
  apply within_makeRequest; [exact Hg|].
  intros data'. apply within_with_id. intros driveId. apply Ho.
Qed.

Lemma within_on_finish R W outputPath : within R W (on_finish outputPath).
Proof. unfold on_finish. footprint. Qed.

Lemma within_downloadFile R (W : string -> Prop) driveId filePath token outputPath :
  (forall p t extra body, R (api_request "GET" p t extra body)) ->
  (forall href, R (follow_request href)) ->
  W outputPath ->
  within R W (downloadFile driveId filePath token outputPath).
Proof.
  intros Hg Hf Hw. unfold downloadFile. destruct (ToString driveId); [|footprint].
  apply within_CreateWriteStream; [exact Hw|].
  apply within_HttpsRequest; [apply Hg | | intros; unfold on_request_error; footprint].
  intros res. footprint.
  - apply within_Pipe; [exact Hw | apply within_on_finish].
  - unfold downloadFromUrl. apply within_CreateWriteStream; [exact Hw|].
    apply within_HttpsRequest; [apply Hf | |]; intros.
    + apply within_Pipe; [exact Hw | apply within_on_finish].
    + apply within_Unlink; [exact Hw | footprint].
Qed.

Lemma within_listFiles R W driveId folderPath token :
  (forall p t extra body, R (api_request "GET" p t extra body)) ->
  within R W (listFiles driveId folderPath token).
Proof.
  intros Hg. unfold listFiles. destruct (ToString driveId); [|footprint].
  apply within_makeRequest; [exact Hg|].
  intros data. unfold on_listing. footprint.
Qed.

Lemma within_log_property R W before result k after rest :
  within R W rest -> within R W (log_property before result k after rest).
Proof. intros Hr. unfold log_property. footprint. exact Hr. Qed.

Lemma within_uploadSmallFile R W driveId remotePath localFile token :
  (forall p t extra body, R (api_request "PUT" p t extra body)) ->
  within R W (uploadSmallFile driveId remotePath localFile token).
Proof.
  intros Hp. unfold uploadSmallFile. destruct (ToString driveId); [|footprint].
  footprint.
  apply within_HttpsRequest; [apply Hp | |]; intros;
    unfold on_upload_response, on_request_error; footprint.
  repeat apply within_log_property. footprint.
Qed.

Lemma within_download R env args :
  (forall t i k, R (token_request t i k)) ->
  (forall p t extra body, R (api_request "GET" p t extra body)) ->
  (forall href, R (follow_request href)) ->
  within R
    (fun q => exists siteName filePath rest,
                args = siteName :: filePath :: rest /\ q = outputPath_of filePath rest)
    (sharepoint_download env args).
Proof.
  intros Ht Hg Hf. unfold sharepoint_download.
  destruct args as [|siteName [|filePath rest]]; [footprint | footprint |].
  apply within_pipeline; [exact Ht | exact Hg |].
  intros driveId token. apply within_downloadFile; [exact Hg | exact Hf |].
  by exists siteName, filePath, rest.
Qed.

Lemma within_list R W env args :
  (forall t i k, R (token_request t i k)) ->
  (forall p t extra body, R (api_request "GET" p t extra body)) ->
  within R W (sharepoint_list_files env args).
Proof.
  intros Ht Hg. unfold sharepoint_list_files.
  destruct args as [|siteName rest]; [footprint|].
  apply within_pipeline; [exact Ht | exact Hg |].
  intros driveId token. by apply within_listFiles.
Qed.

Lemma within_upload R W env args :
  (forall t i k, R (token_request t i k)) ->
  (forall p t extra body, R (api_request "GET" p t extra body)) ->
  (forall p t extra body, R (api_request "PUT" p t extra body)) ->
  within R W (sharepoint_upload env args).
Proof.
  intros Ht Hg Hp. unfold sharepoint_upload.
  destruct args as [|siteName [|localFile [|remotePath rest]]];
    [footprint | footprint | footprint |].
  footprint.
  apply within_pipeline; [exact Ht | exact Hg |].
  intros driveId token. destruct (_ <? _)%Z.
  - by apply within_uploadSmallFile.
  - unfold uploadLargeFile. footprint.
Qed.

Lemma credential_request_token t i k : credential_request (token_request t i k).
Proof. split; [done|]. split; [by eexists | done]. Qed.

Lemma api_call_request verb path token extra body :
  api_call verb (api_request verb path token extra body).
Proof. split; [done|]. split; [by eexists | by exists token]. Qed.

Lemma anonymous_get_follow href : anonymous_get (follow_request href).
Proof. split; [done|]. split; [by eexists | done]. Qed.

Ltac bound :=
  repeat first
    [ progress intros
    | apply at_most_Return | apply at_most_Throw | apply at_most_Exit
    | apply at_most_ConsoleLog | apply at_most_ConsoleError
    | apply at_most_ExistsSync | apply at_most_StatSync | apply at_most_ReadFileSync
    | apply at_most_CreateWriteStream | apply at_most_Unlink | apply at_most_Pipe
    | apply at_most_try_catch
    | apply at_most_HttpsRequest
    | match goal with
      | |- at_most _ (match ?x with _ => _ end) => destruct x
      end ].

Lemma at_most_sharepoint_auth env : at_most 1 (sharepoint_auth env).
Proof. unfold sharepoint_auth, on_token_response, on_request_error. bound. Qed.

Lemma at_most_get_tenant env : at_most 0 (get_tenant env).
Proof. unfold get_tenant. bound. Qed.

Lemma at_most_makeRequest n path token callback :
  (forall v, at_most n (callback v)) ->
  at_most (S n) (makeRequest path token callback).
Proof.
  intros Hc. unfold makeRequest, on_request_error. bound.
  eapply at_most_weaken; [apply Hc | lia].
Qed.

Lemma at_most_with_id n what callback data :
  (forall v, at_most n (callback v)) -> at_most n (with_id what callback data).
Proof. intros Hc. unfold with_id. bound. apply Hc. Qed.

Lemma at_most_pipeline n env siteName operation :
  (forall driveId token, at_most n (operation driveId token)) ->
  at_most (3 + n) (pipeline env siteName operation).
Proof.
  intros Ho. unfold pipeline.
  apply (at_most_ExecSync 1 (2 + n)); [apply at_most_sharepoint_auth|].
  intros [out|message]; [|bound].
  apply (at_most_ExecSync 0 (2 + n)); [apply at_most_get_tenant|].
  intros [out'|message]; [|bound].
  unfold getSiteId. apply at_most_makeRequest.
  intros data. apply at_most_with_id. intros siteId.
  unfold getDriveId. destruct (ToString siteId); [|bound].
  apply at_most_makeRequest.
  intros data'. apply at_most_with_id. intros driveId. apply Ho.
Qed.

Lemma at_most_downloadFile driveId filePath token outputPath :
  at_most 2 (downloadFile driveId filePath token outputPath).
Proof.
  unfold downloadFile, downloadFromUrl, on_finish, on_request_error. bound.
Qed.

Lemma at_most_listFiles driveId folderPath token :
  at_most 1 (listFiles driveId folderPath token).
Proof.
  unfold listFiles. destruct (ToString driveId); [|bound].
  apply at_most_makeRequest. intros data. unfold on_listing. bound.
Qed.

Lemma at_most_log_property n before result k after rest :
  at_most n rest -> at_most n (log_property before result k after rest).
Proof. intros Hr. unfold log_property. bound. exact Hr. Qed.

Lemma at_most_upload_operation fileSize driveId remotePath localFile token :
  at_most 1
    (if (fileSize <? 4 * 1024 * 1024)%Z
     then uploadSmallFile driveId remotePath localFile token
     else uploadLargeFile driveId remotePath localFile token).
Proof.
  destruct (_ <? _)%Z; [|unfold uploadLargeFile; bound].
  unfold uploadSmallFile, on_upload_response, on_request_error. bound.
  repeat apply at_most_log_property. bound.
Qed.

(** X1: Every request of a pipeline script is a token request to the identity
    endpoint, a call of the resource API with a bearer token, or (download
    only) the header-less GET of a redirect; list and download only read. *)
Theorem requests_are_confined env args srv s :
  Forall (fun e : exchange =>
            credential_request e.1 \/ api_call "GET" e.1 \/ anonymous_get e.1)
    (issued s (run (sharepoint_download env args) srv s).1)
  /\ Forall (fun e : exchange => credential_request e.1 \/ api_call "GET" e.1)
       (issued s (run (sharepoint_list_files env args) srv s).1)
  /\ Forall (fun e : exchange =>
               credential_request e.1 \/ api_call "GET" e.1 \/ api_call "PUT" e.1)
       (issued s (run (sharepoint_upload env args) srv s).1).
Proof.
  split; [|split].
  - destruct (within_run _ _ _
                (within_download
                   (fun req => credential_request req \/ api_call "GET" req
                               \/ anonymous_get req) env args
                   (fun t i k => or_introl (credential_request_token t i k))
                   (fun p t extra body =>
                      or_intror (or_introl (api_call_request "GET" p t extra body)))
                   (fun href => or_intror (or_intror (anonymous_get_follow href))))
                srv s) as [(tr & Hx & Hr) _].
    by rewrite (issued_app _ _ _ Hx).
  - destruct (within_run _ _ _
                (within_list
                   (fun req => credential_request req \/ api_call "GET" req)
                   (fun _ => False) env args
                   (fun t i k => or_introl (credential_request_token t i k))
                   (fun p t extra body =>
                      or_intror (api_call_request "GET" p t extra body)))
                srv s) as [(tr & Hx & Hr) _].
    by rewrite (issued_app _ _ _ Hx).
  - destruct (within_run _ _ _
                (within_upload
                   (fun req => credential_request req \/ api_call "GET" req
                               \/ api_call "PUT" req)
                   (fun _ => False) env args
                   (fun t i k => or_introl (credential_request_token t i k))
                   (fun p t extra body =>
                      or_intror (or_introl (api_call_request "GET" p t extra body)))
                   (fun p t extra body =>
                      or_intror (or_intror (api_call_request "PUT" p t extra body))))
                srv s) as [(tr & Hx & Hr) _].
    by rewrite (issued_app _ _ _ Hx).
Qed.

(** X2: The list and the upload script, and the two helper scripts, leave every
    local file as it was. *)
Theorem local_files_untouched env args srv s :
  files (run (sharepoint_list_files env args) srv s).1 = files s
  /\ files (run (sharepoint_upload env args) srv s).1 = files s
  /\ files (run (sharepoint_auth env) srv s).1 = files s
  /\ files (run (get_tenant env) srv s).1 = files s.
Proof.
  assert (Hany : forall p, within (fun _ => True) (fun _ => False) p ->
                           files (run p srv s).1 = files s).
  { intros p Hp. apply map_eq. intros q.
    destruct (within_run _ _ _ Hp srv s) as [_ Hf]. apply Hf. tauto. }
  repeat split; apply Hany.
  - by apply within_list.
  - by apply within_upload.
  - by apply within_sharepoint_auth.
  - apply within_get_tenant.
Qed.

(** X3: The download script changes no local file but its output path: a
    path that does not lead, from the working directory [cwd] of the
    process, to the place of the output path holds after the run what it
    held before. *)
Theorem download_writes_only_output env cwd siteName filePath rest srv s q :
  place_of cwd q <> place_of cwd (outputPath_of filePath rest) ->
  files (run (sharepoint_download env (siteName :: filePath :: rest)) srv s).1 !! q
  = files s !! q.
Proof.
  intros Hplace.
  assert (Hq : q <> outputPath_of filePath rest) by (intros ->; by apply Hplace).
  destruct (within_run _ _ _
              (within_download (fun _ => True) env (siteName :: filePath :: rest)
                 (fun _ _ _ => I) (fun _ _ _ _ => I) (fun _ => I)) srv s) as [_ Hf].
  apply Hf. intros (sn & fp & r & Heq & ->). by simplify_eq.
Qed.

(** X4: No request is repeated: a download makes at most five exchanges, a
    listing and an upload at most four. *)
Theorem requests_are_bounded env args srv s :
  length (issued s (run (sharepoint_download env args) srv s).1) <= 5
  /\ length (issued s (run (sharepoint_list_files env args) srv s).1) <= 4
  /\ length (issued s (run (sharepoint_upload env args) srv s).1) <= 4.
Proof.
  assert (Hb : forall n p, at_most n p -> length (issued s (run p srv s).1) <= n).
  { intros n p Hp. destruct (at_most_run _ _ Hp srv s) as (tr & Hx & Hl).
    by rewrite (issued_app _ _ _ Hx). }
  split; [|split]; apply Hb.
  - unfold sharepoint_download.
    destruct args as [|siteName [|filePath rest]]; [bound | bound |].
    apply (at_most_pipeline 2). intros. apply at_most_downloadFile.
  - unfold sharepoint_list_files. destruct args as [|siteName rest]; [bound|].
    apply (at_most_pipeline 1). intros. apply at_most_listFiles.
  - unfold sharepoint_upload.
    destruct args as [|siteName [|localFile [|remotePath rest]]];
      [bound | bound | bound |].
    bound. apply (at_most_pipeline 1). intros. apply at_most_upload_operation.
Qed.

(** ** The credential parser *)

Lemma append_cons c (a b : string) : String c a +:+ b = String c (a +:+ b).
Proof. reflexivity. Qed.

Lemma split_newline_cons s : exists h t, split_newline s = h :: t.
Proof.
  induction s as [|c r (h & t & IH)]; cbn [split_newline]; [by eauto|].
  destruct (Ascii.eqb c "010"); [by eauto|]. rewrite IH. by eauto.
Qed.

Lemma split_newline_app a b :
  split_newline (a +:+ newline +:+ b) = (split_newline a ++ split_newline b)%list.
Proof.
  induction a as [|c r IH]; [reflexivity|].
  rewrite append_cons. cbn [split_newline]. rewrite IH.
  destruct (Ascii.eqb c "010"); [reflexivity|].
  destruct (split_newline_cons r) as (h & t & ->). reflexivity.
Qed.

Lemma split_newline_line l :
  in_chars l "010"%char = false -> split_newline l = [l].
Proof.
  unfold in_chars. induction l as [|c r IH]; [reflexivity|].
  cbn [list_ascii_of_string existsb split_newline].
  intros [Hc Hr]%orb_false_elim. rewrite Ascii.eqb_sym in Hc. rewrite Hc, (IH Hr).
  reflexivity.
Qed.

Lemma parse_env_app a b :
  parse_env (a +:+ newline +:+ b) =
    fold_left
      (fun credentials line =>
         match match_assignment line with
         | Some (k, v) => <[trim k := strip_quotes (trim v)]> credentials
         | None => credentials
         end)
      (split_newline b) (parse_env a).
Proof. unfold parse_env. by rewrite split_newline_app, fold_left_app. Qed.

(** X5: A line appended to the credential file: an assignment overrides its key
    and nothing else, any other line changes nothing. *)
Theorem parse_env_append_line content line :
  in_chars line "010"%char = false ->
  parse_env (content +:+ newline +:+ line) =
    match match_assignment line with
    | Some (k, v) => <[trim k := strip_quotes (trim v)]> (parse_env content)
    | None => parse_env content
    end.
Proof. intros Hl. by rewrite parse_env_app, (split_newline_line _ Hl). Qed.

Lemma break_equals_carriage_return l :
  break_equals (l +:+ carriage_return) =
    match break_equals l with
    | Some (k, v) => Some (k, v +:+ carriage_return)
    | None => None
    end.
Proof.
  induction l as [|c r IH]; [reflexivity|].
  rewrite append_cons. cbn [break_equals]. rewrite IH.
  destruct (Ascii.eqb c "="); [reflexivity|].
  by destruct (break_equals r) as [[k v]|].
Qed.

Lemma has_line_terminator_carriage_return v :
  has_line_terminator (v +:+ carriage_return) = true.
Proof.
  induction v as [|c r IH]; [reflexivity|].
  rewrite append_cons. cbn [has_line_terminator]. rewrite IH.
  by rewrite orb_true_r.
Qed.

Lemma match_assignment_carriage_return l :
  match_assignment (l +:+ carriage_return) = None.
Proof.
  unfold match_assignment. rewrite break_equals_carriage_return.
  destruct (break_equals l) as [[k v]|]; [|reflexivity].
  by rewrite has_line_terminator_carriage_return, orb_true_r.
Qed.

Lemma in_chars_app a b c :
  in_chars (a +:+ b) c = in_chars a c || in_chars b c.
Proof.
  unfold in_chars. induction a as [|x r IH]; [reflexivity|].
  rewrite append_cons. cbn [list_ascii_of_string existsb]. by rewrite IH, orb_assoc.
Qed.

Lemma parse_env_crlf lines :
  Forall (fun l => in_chars l "010"%char = false) lines ->
  parse_env (crlf_text lines) = ∅.
Proof.
  intros Hl.
  enough (forall acc,
    fold_left
      (fun credentials line =>
         match match_assignment line with
         | Some (k, v) => <[trim k := strip_quotes (trim v)]> credentials
         | None => credentials
         end)
      (split_newline (crlf_text lines)) acc = acc) as Hacc by apply Hacc.
  induction Hl as [|l lines Hl _ IH]; intros acc; [reflexivity|].
  cbn [crlf_text fold_right].
  change (fold_right _ _ lines) with (crlf_text lines).
  rewrite <- append_assoc, split_newline_app, fold_left_app.
  rewrite (split_newline_line (l +:+ carriage_return)).
  - cbn [fold_left]. rewrite match_assignment_carriage_return. apply IH.
  - rewrite in_chars_app, Hl. reflexivity.
Qed.

(** X6: A credential file with CRLF line ends holds no credential for the
    scripts: both helper scripts stop with their configuration error. *)
Theorem crlf_file_is_unreadable env srv s lines :
  Forall (fun l => in_chars l "010"%char = false) lines ->
  files s !! envPath env = Some (utf8_encode (crlf_text lines)) ->
  run (sharepoint_auth env) srv s =
    (log_err "Run setup.js to configure credentials"
       (log_err "ERROR: Missing TEAMS_TENANT_ID or TENANT in sharepoint.env" s), 1%Z)
  /\ run (get_tenant env) srv s =
       (log_err "ERROR: No tenant configured. Run setup.js first." s, 1%Z).
Proof.
  intros Hl Hfile.
  assert (Hparse : parse_env (utf8_decode (utf8_encode (crlf_text lines))) = ∅).
  { unfold utf8_decode, utf8_encode. rewrite string_of_list_byte_of_string.
    by apply parse_env_crlf. }
  split.
  - unfold sharepoint_auth. cbn [run]. rewrite Hfile.
    rewrite bool_decide_true by eauto. cbn [negb run]. rewrite Hfile.
    cbv zeta. rewrite Hparse. reflexivity.
  - unfold get_tenant. cbn [run]. rewrite Hfile.
    rewrite bool_decide_true by eauto. cbn [negb run]. rewrite Hfile.
    cbv zeta. rewrite Hparse. reflexivity.
Qed.

(** ** setup.js: what is saved is what the scripts load *)

Lemma break_equals_key k v :
  in_chars k "="%char = false ->
  break_equals (k +:+ "=" +:+ v) = Some (k, v).
Proof.
  unfold in_chars. induction k as [|c r IH]; [reflexivity|].
  cbn [list_ascii_of_string existsb]. intros [Hc Hr]%orb_false_elim.
  rewrite append_cons. cbn [break_equals].
  rewrite Ascii.eqb_sym in Hc. rewrite Hc, (IH Hr). reflexivity.
Qed.

Lemma match_assignment_key k v :
  k <> EmptyString -> in_chars k "="%char = false ->
  match_assignment (k +:+ "=" +:+ v) =
    if has_line_terminator v then None else Some (k, v).
Proof.
  intros Hk Heq. unfold match_assignment. rewrite (break_equals_key _ _ Heq).
  by rewrite bool_decide_false.
Qed.

Lemma no_newline_of_line v :
  has_line_terminator v = false -> in_chars v "010"%char = false.
Proof.
  unfold in_chars. induction v as [|c r IH]; [reflexivity|].
  cbn [has_line_terminator list_ascii_of_string existsb].
  intros [[[[Hc _]%orb_false_elim _]%orb_false_elim _]%orb_false_elim Hr]%orb_false_elim.
  rewrite Ascii.eqb_sym, Hc. by apply IH.
Qed.

Lemma in_chars_string_drop n s c :
  in_chars s c = false -> in_chars (string_drop n s) c = false.
Proof.
  unfold in_chars. revert s. induction n as [|n IH]; intros [|x r]; cbn; try done.
  intros [_ Hr]%orb_false_elim. by apply IH.
Qed.

Lemma in_chars_remove_first pat s c :
  in_chars s c = false -> in_chars (remove_first pat s) c = false.
Proof.
  induction s as [|x r IH]; intros Hs.
  - cbn [remove_first]. destruct (String.prefix pat ""); [|done].
    by apply in_chars_string_drop.
  - cbn [remove_first]. destruct (String.prefix pat (String x r)).
    + by apply in_chars_string_drop.
    + unfold in_chars in *. cbn [list_ascii_of_string existsb] in *.
      apply orb_false_elim in Hs as [Hx Hr]. rewrite Hx. by apply IH.
Qed.

(** The lines of the saved file from its first assignment on. *)
Lemma envContent_lines now clientId clientSecret tenantId :
  in_chars clientId "010"%char = false ->
  in_chars clientSecret "010"%char = false ->
  in_chars tenantId "010"%char = false ->
  exists head,
    split_newline (envContent now clientId clientSecret tenantId) =
      (split_newline head ++
       [ "TEAMS_CLIENT_ID" +:+ "=" +:+ clientId;
         "TEAMS_CLIENT_SECRET" +:+ "=" +:+ clientSecret;
         "TEAMS_TENANT_ID" +:+ "=" +:+ tenantId;
         EmptyString;
         "# Legacy compatibility";
         "SHAREPOINT_TENANT" +:+ "=" +:+ remove_first ".onmicrosoft.com" tenantId;
         "SHAREPOINT_BASE_URL" +:+ "="
         +:+ ("https://" +:+ remove_first ".onmicrosoft.com" tenantId
              +:+ ".sharepoint.com");
         EmptyString ])%list.
Proof.
  intros Hi Hs Ht.
  pose proof (in_chars_remove_first ".onmicrosoft.com" _ _ Ht) as Hr.
  exists ("# SharePoint Skill Configuration" +:+ newline
          +:+ "# Generated by setup.js on " +:+ now +:+ newline).
  set (rf := remove_first ".onmicrosoft.com" tenantId) in *.
  transitivity
    (split_newline
       (("# SharePoint Skill Configuration" +:+ newline
         +:+ "# Generated by setup.js on " +:+ now +:+ newline)
        +:+ newline +:+
        ("TEAMS_CLIENT_ID" +:+ "=" +:+ clientId) +:+ newline +:+
        ("TEAMS_CLIENT_SECRET" +:+ "=" +:+ clientSecret) +:+ newline +:+
        ("TEAMS_TENANT_ID" +:+ "=" +:+ tenantId) +:+ newline +:+
        EmptyString +:+ newline +:+
        "# Legacy compatibility" +:+ newline +:+
        ("SHAREPOINT_TENANT" +:+ "=" +:+ rf) +:+ newline +:+
        ("SHAREPOINT_BASE_URL" +:+ "=" +:+ ("https://" +:+ rf +:+ ".sharepoint.com"))
        +:+ newline +:+ EmptyString)).
  { f_equal. unfold envContent. fold rf. rewrite !append_assoc. reflexivity. }
  rewrite split_newline_app. f_equal.
  repeat (rewrite split_newline_app;
          rewrite split_newline_line
            by (rewrite ?in_chars_app, ?Hi, ?Hs, ?Ht, ?Hr; reflexivity);
          cbn [app]; f_equal).
Qed.

Lemma saved_lookups now clientId clientSecret tenantId :
  has_line_terminator clientId = false ->
  has_line_terminator clientSecret = false ->
  has_line_terminator tenantId = false ->
  let credentials := parse_env (envContent now clientId clientSecret tenantId) in
  credentials !! "TEAMS_CLIENT_ID" = Some (strip_quotes (trim clientId))
  /\ credentials !! "TEAMS_CLIENT_SECRET" = Some (strip_quotes (trim clientSecret))
  /\ credentials !! "TEAMS_TENANT_ID" = Some (strip_quotes (trim tenantId)).
Proof.
  intros Hi Hs Ht credentials. subst credentials. unfold parse_env.
  destruct (envContent_lines now clientId clientSecret tenantId) as [head ->];
    try by apply no_newline_of_line.
  rewrite fold_left_app. cbn [fold_left].
  rewrite !match_assignment_key by done.
  rewrite Hi, Hs, Ht.
  change (match_assignment "") with (@None (string * string)).
  change (match_assignment "# Legacy compatibility") with (@None (string * string)).
  cbv iota beta.
  change (trim "TEAMS_CLIENT_ID") with "TEAMS_CLIENT_ID".
  change (trim "TEAMS_CLIENT_SECRET") with "TEAMS_CLIENT_SECRET".
  change (trim "TEAMS_TENANT_ID") with "TEAMS_TENANT_ID".
  clear Hi Hs Ht.
  destruct (has_line_terminator (remove_first ".onmicrosoft.com" tenantId));
    destruct (has_line_terminator _); cbv iota beta;
    change (trim "SHAREPOINT_TENANT") with "SHAREPOINT_TENANT";
    change (trim "SHAREPOINT_BASE_URL") with "SHAREPOINT_BASE_URL";
    repeat split;
    repeat (first [ rewrite lookup_insert_eq; reflexivity
                  | rewrite lookup_insert_ne by done ]).
Qed.

Lemma or_else_some v o : v <> EmptyString -> or_else (Some v) o = Some v.
Proof. intros Hv. unfold or_else. by rewrite (falsy_some _ Hv). Qed.

(** X7: setup.js reads back what it saved: a value without line terminator
    comes back trimmed and without one leading and one trailing quote. *)
Theorem setup_reads_back_saved now clientId clientSecret tenantId :
  has_line_terminator clientId = false ->
  has_line_terminator clientSecret = false ->
  has_line_terminator tenantId = false ->
  strip_quotes (trim clientId) <> EmptyString ->
  strip_quotes (trim clientSecret) <> EmptyString ->
  strip_quotes (trim tenantId) <> EmptyString ->
  let config := loadCredentials (envContent now clientId clientSecret tenantId) in
  config !! "clientId" = Some (strip_quotes (trim clientId))
  /\ config !! "clientSecret" = Some (strip_quotes (trim clientSecret))
  /\ config !! "tenantId" = Some (strip_quotes (trim tenantId)).
Proof.
  intros Hi Hs Ht Ni Ns Nt config. subst config. unfold loadCredentials.
  destruct (saved_lookups now _ _ _ Hi Hs Ht) as (Li & Ls & Lt).
  cbv zeta. rewrite Li, (or_else_some _ _ Ni). cbn [set_property].
  rewrite !lookup_insert_ne by done.
  rewrite Ls, (or_else_some _ _ Ns). cbn [set_property].
  rewrite !lookup_insert_ne by done.
  rewrite Lt, (or_else_some _ _ Nt), (or_else_some _ _ Nt). cbn [set_property].
  repeat split;
    repeat (first [ rewrite lookup_insert_eq; reflexivity
                  | rewrite lookup_insert_ne by done ]).
Qed.

Lemma auth_handlers_exchanges srv s reply :
  exchanges
    (run match reply with
         | Responded res => on_token_response res
         | TransportError m => on_request_error m
         end srv s).1 = exchanges s.
Proof.
  destruct reply as [res|m]; [|reflexivity].
  unfold on_token_response. repeat case_match; reflexivity.
Qed.

(** X8: sharepoint-auth.js loads from the file that setup.js saved the values
    that setup.js reads back from it, and requests the token with them when
    they make a request that [https.request] accepts. *)
Theorem scripts_load_saved env srv s now clientId clientSecret tenantId :
  has_line_terminator clientId = false ->
  has_line_terminator clientSecret = false ->
  has_line_terminator tenantId = false ->
  strip_quotes (trim clientId) <> EmptyString ->
  strip_quotes (trim clientSecret) <> EmptyString ->
  strip_quotes (trim tenantId) <> EmptyString ->
  files s !! envPath env
    = Some (utf8_encode (envContent now clientId clientSecret tenantId)) ->
  let request :=
    token_request (strip_quotes (trim tenantId)) (strip_quotes (trim clientId))
      (strip_quotes (trim clientSecret)) in
  valid_request request = true ->
  loaded env s (strip_quotes (trim tenantId)) (strip_quotes (trim clientId))
    (strip_quotes (trim clientSecret))
  /\ issued s (run (sharepoint_auth env) srv s).1
     = [(request, srv (exchanges s) request)].
Proof.
  intros Hi Hs Ht Ni Ns Nt Hfile request Hvalid.
  assert (Hl : loaded env s (strip_quotes (trim tenantId)) (strip_quotes (trim clientId))
                 (strip_quotes (trim clientSecret))).
  { exists (utf8_encode (envContent now clientId clientSecret tenantId)).
    split; [exact Hfile|]. cbv zeta.
    unfold utf8_decode, utf8_encode. rewrite string_of_list_byte_of_string.
    destruct (saved_lookups now _ _ _ Hi Hs Ht) as (Li & Ls & Lt).
    unfold TENANT_of, CLIENT_ID_of, CLIENT_SECRET_of. rewrite Li, Ls, Lt.
    rewrite !or_else_some by done. done. }
  split; [exact Hl|].
  apply issued_app. rewrite (run_auth_loaded _ srv _ _ _ _ Hl Hvalid). cbv zeta.
  fold request.
  pose proof (auth_handlers_exchanges srv
                (add_exchange (request, srv (exchanges s) request) s)
                (srv (exchanges s) request)) as Hx.
  destruct (srv (exchanges s) request); exact Hx.
Qed.


(** ** The tenant name *)

Lemma prefix_other_start c r pat x :
  Ascii.eqb c x = false -> String.prefix (String c pat) (String x r) = false.
Proof.
  intros Hc. cbn [String.prefix]. destruct (ascii_dec c x) as [->|]; [|done].
  by rewrite Ascii.eqb_refl in Hc.
Qed.

Lemma remove_first_domain name rest :
  in_chars name "."%char = false ->
  remove_first ".onmicrosoft.com" (name +:+ ".onmicrosoft.com" +:+ rest)
  = name +:+ rest.
Proof.
  unfold in_chars. induction name as [|c r IH].
  - intros _. cbn. by destruct rest.
  - cbn [list_ascii_of_string existsb]. intros [Hc Hr]%orb_false_elim.
    rewrite (append_cons c r). cbn [remove_first].
    rewrite prefix_other_start by done. by rewrite (IH Hr).
Qed.

Lemma remove_first_absent name :
  in_chars name "."%char = false -> remove_first ".onmicrosoft.com" name = name.
Proof.
  unfold in_chars. induction name as [|c r IH]; [reflexivity|].
  cbn [list_ascii_of_string existsb]. intros [Hc Hr]%orb_false_elim.
  cbn [remove_first]. rewrite prefix_other_start by done. by rewrite (IH Hr).
Qed.

(** X9: get-tenant.js prints the first label of a tenant given as
    [name.onmicrosoft.com], and a tenant without dot as it is. *)
Theorem tenant_name_of_domain env srv s name i k :
  in_chars name "."%char = false ->
  loaded env s (name +:+ ".onmicrosoft.com") i k \/ loaded env s name i k ->
  run (get_tenant env) srv s = (log_out name s, 0%Z).
Proof.
  intros Hn [Hl|Hl].
  - destruct Hl as (content & Hfile & Ht & _ & _ & Nt & _).
    rewrite (run_tenant_loaded env srv s content (name +:+ ".onmicrosoft.com") Hfile).
    + pose proof (remove_first_domain name EmptyString Hn) as Hr.
      rewrite !append_empty_r in Hr. by rewrite Hr.
    + cbv zeta. unfold TENANT_of in Ht. rewrite Ht. by apply or_else_some.
    + exact Nt.
  - destruct Hl as (content & Hfile & Ht & _ & _ & Nt & _).
    rewrite (run_tenant_loaded env srv s content name Hfile).
    + by rewrite remove_first_absent.
    + cbv zeta. unfold TENANT_of in Ht. rewrite Ht. by apply or_else_some.
    + exact Nt.
Qed.

(** ** The token on its way from the child process *)

Lemma rev_app_append s t acc :
  String.rev_app (s +:+ t) acc = String.rev_app t (String.rev_app s acc).
Proof.
  revert acc. induction s as [|c r IH]; intros acc; [reflexivity|].
  rewrite append_cons. cbn [String.rev_app]. apply IH.
Qed.

Lemma rev_app_rev_app s a b :
  String.rev_app (String.rev_app s a) b = String.rev_app a (s +:+ b).
Proof.
  revert a b. induction s as [|c r IH]; intros a b; [reflexivity|].
  cbn [String.rev_app]. rewrite IH. reflexivity.
Qed.

Lemma rev_rev s : String.rev (String.rev s) = s.
Proof.
  unfold String.rev. rewrite rev_app_rev_app. cbn [String.rev_app].
  apply append_empty_r.
Qed.

Lemma rev_newline a : String.rev (a +:+ newline) = String "010" (String.rev a).
Proof. unfold String.rev. by rewrite rev_app_append. Qed.

Lemma printable_rev_app s acc :
  printable s = true -> printable acc = true ->
  printable (String.rev_app s acc) = true.
Proof.
  unfold printable. revert acc. induction s as [|c r IH]; intros acc; [done|].
  cbn [list_ascii_of_string forallb String.rev_app].
  intros [Hc Hr]%andb_prop Ha. apply IH; [exact Hr|].
  cbn [list_ascii_of_string forallb]. by rewrite Hc, Ha.
Qed.

Lemma rev_app_cons s c acc : exists d t, String.rev_app s (String c acc) = String d t.
Proof.
  revert c acc. induction s as [|x r IH]; intros c acc; cbn [String.rev_app]; eauto.
Qed.

Lemma no_whitespace_at_printable d t :
  printable (String d EmptyString) = true ->
  List.find (fun w => String.prefix w (String d t)) js_whitespace = None
  /\ List.find (fun w => String.prefix w (String d t)) (map String.rev js_whitespace)
     = None.
Proof.
  destruct d as [[] [] [] [] [] [] [] []]; intros Hd;
    first [ discriminate Hd | split; vm_compute; reflexivity ].
Qed.

Lemma trim_token_line X : printable X = true -> trim (X +:+ newline) = X.
Proof.
  destruct X as [|c r]; [reflexivity|]. intros HX.
  assert (Hc : printable (String c EmptyString) = true).
  { unfold printable in *. cbn [list_ascii_of_string forallb] in *.
    apply andb_prop in HX as [-> _]. reflexivity. }
  unfold trim. rewrite append_cons.
  assert (Hlen : exists n, String.length (String c (r +:+ newline)) = S (S n)).
  { destruct r; cbn; eauto. }
  destruct Hlen as [n Hlen]. rewrite Hlen.
  assert (Hs1 : strip_prefixes js_whitespace (S (S n)) (String c (r +:+ newline))
                = String c (r +:+ newline)).
  { cbn [strip_prefixes].
    by rewrite (proj1 (no_whitespace_at_printable c (r +:+ newline) Hc)). }
  rewrite Hs1, Hlen.
  change (String c (r +:+ newline)) with (String c r +:+ newline).
  rewrite rev_newline.
  assert (Hrev : exists d t, String.rev (String c r) = String d t
                             /\ printable (String d EmptyString) = true).
  { unfold String.rev. cbn [String.rev_app].
    destruct (rev_app_cons r c EmptyString) as (d & t & Heq).
    exists d, t. split; [exact Heq|].
    assert (Hp : printable (String.rev_app r (String c EmptyString)) = true).
    { apply printable_rev_app; [|exact Hc].
      unfold printable in *. cbn [list_ascii_of_string forallb] in HX.
      by apply andb_prop in HX as [_ ?]. }
    rewrite Heq in Hp. unfold printable in *.
    cbn [list_ascii_of_string forallb] in *.
    apply andb_prop in Hp as [-> _]. reflexivity. }
  destruct Hrev as (d & t & Heq & Hd).
  rewrite <- (rev_rev (String c r)) at 2. f_equal.
  rewrite Heq.
  set (pats := map String.rev js_whitespace).
  assert (Hfirst : List.find (fun w => String.prefix w (String "010" (String d t))) pats
                   = Some newline).
  { vm_compute. reflexivity. }
  cbn [strip_prefixes]. rewrite Hfirst.
  change (string_drop (String.length newline) (String "010" (String d t)))
    with (String d t).
  subst pats. by rewrite (proj2 (no_whitespace_at_printable d t Hd)).
Qed.

(** X10: The bearer token of a pipeline is the [access_token] of the token
    response, character for character, when it is made of printable
    characters without space and [https.request] accepts the token
    request. *)
Theorem bearer_token_is_access_token env srv s t i k X :
  loaded env s t i k ->
  valid_request (token_request t i k) = true ->
  token_response X (srv (exchanges s) (token_request t i k)) ->
  printable X = true ->
  (exists s1, acquired env srv s X s1)
  /\ forall token s1, acquired env srv s token s1 -> token = X.
Proof.
  intros Hl Hvalid (res & fields & Hreply & Hstatus & Hparse & Hfield) HX.
  assert (Hl' : loaded env (child_state s) t i k) by exact Hl.
  assert (Hrun : run (sharepoint_auth env) srv (child_state s) =
                 (log_out X (add_exchange (token_request t i k, Responded res)
                               (child_state s)), 0%Z)).
  { rewrite (run_auth_loaded _ srv _ _ _ _ Hl' Hvalid). cbv zeta.
    change (exchanges (child_state s)) with (exchanges s). rewrite Hreply.
    apply (run_token_granted _ _ _ (VObj fields) (VStr X)); [done | done |].
    cbn [get_prop]. by rewrite Hfield. }
  assert (Htrim : trim (stream_text [X]) = X) by exact (trim_token_line X HX).
  split.
  - eexists. exists (log_out X (add_exchange (token_request t i k, Responded res)
                                  (child_state s))).
    split; [exact Hrun|]. split; [|reflexivity]. symmetry. exact Htrim.
  - intros token s1 (c & Hc & -> & _). rewrite Hrun in Hc. injection Hc as <-.
    exact Htrim.
Qed.

(** ** When an operation succeeds *)

Ltac step :=
  cbn [run try_catch set_files add_exchange log_out log_err exchanges files
       stdout stderr fst snd negb orb andb].







(** ** How failures are reported *)

Lemma resolver_failure_modes what path token callback srv s :
  valid_request
    (api_request "GET" path token [("Accept", "application/json")] []) = true ->
  resolver_failure_report what
    (api_request "GET" path token [("Accept", "application/json")] []) srv s
    (run (makeRequest path token (with_id what callback)) srv s).
Proof.
  intros Hvalid.
  unfold resolver_failure_report. cbv zeta. unfold makeRequest. step.
  rewrite Hvalid.
  split.
  - intros m ->. reflexivity.
  - intros res ->. step. split.
    + intros [-> | (parsed & -> & Hid)]; [reflexivity|].
      unfold with_id. rewrite Hid. reflexivity.
    + intros parsed id -> Hid Hfalse. unfold with_id. rewrite Hid, Hfalse.
      reflexivity.
Qed.

(** X14: The two resolvers, when [https.request] accepts their request,
    report their failures alike, and never call their callback then: a
    transport error with its message, a body that is no JSON or is the JSON
    [null] as an invalid JSON response, JSON without a truthy [id] as a site
    or drive that was not found.  The status of the reply plays no part. *)
Theorem resolver_failures token callback srv s :
  (forall tenant siteName,
     valid_request (site_request tenant siteName token) = true ->
     resolver_failure_report "Site" (site_request tenant siteName token) srv s
       (run (getSiteId (tenant +:+ ".sharepoint.com:/sites/" +:+ siteName) token
               callback) srv s))
  /\ (forall siteId sid,
        ToString siteId = Some sid ->
        valid_request (drive_request sid token) = true ->
        resolver_failure_report "Drive" (drive_request sid token) srv s
          (run (getDriveId siteId token callback) srv s)).
Proof.
  split.
  - intros tenant siteName Hvalid. by apply resolver_failure_modes.
  - intros siteId sid Hsid Hvalid. unfold getDriveId. rewrite Hsid.
    by apply resolver_failure_modes.
Qed.



(** ** The encoded path of a request *)

Lemma forallb_chars_app P (a b : string) :
  forallb P (list_ascii_of_string (a +:+ b))
  = forallb P (list_ascii_of_string a) && forallb P (list_ascii_of_string b).
Proof.
  induction a as [|c r IH]; [reflexivity|].
  rewrite append_cons. cbn [list_ascii_of_string forallb]. by rewrite IH, andb_assoc.
Qed.

Lemma url_safe_character c :
  url_safe (if is_alnum c || in_chars "-_.!~*'()" c then String c EmptyString
            else percent_byte c) = true.
Proof. destruct c as [[] [] [] [] [] [] [] []]; vm_compute; reflexivity. Qed.

Lemma url_safe_encodeURIComponent s : url_safe (encodeURIComponent s) = true.
Proof.
  induction s as [|c r IH]; [reflexivity|].
  cbn [encodeURIComponent]. unfold url_safe in *.
  rewrite forallb_chars_app, IH, andb_true_r. apply url_safe_character.
Qed.

Lemma url_safe_no_separator s c :
  url_safe s = true -> in_chars "/:?#& " c = true -> in_chars s c = false.
Proof.
  unfold url_safe. induction s as [|x r IH]; [done|].
  cbn [list_ascii_of_string forallb].
  intros [Hx Hr]%andb_prop Hc.
  change (in_chars (String x r) c) with (Ascii.eqb c x || in_chars r c).
  rewrite (IH Hr Hc), orb_false_r.
  destruct (Ascii.eqb c x) eqn:Heq; [|reflexivity].
  apply Ascii.eqb_eq in Heq as <-. exfalso. revert Hx Hc. clear.
  destruct c as [[] [] [] [] [] [] [] []]; vm_compute; congruence.
Qed.

(** X16: The remote path is sent as one path segment: its encoding holds none of
    the separators of a URL, in particular no slash, in the three
    operations. *)
Theorem remote_path_is_one_segment remotePath c :
  in_chars "/:?#& " c = true ->
  in_chars (encodeURIComponent remotePath) c = false.
Proof. apply url_safe_no_separator, url_safe_encodeURIComponent. Qed.

Lemma percent_byte_decode :
  exists f : ascii -> ascii -> ascii,
    forall c, f (hex_digit (N_of_ascii c / 16)) (hex_digit (N_of_ascii c mod 16)) = c.
Proof.
  exists (fun h l =>
            let unhex a := let n := N_of_ascii a in
                           if (n <? 58)%N then (n - 48)%N else (n - 55)%N in
            ascii_of_N (16 * unhex h + unhex l)).
  intros c. destruct c as [[] [] [] [] [] [] [] []]; vm_compute; reflexivity.
Qed.

Lemma percent_byte_inj c c' : percent_byte c = percent_byte c' -> c = c'.
Proof.
  unfold percent_byte. intros [= Hh Hl].
  destruct percent_byte_decode as [f Hf].
  rewrite <- (Hf c), <- (Hf c'), Hh, Hl. reflexivity.
Qed.

Lemma unreserved_not_percent c :
  is_alnum c || in_chars "-_.!~*'()" c = true -> c <> "%"%char /\ c <> ":"%char.
Proof. split; intros ->; discriminate. Qed.

Lemma encodeURIComponent_cancel a b x y :
  encodeURIComponent a +:+ String ":" x = encodeURIComponent b +:+ String ":" y ->
  a = b.
Proof.
  revert b. induction a as [|c r IH]; intros [|c' r']; cbn [encodeURIComponent].
  - done.
  - destruct (is_alnum c' || in_chars "-_.!~*'()" c') eqn:Hu.
    + intros [= <- _]. by destruct (unreserved_not_percent _ Hu).
    + intros [=].
  - destruct (is_alnum c || in_chars "-_.!~*'()" c) eqn:Hu.
    + intros [= -> _]. by destruct (unreserved_not_percent _ Hu).
    + intros [=].
  - destruct (is_alnum c || in_chars "-_.!~*'()" c) eqn:Hu;
      destruct (is_alnum c' || in_chars "-_.!~*'()" c') eqn:Hu'.
    + intros [= -> Hrest]. f_equal. by apply IH.
    + intros [= -> _]. by destruct (unreserved_not_percent _ Hu).
    + intros [= <- _]. by destruct (unreserved_not_percent _ Hu').
    + unfold percent_byte. intros [= Hh Hl Hrest].
      f_equal; [|by apply IH].
      apply percent_byte_inj. unfold percent_byte. by rewrite Hh, Hl.
Qed.

(** X17: Two remote paths are sent as the same request path only if they are
    the same: the encoding loses nothing. *)
Theorem request_path_determines_remote_path id a b :
  (content_path id a = content_path id b -> a = b)
  /\ (children_path id a = children_path id b -> a = b).
Proof.
  split.
  - unfold content_path. intros Heq.
    apply (inj (String.append "/v1.0/drives/")) in Heq.
    apply (inj (String.append id)) in Heq.
    apply (inj (String.append "/root:/")) in Heq.
    by apply encodeURIComponent_cancel in Heq.
  - unfold children_path.
    destruct (bool_decide (a = EmptyString)) eqn:Ha;
      destruct (bool_decide (b = EmptyString)) eqn:Hb; cbn [negb]; intros Heq.
    + apply bool_decide_eq_true in Ha, Hb. congruence.
    + apply (inj (String.append "/v1.0/drives/")) in Heq.
      apply (inj (String.append id)) in Heq. discriminate Heq.
    + apply (inj (String.append "/v1.0/drives/")) in Heq.
      apply (inj (String.append id)) in Heq. discriminate Heq.
    + apply (inj (String.append "/v1.0/drives/")) in Heq.
      apply (inj (String.append id)) in Heq.
      apply (inj (String.append "/root:/")) in Heq.
      by apply encodeURIComponent_cancel in Heq.
Qed.

(** ** The body of the token request *)

Lemma form_safe_character c :
  form_safe (if is_alnum c || in_chars "*-._" c then String c EmptyString
             else if Ascii.eqb c " " then "+" else percent_byte c) = true.
Proof. destruct c as [[] [] [] [] [] [] [] []]; vm_compute; reflexivity. Qed.

Lemma form_safe_form_urlencode s : form_safe (form_urlencode s) = true.
Proof.
  induction s as [|c r IH]; [reflexivity|].
  cbn [form_urlencode]. unfold form_safe in *.
  rewrite forallb_chars_app, IH, andb_true_r. apply form_safe_character.
Qed.

Lemma length_utf8_encode s : length (utf8_encode s) = String.length s.
Proof.
  unfold utf8_encode, list_byte_of_string.
  induction s as [|c r IH]; [reflexivity|].
  cbn. by rewrite IH.
Qed.

(** X18: The body of the token request has four parameters whatever the
    credentials hold: a client identifier or secret is encoded to letters,
    digits and [* - . _ + %], so it adds no separator; and the declared
    content length is the length of the body. *)
Theorem token_request_body_is_well_formed t i k :
  let req := token_request t i k in
  utf8_decode (req_body req) =
    "grant_type=client_credentials&client_id=" +:+ form_urlencode i
    +:+ "&client_secret=" +:+ form_urlencode k
    +:+ "&scope=https%3A%2F%2Fgraph.microsoft.com%2F.default"
  /\ form_safe (form_urlencode i) = true
  /\ form_safe (form_urlencode k) = true
  /\ assoc "Content-Length" (req_headers req) = Some (pretty (length (req_body req))).
Proof.
  cbv zeta. unfold token_request. cbn [req_body req_headers].
  split; [|split; [apply form_safe_form_urlencode|
           split; [apply form_safe_form_urlencode|]]].
  - unfold utf8_decode, utf8_encode. rewrite string_of_list_byte_of_string.
    unfold URLSearchParams_toString. cbn [map String.concat fst snd].
    rewrite !append_assoc. reflexivity.
  - rewrite length_utf8_encode. reflexivity.
Qed.

Lemma within_any p : within (fun _ => True) (fun _ => True) p.
Proof. induction p; constructor; auto. Qed.

Lemma exchanges_grow p srv s :
  exists tr, exchanges (run p srv s).1 = (exchanges s ++ tr)%list.
Proof.
  destruct (within_run _ _ _ (within_any p) srv s) as [(tr & Hx & _) _]. eauto.
Qed.

(** X19: For plain values that make a request that [https.request] accepts,
    the token request that setup.js tests is the one that sharepoint-auth.js
    sends from the saved file. *)
Theorem setup_tests_what_scripts_send env srv s s' now config resolve reject
    clientId clientSecret tenantId :
  config !! "clientId" = Some clientId ->
  config !! "clientSecret" = Some clientSecret ->
  config !! "tenantId" = Some tenantId ->
  plain clientId -> plain clientSecret -> plain tenantId ->
  files s' !! envPath env
    = Some (utf8_encode (envContent now clientId clientSecret tenantId)) ->
  let request := token_request tenantId clientId clientSecret in
  valid_request request = true ->
  (exists tr, issued s (run (testAuthentication config resolve reject) srv s).1
              = (request, srv (exchanges s) request) :: tr)
  /\ issued s' (run (sharepoint_auth env) srv s').1
     = [(request, srv (exchanges s') request)].
Proof.
  intros Ci Cs Ct (Ni & Ti & Qi & Li) (Ns & Ts & Qs & Ls) (Nt & Tt & Qt & Lt)
    Hfile request Hvalid.
  split.
  - unfold testAuthentication. rewrite Ci, Cs, Ct.
    change (text (Some tenantId)) with tenantId.
    change (text (Some clientId)) with clientId.
    change (text (Some clientSecret)) with clientSecret.
    fold request. rewrite (try_catch_request _ _ _ _ Hvalid).
    rewrite (run_request _ _ _ srv s Hvalid).
    assert (Hk : forall p s0,
      exchanges s0 = (exchanges s ++ [(request, srv (exchanges s) request)])%list ->
      exists tr, issued s (run p srv s0).1
                 = (request, srv (exchanges s) request) :: tr).
    { intros p s0 Hs0. destruct (exchanges_grow p srv s0) as [tr Hx].
      exists tr. apply issued_app. rewrite Hx, Hs0. by rewrite <- app_assoc. }
    destruct (srv (exchanges s) request) as [res|m]; apply Hk; reflexivity.
  - assert (Hl : loaded env s' tenantId clientId clientSecret).
    { exists (utf8_encode (envContent now clientId clientSecret tenantId)).
      split; [exact Hfile|]. cbv zeta.
      unfold utf8_decode, utf8_encode. rewrite string_of_list_byte_of_string.
      destruct (saved_lookups now _ _ _ Li Ls Lt) as (Pi & Ps & Pt).
      unfold TENANT_of, CLIENT_ID_of, CLIENT_SECRET_of. rewrite Pi, Ps, Pt.
      rewrite Ti, Ts, Tt, Qi, Qs, Qt. rewrite !or_else_some by done. done. }
    apply issued_app. rewrite (run_auth_loaded _ srv _ _ _ _ Hl Hvalid). cbv zeta.
    fold request.
    pose proof (auth_handlers_exchanges srv
                  (add_exchange (request, srv (exchanges s') request) s')
                  (srv (exchanges s') request)) as Hx.
    destruct (srv (exchanges s') request); exact Hx.
Qed.

Lemma run_tenant_of_loaded env srv s t i k :
  loaded env s t i k ->
  run (get_tenant env) srv s = (log_out (remove_first ".onmicrosoft.com" t) s, 0%Z).
Proof.
  intros (content & Hfile & Ht & _ & _ & Nt & _).
  apply (run_tenant_loaded env srv s content t Hfile); [|exact Nt].
  cbv zeta. unfold TENANT_of in Ht. rewrite Ht. by apply or_else_some.
Qed.

(** X20: The tenant step of a pipeline cannot fail once the token step has
    succeeded: get-tenant.js reads the file that sharepoint-auth.js has just
    read, and prints its tenant without the first [.onmicrosoft.com]. *)
Theorem tenant_step_cannot_fail env srv s t i k token s1 :
  loaded env s t i k ->
  acquired env srv s token s1 ->
  let line := remove_first ".onmicrosoft.com" t in
  tenant_read env srv s1 (trim (stream_text [line]))
    (after_child s1 (log_out line (child_state s1))).
Proof.
  intros Hl (c & Hrun & _ & ->) line.
  destruct (auth_success _ _ _ _ Hrun) as (t' & i' & k' & res & tok & v & _ & _ & _ & _ & _ & ->).
  assert (Hl' : loaded env (child_state (after_child s
                   (log_out (console_format v)
                      (add_exchange (token_request t' i' k', Responded res)
                         (child_state s))))) t i k) by exact Hl.
  exists (log_out line (child_state (after_child s
            (log_out (console_format v)
               (add_exchange (token_request t' i' k', Responded res)
                  (child_state s)))))).
  split; [apply (run_tenant_of_loaded _ _ _ _ _ _ Hl')|]. split; reflexivity.
Qed.

(** ** What a failed download leaves at the output path *)


(** ** A rejected token request stops the pipeline *)


(** ** Calls that stop before the pipeline *)

(** X23: With too few arguments a pipeline script prints its usage and stops
    with exit code 1 before it reads a file or sends a request. *)
Theorem usage_on_missing_arguments env srv s args :
  (length args < 2 ->
   UsageShown
     "Usage: node sharepoint-download.js <site-name> <file-path> [output-path]"
     s (run (sharepoint_download env args) srv s))
  /\ (args = [] ->
      UsageShown "Usage: node sharepoint-list-files.js <site-name> [folder-path]"
        s (run (sharepoint_list_files env args) srv s))
  /\ (length args < 3 ->
      UsageShown
        "Usage: node sharepoint-upload.js <site-name> <local-file> <remote-path>"
        s (run (sharepoint_upload env args) srv s)).
Proof.
  split; [|split].
  - intros Hlen. destruct args as [|a [|b rest]]; [| |cbn in Hlen; lia];
      (repeat split; eexists; cbn; rewrite <- !app_assoc; reflexivity).
  - intros ->. repeat split; eexists; cbn; rewrite <- !app_assoc; reflexivity.
  - intros Hlen. destruct args as [|a [|b [|c rest]]]; [| | |cbn in Hlen; lia];
      (repeat split; eexists; cbn; rewrite <- !app_assoc; reflexivity).
Qed.

(** X24: The upload script checks the local file before anything else: when it
    does not exist the script reports it and stops with exit code 1,
    without a request. *)
Theorem upload_missing_local_file env srv s siteName localFile remotePath rest :
  files s !! localFile = None ->
  run (sharepoint_upload env (siteName :: localFile :: remotePath :: rest)) srv s
  = (log_err ("ERROR: Local file not found: " +:+ localFile) s, 1%Z).
Proof.
  intros Hfile. unfold sharepoint_upload. cbn [run]. rewrite Hfile.
  rewrite bool_decide_false by (intros [? [=]]). reflexivity.
Qed.

(** ** The site that setup.js tests *)

(** X25: For a tenant whose name is made of printable characters, the site
    request that setup.js sends to test the access is, when [https.request]
    accepts it, the site request of the pipelines: the same path, for the
    tenant that the pipelines read from get-tenant.js, with the same bearer
    token. *)
Theorem setup_tests_the_site_request env srv s t i k config token bearer siteName
    resolve reject srv0 s0 :
  loaded env s t i k ->
  config !! "tenantId" = Some t ->
  ToString token = Some bearer ->
  printable (remove_first ".onmicrosoft.com" t) = true ->
  let tenant := remove_first ".onmicrosoft.com" t in
  let request := site_request tenant siteName bearer in
  valid_request request = true ->
  tenant_read env srv s tenant (after_child s (log_out tenant (child_state s)))
  /\ exists tr,
       issued s0 (run (testSiteAccess config token siteName resolve reject) srv0 s0).1
       = (request, srv0 (exchanges s0) request) :: tr.
Proof.
  intros Hl Hc Ht Hp tenant request Hvalid. split.
  - exists (log_out tenant (child_state s)).
    split; [apply (run_tenant_of_loaded env srv (child_state s) t i k Hl)|].
    split; [|reflexivity].
    symmetry. exact (trim_token_line tenant Hp).
  - unfold testSiteAccess. rewrite Hc, Ht. fold tenant.
    fold (site_request tenant siteName bearer). fold request.
    rewrite (try_catch_request _ _ _ _ Hvalid).
    rewrite (run_request _ _ _ srv0 s0 Hvalid).
    assert (Hk : forall p s1,
      exchanges s1 = (exchanges s0 ++ [(request, srv0 (exchanges s0) request)])%list ->
      exists tr, issued s0 (run p srv0 s1).1
                 = (request, srv0 (exchanges s0) request) :: tr).
    { intros p s1 Hs1. destruct (exchanges_grow p srv0 s1) as [tr Hx].
      exists tr. apply issued_app. rewrite Hx, Hs1. by rewrite <- app_assoc. }
    destruct (srv0 (exchanges s0) request) as [res|m]; apply Hk; reflexivity.
Qed.

End Further.

Section Accepted.
Context `{NodeRuntime}.

(** ** The requests that [https.request] accepts *)

Lemma latin1_cons ok c r :
  latin1 ok (String c r) =
    if (N_of_ascii c <? 128)%N then ok (N_of_ascii c) && latin1 ok r
    else if (N_of_ascii c =? 194)%N || (N_of_ascii c =? 195)%N then
      match r with
      | String d r' =>
          (128 <=? N_of_ascii d)%N && (N_of_ascii d <=? 191)%N && latin1 ok r'
      | EmptyString => false
      end
    else false.
Proof. reflexivity. Qed.

Lemma latin1_app_bounded ok n : forall a b,
  (String.length a <= n)%nat ->
  match b with
  | String c _ => (N_of_ascii c <? 128)%N = true
  | EmptyString => True
  end ->
  latin1 ok (a +:+ b) = latin1 ok a && latin1 ok b.
Proof.
  induction n as [|n IH]; intros a b Hlen Hb.
  - destruct a; [reflexivity | cbn in Hlen; lia].
  - destruct a as [|c [|d a]]; [reflexivity| |].
    + change (String c EmptyString +:+ b) with (String c b).
      rewrite (latin1_cons ok c b), (latin1_cons ok c EmptyString).
      destruct (N_of_ascii c <? 128)%N; [by rewrite andb_true_r|].
      destruct ((N_of_ascii c =? 194)%N || (N_of_ascii c =? 195)%N); [|reflexivity].
      destruct b as [|e b']; [reflexivity|].
      apply N.ltb_lt in Hb.
      replace (128 <=? N_of_ascii e)%N with false
        by (symmetry; apply N.leb_gt; exact Hb).
      reflexivity.
    + change (String c (String d a) +:+ b) with (String c (String d a +:+ b)).
      rewrite (latin1_cons ok c (String d a +:+ b)), (latin1_cons ok c (String d a)).
      destruct (N_of_ascii c <? 128)%N.
      * rewrite (IH (String d a) b); [|cbn in Hlen |- *; lia | exact Hb].
        by rewrite andb_assoc.
      * destruct ((N_of_ascii c =? 194)%N || (N_of_ascii c =? 195)%N); [|reflexivity].
        change (String d a +:+ b) with (String d (a +:+ b)). cbv beta iota.
        rewrite (IH a b); [by rewrite andb_assoc | cbn in Hlen; lia | exact Hb].
Qed.

Lemma latin1_app ok a b :
  match b with
  | String c _ => (N_of_ascii c <? 128)%N = true
  | EmptyString => True
  end ->
  latin1 ok (a +:+ b) = latin1 ok a && latin1 ok b.
Proof. apply (latin1_app_bounded ok (String.length a)). lia. Qed.

Lemma url_safe_path_character c :
  is_alnum c || in_chars "-_.!~*'()%" c = true ->
  (N_of_ascii c <? 128)%N = true /\ (33 <=? N_of_ascii c)%N = true.
Proof. destruct c as [[] [] [] [] [] [] [] []]; vm_compute; intros Hc; done. Qed.

Lemma valid_path_url_safe s b :
  url_safe s = true -> valid_path (s +:+ b) = valid_path b.
Proof.
  unfold url_safe, valid_path. induction s as [|c r IH]; [reflexivity|].
  cbn [list_ascii_of_string forallb]. intros [Hc Hr]%andb_prop.
  change (String c r +:+ b) with (String c (r +:+ b)). cbn [latin1].
  destruct (url_safe_path_character c Hc) as [-> ->]. exact (IH Hr).
Qed.

Lemma digit_character (x : N) :
  (N_of_ascii (pretty_N_char x) <? 128)%N = true
  /\ (32 <=? N_of_ascii (pretty_N_char x))%N && (N_of_ascii (pretty_N_char x) <=? 126)%N
     = true.
Proof.
  unfold pretty_N_char. destruct x as [|p]; [by vm_compute|].
  do 4 (try (destruct p as [p|p|]; try (by vm_compute))).
Qed.

Lemma valid_header_digits x s :
  valid_header_value s = true -> valid_header_value (pretty_N_go x s) = true.
Proof.
  revert s. induction (N.lt_wf_0 x) as [x _ IH]. intros s Hs.
  destruct (decide (x = 0%N)) as [->|Hx]; [by rewrite pretty_N_go_0|].
  rewrite pretty_N_go_step by lia.
  apply IH; [apply N.div_lt; lia|].
  unfold valid_header_value. rewrite latin1_cons.
  destruct (digit_character (x `mod` 10)%N) as [-> Hd].
  rewrite Hd, orb_true_r. exact Hs.
Qed.

Lemma valid_header_pretty (n : nat) : valid_header_value (pretty n) = true.
Proof.
  unfold pretty, pretty_nat, pretty, pretty_N.
  destruct (decide (N.of_nat n = 0%N)); [reflexivity|].
  by apply valid_header_digits.
Qed.

Lemma valid_bearer token :
  valid_header_value ("Bearer " +:+ token) = valid_header_value token.
Proof. reflexivity. Qed.

Lemma valid_path_prefix a b :
  match b with
  | String c _ => (N_of_ascii c <? 128)%N = true
  | EmptyString => True
  end ->
  valid_path (a +:+ b) = valid_path a && valid_path b.
Proof. apply latin1_app. Qed.

Lemma valid_content_path id p : valid_path (content_path id p) = valid_path id.
Proof.
  unfold content_path.
  change (valid_path ("/v1.0/drives/" +:+ ?x)) with (valid_path x).
  rewrite valid_path_prefix by reflexivity.
  change (valid_path ("/root:/" +:+ ?x)) with (valid_path x).
  rewrite valid_path_url_safe by apply url_safe_encodeURIComponent.
  apply andb_true_r.
Qed.

Lemma valid_token_request t i k :
  valid_request (token_request t i k) = valid_path t.
Proof.
  unfold valid_request, token_request.
  cbn [req_headers target forallb snd].
  rewrite valid_header_pretty.
  change (valid_path ("/" +:+ ?x)) with (valid_path x).
  rewrite valid_path_prefix by reflexivity. apply andb_true_r.
Qed.

Lemma valid_site_request tenant siteName token :
  valid_request (site_request tenant siteName token)
  = valid_header_value token && (valid_path tenant && valid_path siteName).
Proof.
  unfold valid_request, site_request, api_request.
  cbn [req_headers target forallb snd]. rewrite valid_bearer.
  change (valid_path ("/v1.0/sites/" +:+ ?x)) with (valid_path x).
  rewrite valid_path_prefix by reflexivity.
  change (valid_path (".sharepoint.com:/sites/" +:+ ?x)) with (valid_path x).
  by rewrite andb_true_r.
Qed.

Lemma valid_drive_request sid token :
  valid_request (drive_request sid token)
  = valid_header_value token && valid_path sid.
Proof.
  unfold valid_request, drive_request, api_request.
  cbn [req_headers target forallb snd]. rewrite valid_bearer.
  change (valid_path ("/v1.0/sites/" +:+ ?x)) with (valid_path x).
  rewrite valid_path_prefix by reflexivity.
  by rewrite !andb_true_r.
Qed.

Lemma valid_download_request id filePath token :
  valid_request (download_request id filePath token)
  = valid_header_value token && valid_path id.
Proof.
  unfold valid_request, download_request, api_request.
  cbn [req_headers target forallb snd]. rewrite valid_bearer, valid_content_path.
  by rewrite andb_true_r.
Qed.

Lemma valid_list_request id folderPath token :
  valid_request (list_request id folderPath token)
  = valid_header_value token && valid_path id.
Proof.
  unfold valid_request, list_request, api_request.
  cbn [req_headers target forallb snd]. rewrite valid_bearer.
  unfold children_path. destruct (negb _).
  - change (valid_path ("/v1.0/drives/" +:+ ?x)) with (valid_path x).
    rewrite valid_path_prefix by reflexivity.
    change (valid_path ("/root:/" +:+ ?x)) with (valid_path x).
    rewrite valid_path_url_safe by apply url_safe_encodeURIComponent.
    by rewrite !andb_true_r.
  - change (valid_path ("/v1.0/drives/" +:+ ?x)) with (valid_path x).
    rewrite valid_path_prefix by reflexivity. by rewrite !andb_true_r.
Qed.

Lemma valid_upload_request id remotePath token content :
  valid_request (upload_request id remotePath token content)
  = valid_header_value token && valid_path id.
Proof.
  unfold valid_request, upload_request, api_request.
  cbn [req_headers target forallb snd]. rewrite valid_bearer, valid_content_path.
  rewrite valid_header_pretty. by rewrite !andb_true_r.
Qed.

(** X26: What makes [https.request] accept a request of the scripts: the
    tenant for the token request (never the client identifier or the
    secret, which go into the body), and tenant, site name, identifiers and
    token for the requests to the resource API; never the path of the
    remote file or folder, which is percent-encoded. *)
Theorem accepted_requests token :
  (forall t i k, valid_request (token_request t i k) = valid_path t)
  /\ (forall tenant siteName,
        valid_request (site_request tenant siteName token)
        = valid_header_value token && (valid_path tenant && valid_path siteName))
  /\ (forall sid,
        valid_request (drive_request sid token)
        = valid_header_value token && valid_path sid)
  /\ (forall id filePath,
        valid_request (download_request id filePath token)
        = valid_header_value token && valid_path id)
  /\ (forall id folderPath,
        valid_request (list_request id folderPath token)
        = valid_header_value token && valid_path id)
  /\ (forall id remotePath content,
        valid_request (upload_request id remotePath token content)
        = valid_header_value token && valid_path id).
Proof.
  split; [exact valid_token_request|].
  split; [intros; apply valid_site_request|].
  split; [intros; apply valid_drive_request|].
  split; [intros; apply valid_download_request|].
  split; [intros; apply valid_list_request|].
  intros; apply valid_upload_request.
Qed.

(** ** When [https.request] refuses a request *)

Lemma loaded_valid_request env s t i k :
  loaded env s t i k -> valid_path t = false ->
  valid_request (token_request t i k) = false.
Proof.
  intros _ Ht. by rewrite valid_token_request.
Qed.

(** X27: With a tenant that makes no request path (one that holds a space,
    a control character or a character above U+00FF), sharepoint-auth.js
    ends with exit code 1 before any exchange and prints no token, and so
    does a pipeline script that runs it. *)
Theorem refused_token_request env srv s t i k :
  loaded env s t i k ->
  valid_path t = false ->
  let auth := run (sharepoint_auth env) srv s in
  (auth.2 = 1%Z /\ exchanges auth.1 = exchanges s /\ stdout auth.1 = stdout s)
  /\ forall siteName rest,
       let out := run (sharepoint_list_files env (siteName :: rest)) srv s in
       out.2 = 1%Z /\ exchanges out.1 = exchanges s /\ stdout out.1 = stdout s.
Proof.
  intros Hl Ht. pose proof (loaded_valid_request _ _ _ _ _ Hl Ht) as Hv.
  cbv zeta. split.
  - rewrite (run_auth_refused _ srv _ _ _ _ Hl Hv). repeat split.
  - intros siteName rest. unfold sharepoint_list_files. cbv zeta.
    assert (Hl' : loaded env (child_state s) t i k) by exact Hl.
    rewrite (run_pipeline_auth_failed env siteName _ srv s _ 1%Z
               (run_auth_refused _ srv _ _ _ _ Hl' Hv)) by done.
    repeat split.
Qed.




End Accepted.

(** * The properties on concrete inputs *)

Import Basic.

(** ** The string functions and the parser on small inputs *)

Example trim_standard_output : trim ("  X " +:+ newline) = "X".
Proof. reflexivity. Qed.

Example assignment_splits_at_first_equals :
  match_assignment "KEY=a=b" = Some ("KEY", "a=b").
Proof. reflexivity. Qed.

(** A line that ends with a carriage return does not match: the dot of the
    pattern stops before it and the pattern is anchored at the end. *)
Example assignment_rejects_carriage_return :
  match_assignment ("KEY=a" +:+ str_of_codes [13%N]) = None.
Proof. reflexivity. Qed.

Example comment_line_ignored :
  parse_env Example.credentials_file !! "# SharePoint Skill Configuration" = None
  /\ parse_env Example.credentials_file !! "TEAMS_CLIENT_SECRET" = Some "s3cret".
Proof. split; vm_compute; reflexivity. Qed.

Example encodes_path_separators :
  encodeURIComponent "Shared Documents/General/a.docx"
  = "Shared%20Documents%2FGeneral%2Fa.docx".
Proof. reflexivity. Qed.

Example token_request_body :
  utf8_decode (req_body (token_request "contoso" "app 1" "s/3"))
  = "grant_type=client_credentials&client_id=app+1&client_secret=s%2F3"
    +:+ "&scope=https%3A%2F%2Fgraph.microsoft.com%2F.default".
Proof. vm_compute. reflexivity. Qed.

(** The request paths and header values that [https.request] accepts: no
    space, no control character, nothing above U+00FF. *)
Example request_path_check :
  valid_path "/v1.0/sites/contoso.sharepoint.com:/sites/TeamSite" = true
  /\ valid_path "Team Site" = false
  /\ valid_path (str_of_codes [99; 97; 102; 195; 169]%N) = true
  /\ valid_path (str_of_codes [226; 130; 172]%N) = false
  /\ valid_header_value "Bearer X" = true
  /\ valid_header_value ("Bearer X" +:+ newline) = false.
Proof. vm_compute. repeat split. Qed.

Example tenant_suffix_removed :
  (run (get_tenant Example.env) Example.content_server (Example.machine ∅)).1.(stdout)
  = ["contoso"].
Proof. vm_compute. reflexivity. Qed.

(** The whole download pipeline on the three-byte content: four exchanges in
    the order of the resolution. *)
Example download_exchanges :
  map (fun e : exchange => (method e.1, path_of e.1))
    (exchanges (run (sharepoint_download Example.env
                       ["TeamSite"; "General/a.bin"; "out.bin"])
                    Example.content_server (Example.machine ∅)).1)
  = [ ("POST", "/contoso.onmicrosoft.com/oauth2/v2.0/token");
      ("GET", "/v1.0/sites/contoso.sharepoint.com:/sites/TeamSite");
      ("GET", "/v1.0/sites/site-1/drive");
      ("GET", "/v1.0/drives/drive-1/root:/General%2Fa.bin:/content") ].
Proof. vm_compute. reflexivity. Qed.

(** A state with the credential file of the examples holds a complete
    credential record. *)
Lemma example_loaded s :
  files s !! envPath Example.env = Some (utf8_encode Example.credentials_file) ->
  loaded Example.env s "contoso.onmicrosoft.com" "app-1" "s3cret".
Proof.
  intros Hfile. exists (utf8_encode Example.credentials_file).
  split; [exact Hfile|]. vm_compute. repeat split; discriminate.
Qed.

(** Against the service of the examples the resolution succeeds from every
    state that holds the credential file, whatever the operation is
    answered. *)
Lemma example_resolved_from s operation :
  files s !! envPath Example.env = Some (utf8_encode Example.credentials_file) ->
  resolved Example.env "TeamSite" (Example.service Example.grant operation)
    s "X" (VStr "drive-1") (Example.resolved_state s).
Proof.
  intros Hfile.
  set (srv := Example.service Example.grant operation).
  pose (c1 := log_out "X" (add_exchange Example.token_exchange (child_state s))).
  assert (Hauth : run (sharepoint_auth Example.env) srv (child_state s) = (c1, 0%Z)).
  { rewrite (run_auth_loaded Example.env srv (child_state s) _ _ _
               (example_loaded (child_state s) Hfile))
      by (vm_compute; reflexivity).
    vm_compute. reflexivity. }
  pose (c2 := log_out "contoso" (child_state (after_child s c1))).
  assert (Htenant : run (get_tenant Example.env) srv (child_state (after_child s c1))
                    = (c2, 0%Z)).
  { rewrite (run_tenant_loaded Example.env srv _
               (utf8_encode Example.credentials_file) "contoso.onmicrosoft.com");
      [reflexivity | exact Hfile | vm_compute; reflexivity | discriminate]. }
  exists (after_child s c1), "contoso", (after_child (after_child s c1) c2),
         (VStr "site-1"), "site-1".
  split; [exists c1; split; [exact Hauth | split; [vm_compute|]; reflexivity]|].
  split; [exists c2; split; [exact Htenant | split; [vm_compute|]; reflexivity]|].
  split; [vm_compute; reflexivity|]. split; [vm_compute; reflexivity|].
  split; [reflexivity|]. split; [vm_compute; reflexivity|].
  cbn zeta. split; vm_compute; reflexivity.
Qed.

Lemma example_resolved others operation :
  resolved Example.env "TeamSite" (Example.service Example.grant operation)
    (Example.machine others) "X" (VStr "drive-1")
    (Example.resolved_state (Example.machine others)).
Proof. apply example_resolved_from. apply lookup_insert_eq. Qed.

(** ** Credentials and token *)

Lemma credential_store_load_witness :
  ConfigMissing Example.env (Example.bare ∅)
    (run (sharepoint_auth Example.env) Example.content_server (Example.bare ∅))
  /\ ConfigIncomplete
       (Example.bare {[ envPath Example.env := utf8_encode Example.incomplete_file ]})
       (run (sharepoint_auth Example.env) Example.content_server
          (Example.bare {[ envPath Example.env := utf8_encode Example.incomplete_file ]})).
Proof.
  split.
  - apply (credential_store_load Example.env Example.content_server (Example.bare ∅)).
    vm_compute. reflexivity.
  - apply (proj2 (credential_store_load Example.env Example.content_server
                    (Example.bare {[ envPath Example.env
                                       := utf8_encode Example.incomplete_file ]}))
             (utf8_encode Example.incomplete_file)).
    + vm_compute. reflexivity.
    + right. right. vm_compute. reflexivity.
Defined.

(** A status 200 reply whose body is the empty object, and one whose body is
    an empty array: the text undefined on standard output and exit code 0. *)
Lemma acquire_without_access_token_witness :
  run (sharepoint_auth Example.env)
    (Example.service (Example.json_reply 200 "{}") Example.not_found)
    (Example.machine ∅)
  = (log_out "undefined"
       (add_exchange
          (token_request "contoso.onmicrosoft.com" "app-1" "s3cret",
           Example.json_reply 200 "{}") (Example.machine ∅)), 0%Z)
  /\ run (sharepoint_auth Example.env)
       (Example.service (Example.json_reply 200 "[]") Example.not_found)
       (Example.machine ∅)
     = (log_out "undefined"
          (add_exchange
             (token_request "contoso.onmicrosoft.com" "app-1" "s3cret",
              Example.json_reply 200 "[]") (Example.machine ∅)), 0%Z).
Proof.
  split.
  - apply (proj1 (acquire_without_access_token Example.env
             (Example.service (Example.json_reply 200 "{}") Example.not_found)
             (Example.machine ∅) "contoso.onmicrosoft.com" "app-1" "s3cret"
             {| statusCode := 200; res_headers := []; res_body := utf8_encode "{}" |}
             (VObj [])
             (example_loaded _ (lookup_insert_eq _ _ _))
             ltac:(vm_compute; reflexivity) ltac:(vm_compute; reflexivity)
             eq_refl ltac:(vm_compute; reflexivity)
             ltac:(intros fields [= <-]; reflexivity))); discriminate.
  - apply (proj1 (acquire_without_access_token Example.env
             (Example.service (Example.json_reply 200 "[]") Example.not_found)
             (Example.machine ∅) "contoso.onmicrosoft.com" "app-1" "s3cret"
             {| statusCode := 200; res_headers := []; res_body := utf8_encode "[]" |}
             (VArr [])
             (example_loaded _ (lookup_insert_eq _ _ _))
             ltac:(vm_compute; reflexivity) ltac:(vm_compute; reflexivity)
             eq_refl ltac:(vm_compute; reflexivity)
             ltac:(intros fields [=]))); discriminate.
Defined.

(** C10 as stated fails: the JSON text null is a valid body without an
    [access_token] field, and on it the property read throws; the script
    prints nothing on standard output and ends with exit code 1. *)
Lemma acquire_fails_on_null_body :
  let srv := Example.service (Example.json_reply 200 "null") Example.not_found in
  let out := run (sharepoint_auth Example.env) srv (Example.machine ∅) in
  JSON_parse "null" = Some VNull
  /\ out.2 = 1%Z
  /\ stdout out.1 = [].
Proof. vm_compute. repeat split; reflexivity. Qed.

Lemma acquire_token_witness :
  returns_token "X" (Example.machine ∅)
    (run (sharepoint_auth Example.env) Example.content_server (Example.machine ∅)).
Proof.
  apply (acquire_token Example.env Example.content_server (Example.machine ∅)
           "contoso.onmicrosoft.com" "app-1" "s3cret").
  - exists (utf8_encode Example.credentials_file).
    split; [vm_compute; reflexivity|]. vm_compute. repeat split; discriminate.
  - vm_compute. reflexivity.
  - exists {| statusCode := 200; res_headers := [];
              res_body := utf8_encode (Example.object1 "access_token" "X") |},
           [("access_token", VStr "X")].
    repeat split; vm_compute; reflexivity.
Defined.

(** C3 as stated fails: a status 200 reply whose body has no [access_token]
    makes sharepoint-auth.js return the token text undefined, although the
    body holds no [access_token] with that value. *)
Lemma acquire_returns_token_without_field :
  returns_token "undefined" (Example.machine ∅)
    (run (sharepoint_auth Example.env)
       (Example.service (Example.json_reply 200 "{}") Example.not_found)
       (Example.machine ∅))
  /\ ~ token_response "undefined"
        (Example.service (Example.json_reply 200 "{}") Example.not_found
           (exchanges (Example.machine ∅))
           (token_request "contoso.onmicrosoft.com" "app-1" "s3cret")).
Proof.
  split.
  - vm_compute. split; reflexivity.
  - intros (res & fields & Hreply & _ & Hparse & Hfield).
    vm_compute in Hreply. injection Hreply as <-.
    vm_compute in Hparse. injection Hparse as <-.
    discriminate Hfield.
Qed.

(** ** The order of resolution *)

(** C7 as stated fails: a status 200 reply without [access_token] grants no
    token, yet the pipeline goes on, and the site request, the drive request
    and the request of the operation carry the text undefined as bearer
    token. *)
Lemma resolvers_fire_without_token :
  let srv := Example.service (Example.json_reply 200 "{}")
               (fun _ => Example.json_reply 200 Example.listing) in
  let out := run (sharepoint_list_files Example.env ["TeamSite"]) srv
                 (Example.machine ∅) in
  (forall X, ~ token_response X
                 (srv [] (token_request "contoso.onmicrosoft.com" "app-1" "s3cret")))
  /\ map (fun e : exchange =>
            (method e.1, path_of e.1, assoc "Authorization" (req_headers e.1)))
       (exchanges out.1)
     = [ ("POST", "/contoso.onmicrosoft.com/oauth2/v2.0/token", None);
         ("GET", "/v1.0/sites/contoso.sharepoint.com:/sites/TeamSite",
          Some "Bearer undefined");
         ("GET", "/v1.0/sites/site-1/drive", Some "Bearer undefined");
         ("GET", "/v1.0/drives/drive-1/root/children", Some "Bearer undefined") ]
  /\ out.2 = 0%Z.
Proof.
  cbv zeta. split; [|vm_compute; split; reflexivity].
  intros X (res & fields & Hreply & _ & Hparse & Hfield).
  vm_compute in Hreply. injection Hreply as <-.
  vm_compute in Hparse. injection Hparse as <-.
  discriminate Hfield.
Qed.

(** ** Download *)



(** C2 fails on the code: when the content request is answered with status
    404, or cannot be sent at all, the script leaves the empty file that
    [fs.createWriteStream] made at the output path. *)
Lemma download_failure_leaves_file :
  let refused := run (sharepoint_download Example.env
                        ["TeamSite"; "General/a.bin"; "out.bin"])
                     (Example.service Example.grant Example.not_found)
                     (Example.machine ∅) in
  let unreachable := run (sharepoint_download Example.env
                            ["TeamSite"; "General/a.bin"; "out.bin"])
                         Example.unreachable_server (Example.machine ∅) in
  files (Example.machine ∅) !! "out.bin" = None
  /\ (refused.2 = 1%Z /\ files refused.1 !! "out.bin" = Some [])
  /\ (unreachable.2 = 1%Z /\ files unreachable.1 !! "out.bin" = Some []).
Proof.
  cbv zeta. split; [vm_compute; reflexivity|].
  rewrite (run_download_resolved Example.env
             (Example.service Example.grant Example.not_found)
             (Example.machine ∅) "TeamSite" "General/a.bin" ["out.bin"]
             "X" (VStr "drive-1") "drive-1"
             (Example.resolved_state (Example.machine ∅))
             (example_resolved ∅ _) eq_refl)
    by (vm_compute; reflexivity).
  rewrite (run_download_resolved Example.env Example.unreachable_server
             (Example.machine ∅) "TeamSite" "General/a.bin" ["out.bin"]
             "X" (VStr "drive-1") "drive-1"
             (Example.resolved_state (Example.machine ∅))
             (example_resolved ∅ _) eq_refl)
    by (vm_compute; reflexivity).
  split.
  - apply (run_download_failed _ _ (VStr "drive-1") "drive-1");
      [reflexivity | vm_compute; reflexivity |].
    vm_compute. repeat split; discriminate.
  - apply (run_download_failed _ _ (VStr "drive-1") "drive-1");
      [reflexivity | vm_compute; reflexivity |].
    vm_compute. exact I.
Qed.

(** The sibling branch does clean up: when the request that follows a
    redirect cannot be sent, the output file is removed. *)
Lemma redirect_failure_removes_file :
  let out := run (sharepoint_download Example.env
                    ["TeamSite"; "General/a.bin"; "out.bin"])
                 (Example.service Example.grant
                    (fun req =>
                       match target req with
                       | Url _ => TransportError "socket hang up"
                       | HostPath _ _ _ =>
                           Responded
                             {| statusCode := 302;
                                res_headers :=
                                  [("location", "https://cdn.example/blob?sig=1")];
                                res_body := [] |}
                       end))
                 (Example.machine ∅) in
  out.2 = 1%Z /\ files out.1 !! "out.bin" = None.
Proof. vm_compute. split; reflexivity. Qed.

(** ** List *)

(** The entries that [data.value.map] makes of the two items. *)
Example listing_entries_of_items :
  map_items Example.listing_items = Some Example.listing_entries.
Proof. vm_compute. reflexivity. Qed.


(** ** Upload *)







(** * The further properties on concrete inputs *)

(** ** Footprints *)

(** Two texts for one file, and two files. *)
Example place_of_alias :
  place_of "/home/user" "./a.bin" = place_of "/home/user" "a.bin"
  /\ place_of "/home/user" "/home/user/sub/../a.bin" = place_of "/home/user" "a.bin"
  /\ place_of "/home/user" "notes.txt" <> place_of "/home/user" "out.bin".
Proof. vm_compute. repeat split. discriminate. Qed.

(** A download to [out.bin] leaves a file [notes.txt] alone. *)
Lemma download_writes_only_output_witness :
  let s := Example.machine {[ "notes.txt" := Example.ten_bytes ]} in
  files (run (sharepoint_download Example.env
                ["TeamSite"; "General/a.bin"; "out.bin"])
             Example.content_server s).1 !! "notes.txt"
  = files s !! "notes.txt".
Proof.
  cbv zeta. apply (download_writes_only_output _ "/home/user").
  intros Heq. vm_compute in Heq. discriminate Heq.
Defined.

(** ** The credential file *)

(** A second assignment of the tenant, appended to the file, wins. *)
Lemma parse_env_append_line_witness :
  parse_env (Example.credentials_file +:+ newline +:+ "TEAMS_TENANT_ID=fabrikam")
  = <["TEAMS_TENANT_ID" := "fabrikam"]> (parse_env Example.credentials_file).
Proof.
  exact (parse_env_append_line Example.credentials_file "TEAMS_TENANT_ID=fabrikam"
           eq_refl).
Defined.

Lemma crlf_file_is_unreadable_witness :
  let s := Scenario.holding (crlf_text Scenario.crlf_lines) in
  run (sharepoint_auth Example.env) Example.content_server s =
    (log_err "Run setup.js to configure credentials"
       (log_err "ERROR: Missing TEAMS_TENANT_ID or TENANT in sharepoint.env" s), 1%Z).
Proof.
  cbv zeta.
  apply (crlf_file_is_unreadable Example.env Example.content_server
           (Scenario.holding (crlf_text Scenario.crlf_lines)) Scenario.crlf_lines).
  - repeat constructor.
  - apply lookup_singleton_eq.
Defined.

(** The secret that was typed between quotes comes back without them. *)
Lemma setup_reads_back_saved_witness :
  let config := loadCredentials Scenario.saved_file in
  config !! "clientId" = Some "app-1"
  /\ config !! "clientSecret" = Some "s3cret"
  /\ config !! "tenantId" = Some "contoso.onmicrosoft.com".
Proof.
  apply (setup_reads_back_saved "2026-01-01T00:00:00.000Z" "app-1" "'s3cret'"
           "contoso.onmicrosoft.com");
    first [ reflexivity | intros Heq; vm_compute in Heq; discriminate Heq ].
Defined.

Lemma scripts_load_saved_witness :
  let s := Scenario.holding Scenario.saved_file in
  let request := token_request "contoso.onmicrosoft.com" "app-1" "s3cret" in
  loaded Example.env s "contoso.onmicrosoft.com" "app-1" "s3cret"
  /\ issued s (run (sharepoint_auth Example.env) Example.content_server s).1
     = [(request, Example.content_server (exchanges s) request)].
Proof.
  apply (scripts_load_saved Example.env Example.content_server
           (Scenario.holding Scenario.saved_file)
           "2026-01-01T00:00:00.000Z" "app-1" "'s3cret'" "contoso.onmicrosoft.com");
    first [ reflexivity
          | apply lookup_singleton_eq
          | intros Heq; vm_compute in Heq; discriminate Heq ].
Defined.

Lemma setup_tests_what_scripts_send_witness :
  let s := Scenario.holding Scenario.plain_file in
  let request := token_request "contoso.onmicrosoft.com" "app-1" "s3cret" in
  (exists tr,
     issued (Example.bare ∅)
       (run (testAuthentication Scenario.config (fun _ => Return) (fun _ => Exit 1))
            Example.content_server (Example.bare ∅)).1
     = (request, Example.content_server [] request) :: tr)
  /\ issued s (run (sharepoint_auth Example.env) Example.content_server s).1
     = [(request, Example.content_server (exchanges s) request)].
Proof.
  apply (setup_tests_what_scripts_send Example.env Example.content_server
           (Example.bare ∅) (Scenario.holding Scenario.plain_file)
           "2026-01-01T00:00:00.000Z" Scenario.config (fun _ => Return)
           (fun _ => Exit 1) "app-1" "s3cret" "contoso.onmicrosoft.com");
    first [ apply lookup_singleton_eq
          | vm_compute; reflexivity
          | repeat split; first [ reflexivity | discriminate ] ].
Defined.

(** ** Tenant and token *)

Lemma tenant_name_of_domain_witness :
  run (get_tenant Example.env) Example.content_server (Example.machine ∅)
  = (log_out "contoso" (Example.machine ∅), 0%Z).
Proof.
  apply (tenant_name_of_domain Example.env Example.content_server
           (Example.machine ∅) "contoso" "app-1" "s3cret").
  - reflexivity.
  - left. apply example_loaded. apply lookup_insert_eq.
Defined.

Lemma tenant_step_cannot_fail_witness :
  let s1 := Scenario.token_state (Example.machine ∅) in
  tenant_read Example.env Example.content_server s1 "contoso"
    (after_child s1 (log_out "contoso" (child_state s1))).
Proof.
  apply (tenant_step_cannot_fail Example.env Example.content_server
           (Example.machine ∅) "contoso.onmicrosoft.com" "app-1" "s3cret" "X").
  - apply example_loaded. apply lookup_insert_eq.
  - exists (log_out "X" (add_exchange Example.token_exchange
                           (child_state (Example.machine ∅)))).
    split; [|split; reflexivity].
    rewrite (run_auth_loaded Example.env Example.content_server
               (child_state (Example.machine ∅)) _ _ _
               (example_loaded (child_state (Example.machine ∅))
                  (lookup_insert_eq _ _ _)))
      by (vm_compute; reflexivity).
    vm_compute. reflexivity.
Defined.

Lemma bearer_token_is_access_token_witness :
  (exists s1, acquired Example.env Example.content_server (Example.machine ∅) "X" s1)
  /\ forall token s1,
       acquired Example.env Example.content_server (Example.machine ∅) token s1 ->
       token = "X".
Proof.
  apply (bearer_token_is_access_token Example.env Example.content_server
           (Example.machine ∅) "contoso.onmicrosoft.com" "app-1" "s3cret" "X").
  - apply example_loaded. apply lookup_insert_eq.
  - vm_compute. reflexivity.
  - exists {| statusCode := 200; res_headers := [];
              res_body := utf8_encode (Example.object1 "access_token" "X") |},
           [("access_token", VStr "X")].
    repeat split; vm_compute; reflexivity.
  - reflexivity.
Defined.


(** ** Request paths *)

Lemma remote_path_is_one_segment_witness :
  in_chars (encodeURIComponent "General/notes.txt") "/"%char = false.
Proof. apply remote_path_is_one_segment. reflexivity. Defined.

(** ** Outcomes of the operations *)






(** A redirect to an http URL: [https.get] refuses it, no second request is
    sent and the empty file stays. *)
Example download_redirect_to_http :
  let out := run (sharepoint_download Example.env
                    ["TeamSite"; "General/a.bin"; "out.bin"])
                 (Example.service Example.grant
                    (fun _ =>
                       Responded
                         {| statusCode := 302;
                            res_headers :=
                              [("location", "http://cdn.example/blob?sig=1")];
                            res_body := [] |}))
                 (Example.machine ∅) in
  out.2 = 1%Z /\ files out.1 !! "out.bin" = Some []
  /\ map (fun e : exchange => path_of e.1) (exchanges out.1)
     = [ "/contoso.onmicrosoft.com/oauth2/v2.0/token";
         "/v1.0/sites/contoso.sharepoint.com:/sites/TeamSite";
         "/v1.0/sites/site-1/drive";
         "/v1.0/drives/drive-1/root:/General%2Fa.bin:/content" ].
Proof. vm_compute. repeat split. Qed.

(** ** Reports of the resolvers *)

Lemma resolver_failures_witness :
  resolver_failure_report "Site" (site_request "contoso" "NoSuchSite" "X")
    (Example.service Example.grant Example.not_found) (Example.bare ∅)
    (run (getSiteId ("contoso" +:+ ".sharepoint.com:/sites/" +:+ "NoSuchSite") "X"
            (fun _ => Return))
         (Example.service Example.grant Example.not_found) (Example.bare ∅)).
Proof.
  apply (proj1 (resolver_failures "X" (fun _ => Return)
                  (Example.service Example.grant Example.not_found)
                  (Example.bare ∅)) "contoso" "NoSuchSite").
  vm_compute. reflexivity.
Defined.

Lemma upload_missing_local_file_witness :
  run (sharepoint_upload Example.env ["TeamSite"; "missing.txt"; "Docs/missing.txt"])
      Example.upload_server (Example.machine ∅)
  = (log_err "ERROR: Local file not found: missing.txt" (Example.machine ∅), 1%Z).
Proof.
  apply (upload_missing_local_file Example.env Example.upload_server
           (Example.machine ∅) "TeamSite" "missing.txt" "Docs/missing.txt" []).
  vm_compute. reflexivity.
Defined.

(** ** The site test of setup.js *)

Lemma setup_tests_the_site_request_witness :
  let s := Example.machine ∅ in
  let request := site_request "contoso" "TeamSite" "X" in
  tenant_read Example.env Example.content_server s "contoso"
    (after_child s (log_out "contoso" (child_state s)))
  /\ exists tr,
       issued (Example.bare ∅)
         (run (testSiteAccess Scenario.config (VStr "X") "TeamSite"
                 (fun _ => Return) (fun _ => Exit 1))
              Example.content_server (Example.bare ∅)).1
       = (request, Example.content_server [] request) :: tr.
Proof.
  apply (setup_tests_the_site_request Example.env Example.content_server
           (Example.machine ∅) "contoso.onmicrosoft.com" "app-1" "s3cret"
           Scenario.config (VStr "X") "X" "TeamSite" (fun _ => Return)
           (fun _ => Exit 1) Example.content_server (Example.bare ∅)).
  - apply example_loaded. apply lookup_insert_eq.
  - vm_compute. reflexivity.
  - reflexivity.
  - reflexivity.
  - vm_compute. reflexivity.
Defined.

(** ** Requests that [https.request] refuses *)

(** A tenant with a space: no token request is sent. *)
Lemma refused_token_request_witness :
  let s := Scenario.holding Scenario.spaced_file in
  let out := run (sharepoint_auth Example.env) Example.content_server s in
  out.2 = 1%Z /\ exchanges out.1 = [] /\ stdout out.1 = [].
Proof.
  apply (proj1 (refused_token_request Example.env Example.content_server
                  (Scenario.holding Scenario.spaced_file)
                  "contoso corp" "app-1" "s3cret"
                  ltac:(exists (utf8_encode Scenario.spaced_file);
                        split; [apply lookup_singleton_eq|];
                        vm_compute; repeat split; discriminate)
                  eq_refl)).
Defined.


